(** * Spira xUnit reader (Node.js): a shallow embedding of
    [spira-xunit-reader.js] and the properties of its configuration
    loader, result extractor and result submitter. *)

From Stdlib Require Import ZArith Ascii String List Lia Bool DecimalString.
From stdpp Require Import gmap strings list.

Set Warnings "-register-all".
Local Open Scope string_scope.
Local Open Scope Z_scope.

(** ** JavaScript values used by the program *)

Module Js.

(** Numbers.  A finite number is kept as the decimal [m * 10^e] that the
    program text or the parsed string denotes; the double nearest to it is
    what Node holds.  The sign of zero is not tracked. *)
Inductive JsNum : Type :=
| NaN
| Inf (neg : bool)
| Dec (m e : Z).

Definition num (z : Z) : JsNum := Dec z 0.

(** [m1 * 10^e1] against [m2 * 10^e2], on a common exponent. *)
Definition dec_compare (m1 e1 m2 e2 : Z) : comparison :=
  let e0 := Z.min e1 e2 in
  Z.compare (m1 * 10 ^ (e1 - e0)) (m2 * 10 ^ (e2 - e0)).

(** The comparison of two numbers, [None] when one of them is NaN. *)
Definition num_compare (a b : JsNum) : option comparison :=
  match a, b with
  | NaN, _ | _, NaN => None
  | Inf na, Inf nb =>
      Some (match na, nb with
            | true, false => Lt | false, true => Gt | _, _ => Eq end)
  | Inf true, Dec _ _ => Some Lt
  | Inf false, Dec _ _ => Some Gt
  | Dec _ _, Inf true => Some Gt
  | Dec _ _, Inf false => Some Lt
  | Dec m1 e1, Dec m2 e2 => Some (dec_compare m1 e1 m2 e2)
  end.

(** [a === b] on numbers. *)
Definition num_eqb (a b : JsNum) : bool :=
  match num_compare a b with Some Eq => true | _ => false end.

(** [a < b] and [a >= b] on numbers: both are false on NaN. *)
Definition num_ltb (a b : JsNum) : bool :=
  match num_compare a b with Some Lt => true | _ => false end.

Definition num_geb (a b : JsNum) : bool :=
  match num_compare a b with Some Gt | Some Eq => true | _ => false end.

(** ToBoolean on a number: NaN and zero are falsy. *)
Definition num_truthy (a : JsNum) : bool :=
  match a with
  | NaN => false
  | Inf _ => true
  | Dec m _ => negb (m =? 0)
  end.

(** Values: what [xml2js] (with [explicitArray: false] and
    [mergeAttrs: true]) and the HTTP responses hand to the program.  An
    element with attributes or children is an object whose fields are the
    merged attributes and children and whose text is under the key ["_"];
    an element with text only is that string; an empty element is the empty
    string; repeated children are an array. *)
Inductive JsVal : Type :=
| VUndef
| VNull
| VBool (b : bool)
| VNum (n : JsNum)
| VStr (s : string)
| VObj (fields : list (string * JsVal))
| VArr (items : list JsVal).

(** ToBoolean. *)
Definition truthy (v : JsVal) : bool :=
  match v with
  | VUndef | VNull => false
  | VBool b => b
  | VNum n => num_truthy n
  | VStr s => negb (String.eqb s "")
  | VObj _ | VArr _ => true
  end.

(** [a || b]. *)
Definition or_else (a b : JsVal) : JsVal := if truthy a then a else b.

Fixpoint assoc (k : string) (fs : list (string * JsVal)) : JsVal :=
  match fs with
  | [] => VUndef
  | (k', v) :: fs' => if String.eqb k k' then v else assoc k fs'
  end.

(** [v.k] for the field names the program reads ([name], [classname],
    [message], [_], ...): none of them is a property of a string, a number
    or an array, so only an object can hold one.  Reading a field of
    [undefined] or [null] is a TypeError and is not a case of [field]: the
    program guards every such read. *)
Definition field (k : string) (v : JsVal) : JsVal :=
  match v with
  | VObj fs => assoc k fs
  | _ => VUndef
  end.

(** *** String methods.  Strings are sequences of 8-bit characters here;
    case mapping and white space are those of ASCII.  [toLowerCase] and
    [trim] are those of Node on the texts of ASCII characters; on other
    texts Node also maps the capitals and strips the spaces outside ASCII
    (a no-break space, a byte order mark), so the theorems that turn on the
    two are stated for the texts of ASCII characters. *)

Definition is_ws (c : ascii) : bool :=
  let n := N_of_ascii c in
  (((9 <=? n) && (n <=? 13)) || (n =? 32))%N.

Fixpoint trim_start (s : string) : string :=
  match s with
  | String c s' => if is_ws c then trim_start s' else s
  | EmptyString => EmptyString
  end.

Fixpoint trim_end (s : string) : string :=
  match s with
  | EmptyString => EmptyString
  | String c s' =>
      let t := trim_end s' in
      if is_ws c && String.eqb t "" then "" else String c t
  end.

(** [s.trim()] *)
Definition trim (s : string) : string := trim_end (trim_start s).

(** [s.startsWith(p)] *)
Definition startsWith (s p : string) : bool := String.prefix p s.

Fixpoint rev_onto (s acc : string) : string :=
  match s with
  | EmptyString => acc
  | String c s' => rev_onto s' (String c acc)
  end.

Definition rev (s : string) : string := rev_onto s "".

(** [s.endsWith(p)] *)
Definition endsWith (s p : string) : bool := String.prefix (rev p) (rev s).

(** [s.slice(1, -1)] *)
Definition slice_1_m1 (s : string) : string :=
  String.substring 1 (String.length s - 2) s.

(** [s.split(c)] for a one-character separator. *)
Fixpoint split (c : ascii) (s : string) : list string :=
  match s with
  | EmptyString => [""]
  | String a s' =>
      let r := split c s' in
      if Ascii.eqb a c then "" :: r
      else match r with
           | h :: t => String a h :: t
           | [] => [String a ""]
           end
  end.

(** [parts.join(sep)] *)
Definition join (sep : string) (parts : list string) : string :=
  String.concat sep parts.

Definition lower (c : ascii) : ascii :=
  let n := N_of_ascii c in
  if ((65 <=? n) && (n <=? 90))%N then ascii_of_N (n + 32) else c.

(** [s.toLowerCase()] *)
Fixpoint toLowerCase (s : string) : string :=
  match s with
  | EmptyString => EmptyString
  | String c s' => String (lower c) (toLowerCase s')
  end.

(** *** Number parsing and printing *)

Definition is_digit (c : ascii) : bool :=
  let n := N_of_ascii c in ((48 <=? n) && (n <=? 57))%N.

(** The value of a digit in base 16, which covers base 10. *)
Definition hex_val (c : ascii) : option Z :=
  let n := Z.of_N (N_of_ascii c) in
  if (48 <=? n) && (n <=? 57) then Some (n - 48)
  else if (97 <=? n) && (n <=? 102) then Some (n - 87)
  else if (65 <=? n) && (n <=? 70) then Some (n - 55)
  else None.

Definition is_hex_digit (c : ascii) : bool :=
  match hex_val c with Some _ => true | None => false end.

(** The longest prefix of [s] whose characters satisfy [p], and the rest. *)
Fixpoint span (p : ascii -> bool) (s : string) : string * string :=
  match s with
  | String c s' =>
      if p c then let '(a, b) := span p s' in (String c a, b)
      else (EmptyString, s)
  | EmptyString => (EmptyString, EmptyString)
  end.

Fixpoint digits_onto (radix acc : Z) (ds : string) : Z :=
  match ds with
  | EmptyString => acc
  | String c ds' =>
      digits_onto radix
        (acc * radix + match hex_val c with Some d => d | None => 0 end) ds'
  end.

Definition digits_value (radix : Z) (ds : string) : Z :=
  digits_onto radix 0 ds.

(** An optional sign: whether it is ["-"], and the rest. *)
Definition take_sign (s : string) : bool * string :=
  match s with
  | String "-" s' => (true, s')
  | String "+" s' => (false, s')
  | _ => (false, s)
  end.

Definition signed (neg : bool) (z : Z) : Z := if neg then - z else z.

(** [parseInt(s)] with no radix: leading white space is skipped, then an
    optional sign, an optional [0x] prefix, and the longest run of digits;
    NaN when there is none.  What follows the digits is ignored. *)
Definition parseInt (s : string) : JsNum :=
  let '(neg, s1) := take_sign (trim_start s) in
  let '(radix, s2) :=
    match s1 with
    | String "0" (String "x" r) | String "0" (String "X" r) => (16, r)
    | _ => (10, s1)
    end in
  let '(ds, _) :=
    span (if radix =? 16 then is_hex_digit else is_digit) s2 in
  if String.eqb ds "" then NaN
  else Dec (signed neg (digits_value radix ds)) 0.

(** The exponent part [e+dd] of a decimal literal, 0 when there is none. *)
Definition exponent_part (s : string) : Z :=
  match s with
  | String c r =>
      if Ascii.eqb c "e" || Ascii.eqb c "E" then
        let '(eneg, r1) := take_sign r in
        let '(ed, _) := span is_digit r1 in
        if String.eqb ed "" then 0 else signed eneg (digits_value 10 ed)
      else 0
  | EmptyString => 0
  end.

(** [parseFloat(s)]: leading white space is skipped, then the longest
    prefix that is a decimal literal is read; NaN when there is none. *)
Definition parseFloat (s : string) : JsNum :=
  let '(neg, s1) := take_sign (trim_start s) in
  if startsWith s1 "Infinity" then Inf neg
  else
    let '(ip, r1) := span is_digit s1 in
    let '(fp, r2) :=
      match r1 with
      | String "." r => span is_digit r
      | _ => (EmptyString, r1)
      end in
    if String.eqb ip "" && String.eqb fp "" then NaN
    else Dec (signed neg (digits_value 10 (ip ++ fp)))
             (exponent_part r2 - Z.of_nat (String.length fp)).

Definition Z_to_string (z : Z) : string :=
  NilZero.string_of_int (Z.to_int z).

Fixpoint strip_zeros (fuel : nat) (m e : Z) : Z * Z :=
  match fuel with
  | O => (m, e)
  | S fuel' =>
      if (e <? 0) && (m mod 10 =? 0) then strip_zeros fuel' (m / 10) (e + 1)
      else (m, e)
  end.

Fixpoint zeros (n : nat) : string :=
  match n with O => "" | S n' => String "0" (zeros n') end.

(** Number to string, in positional notation (Node switches to exponent
    notation from 1e21 and below 1e-6, which is not followed here). *)
Definition num_to_string (n : JsNum) : string :=
  match n with
  | NaN => "NaN"
  | Inf false => "Infinity"
  | Inf true => "-Infinity"
  | Dec m e =>
      if m =? 0 then "0"
      else if 0 <=? e then Z_to_string (m * 10 ^ e)
      else
        let '(m', e') := strip_zeros (Z.to_nat (- e)) m e in
        if e' =? 0 then Z_to_string m'
        else
          let p := 10 ^ (- e') in
          let fr := Z_to_string (Z.abs m' mod p) in
          (if m' <? 0 then "-" else "") ++ Z_to_string (Z.abs m' / p) ++ "."
          ++ zeros (Z.to_nat (- e') - String.length fr) ++ fr
  end.

(** ToString, as template literals and string concatenation apply it. *)
Fixpoint to_string (v : JsVal) : string :=
  match v with
  | VUndef => "undefined"
  | VNull => "null"
  | VBool b => if b then "true" else "false"
  | VNum n => num_to_string n
  | VStr s => s
  | VObj _ => "[object Object]"
  | VArr items =>
      join ","
        (List.map (fun x => match x with
                            | VUndef | VNull => ""
                            | _ => to_string x
                            end) items)
  end.

End Js.

Import Js.

(** ** The configuration file *)

Module SpiraConfig.

(** The configuration object.  [test_case_ids] and [test_set_ids] are the
    two objects used as maps, here the finite maps of their own properties.
    [other] holds the properties that a credentials key outside the fixed
    ones creates.  An assignment under the key [__proto__] stores nothing,
    in the object as in its tables: the setter that every object inherits
    ignores a value that is not an object.  Two things in Node are outside
    this record.  A credentials key spelled [test_case_ids] or
    [test_set_ids] replaces that table by a text, and the next entry of the
    table throws; here it is one more entry of [other].  And a lookup in a
    table also finds the members that every object inherits, of which
    [constructor] and [__proto__] are in lower case.  The theorems that turn
    on either say which files and names they are about. *)
Record t : Type := mk {
  url : string;
  username : string;
  token : string;
  project_id : JsNum;
  release_id : JsNum;
  test_set_id : JsNum;
  create_build : bool;
  test_case_ids : gmap string JsNum;
  test_set_ids : gmap string JsNum;
  other : gmap string string
}.

(** The fields as the constructor sets them. *)
Definition initial : t :=
  {| url := ""; username := ""; token := "";
     project_id := num (-1); release_id := num (-1); test_set_id := num (-1);
     create_build := false;
     test_case_ids := ∅; test_set_ids := ∅; other := ∅ |}.

(** What the loop of [loadConfig] finds in a trimmed line. *)
Inductive Line : Type :=
| Skipped
| Header (section : string)
| Entry (trimmedKey value : string).

Definition classify (line : string) : Line :=
  if String.eqb line "" || startsWith line "#" then Skipped
  else if startsWith line "[" && endsWith line "]" then
    Header (slice_1_m1 line)
  else
    match split "=" line with
    | key :: valueParts =>
        if String.eqb key "" || Nat.eqb (List.length valueParts) 0
        then Skipped
        else Entry (trim key) (trim (join "=" valueParts))
    | [] => Skipped
    end.

(** [this[trimmedKey] = value] for a string value; under [__proto__] the
    text is not stored. *)
Definition set_string (trimmedKey value : string) (c : t) : t :=
  if String.eqb trimmedKey "url" then
    mk value (username c) (token c) (project_id c) (release_id c)
       (test_set_id c) (create_build c) (test_case_ids c) (test_set_ids c)
       (other c)
  else if String.eqb trimmedKey "username" then
    mk (url c) value (token c) (project_id c) (release_id c)
       (test_set_id c) (create_build c) (test_case_ids c) (test_set_ids c)
       (other c)
  else if String.eqb trimmedKey "token" then
    mk (url c) (username c) value (project_id c) (release_id c)
       (test_set_id c) (create_build c) (test_case_ids c) (test_set_ids c)
       (other c)
  else if String.eqb trimmedKey "__proto__" then c
  else
    mk (url c) (username c) (token c) (project_id c) (release_id c)
       (test_set_id c) (create_build c) (test_case_ids c) (test_set_ids c)
       (<[trimmedKey := value]> (other c)).

(** [table[key] = n]: a number under [__proto__] is not stored. *)
Definition set_entry (key : string) (n : JsNum) (table : gmap string JsNum)
  : gmap string JsNum :=
  if String.eqb key "__proto__" then table else <[key := n]> table.

(** [this[trimmedKey] = parseInt(value)] for the three numeric keys. *)
Definition set_number (trimmedKey : string) (n : JsNum) (c : t) : t :=
  if String.eqb trimmedKey "project_id" then
    mk (url c) (username c) (token c) n (release_id c)
       (test_set_id c) (create_build c) (test_case_ids c) (test_set_ids c)
       (other c)
  else if String.eqb trimmedKey "release_id" then
    mk (url c) (username c) (token c) (project_id c) n
       (test_set_id c) (create_build c) (test_case_ids c) (test_set_ids c)
       (other c)
  else
    mk (url c) (username c) (token c) (project_id c) (release_id c)
       n (create_build c) (test_case_ids c) (test_set_ids c)
       (other c).

(** The body of the loop after the key and the value are split. *)
Definition store (currentSection trimmedKey value : string) (c : t) : t :=
  if String.eqb currentSection "credentials" then
    if String.eqb trimmedKey "create_build" then
      mk (url c) (username c) (token c) (project_id c) (release_id c)
         (test_set_id c) (String.eqb (toLowerCase value) "true")
         (test_case_ids c) (test_set_ids c) (other c)
    else if String.eqb trimmedKey "project_id"
            || String.eqb trimmedKey "release_id"
            || String.eqb trimmedKey "test_set_id" then
      set_number trimmedKey (parseInt value) c
    else set_string trimmedKey value c
  else if String.eqb currentSection "test_cases" then
    mk (url c) (username c) (token c) (project_id c) (release_id c)
       (test_set_id c) (create_build c)
       (set_entry (toLowerCase trimmedKey) (parseInt value) (test_case_ids c))
       (test_set_ids c) (other c)
  else if String.eqb currentSection "test_sets" then
    mk (url c) (username c) (token c) (project_id c) (release_id c)
       (test_set_id c) (create_build c) (test_case_ids c)
       (set_entry (toLowerCase trimmedKey) (parseInt value) (test_set_ids c))
       (other c)
  else c.

(** One turn of the loop: the current section and the object so far. *)
Definition loadLine (st : string * t) (line : string) : string * t :=
  match classify (trim line) with
  | Skipped => st
  | Header section => (section, snd st)
  | Entry trimmedKey value =>
      (fst st, store (fst st) trimmedKey value (snd st))
  end.

Definition loadLines (lines : list string) (st : string * t) : string * t :=
  fold_left loadLine lines st.

(** [new SpiraConfig(configFile)] on the content of the file. *)
Definition loadConfig (content : string) : t :=
  snd (loadLines (split (ascii_of_N 10) content) ("", initial)).

(** *** What a file defines and what the object holds *)

(** The effect of an entry on the object. *)
Definition store_entry (c : t) (e : string * string * string) : t :=
  store (fst (fst e)) (snd (fst e)) (snd e) c.

(** The [key = value] lines that the loop stores, each with the section it
    stands in, in the order of the file. *)
Fixpoint entries_from (section : string) (lines : list string)
  : list (string * string * string) :=
  match lines with
  | [] => []
  | line :: rest =>
      match classify (trim line) with
      | Skipped => entries_from section rest
      | Header section' => entries_from section' rest
      | Entry trimmedKey value =>
          (section, trimmedKey, value) :: entries_from section rest
      end
  end.

Definition entries (content : string) : list (string * string * string) :=
  entries_from "" (split (ascii_of_N 10) content).

(** The three sections that the loader reads. *)
Definition known_section (section : string) : Prop :=
  section = "credentials" \/ section = "test_cases" \/ section = "test_sets".

(** Two keys of a section name the same setting: credentials keys as they
    are written, the keys of the two tables up to case. *)
Definition same_key (section key key' : string) : Prop :=
  if String.eqb section "credentials" then key = key'
  else toLowerCase key = toLowerCase key'.

(** What the object holds of its own for a key of a section. *)
Definition stored (c : t) (section key : string) : JsVal :=
  if String.eqb section "credentials" then
    if String.eqb key "create_build" then VBool (create_build c)
    else if String.eqb key "project_id" then VNum (project_id c)
    else if String.eqb key "release_id" then VNum (release_id c)
    else if String.eqb key "test_set_id" then VNum (test_set_id c)
    else if String.eqb key "url" then VStr (url c)
    else if String.eqb key "username" then VStr (username c)
    else if String.eqb key "token" then VStr (token c)
    else match other c !! key with
         | Some v => VStr v
         | None => VUndef
         end
  else if String.eqb section "test_cases" then
    match test_case_ids c !! toLowerCase key with
    | Some n => VNum n
    | None => VUndef
    end
  else if String.eqb section "test_sets" then
    match test_set_ids c !! toLowerCase key with
    | Some n => VNum n
    | None => VUndef
    end
  else VUndef.

(** The value that a line [key = value] of a section gives to its key: a
    boolean for [create_build], an integer for the three ids and for the
    entries of the tables, the text for the other credentials. *)
Definition value_of (section key value : string) : JsVal :=
  if String.eqb section "credentials" then
    if String.eqb key "create_build"
    then VBool (String.eqb (toLowerCase value) "true")
    else if String.eqb key "project_id" || String.eqb key "release_id"
            || String.eqb key "test_set_id"
    then VNum (parseInt value)
    else VStr value
  else VNum (parseInt value).

End SpiraConfig.

(** ** Results, requests and the state of a run *)

(** An entry of [attachments] and an entry of [links]. *)
Record Attachment : Type := { filename : string; binary_data : string }.
Record Link : Type := { link_url : string }.

(** An entry of [testResults]. *)
Record TestResult : Type := {
  test_case_id : JsNum;
  name : string;
  execution_status_id : Z;
  stack_trace : JsVal;
  message : JsVal;
  duration_seconds : JsNum;
  assert_count : JsNum;
  test_set_id : JsNum;
  attachments : list Attachment;
  links : list Link
}.

(** The id a response carries: the field is absent, null or a number. *)
Inductive IdVal : Type :=
| IdUndef
| IdNull
| IdNum (n : JsNum).

(** The JSON bodies of the three POST calls.  A field that the program
    adds to the body under a condition is an [option]. *)
Record BuildBody : Type := {
  b_ProjectId : JsNum;
  b_BuildStatusId : Z;
  b_ReleaseId : JsNum;
  b_Name : string;
  b_Description : string
}.

Record TestRunBody : Type := {
  TestRunFormatId : Z;
  StartDate : string;
  EndDate : string;
  RunnerName : string;
  RunnerTestName : string;
  RunnerMessage : JsVal;
  RunnerStackTrace : JsVal;
  RunnerAssertCount : JsNum;
  TestCaseId : JsNum;
  ExecutionStatusId : Z;
  ReleaseId : option JsNum;
  BuildId : option IdVal;
  TestSetId : option JsNum
}.

Record DocumentBody : Type := {
  d_ProjectId : JsNum;
  d_AttachmentTypeId : Z;
  d_FilenameOrUrl : string;
  d_CurrentVersion : string;
  d_ArtifactId : IdVal;
  d_ArtifactTypeId : Z;
  d_BinaryData : option string
}.

Inductive Body : Type :=
| OfBuild (b : BuildBody)
| OfTestRun (b : TestRunBody)
| OfDocument (b : DocumentBody).

(** One [axios.post(url, body, {params: {username, 'api-key': token}})]. *)
Record Request : Type := {
  req_url : string;
  req_body : Body;
  req_username : string;
  req_api_key : string
}.

(** What [axios.post] does: it resolves with a response, whose id field
    the program reads, or it rejects with an error, which has a message and
    for an HTTP error also a status. *)
Inductive Response : Type :=
| Resolved (id : IdVal)
| Rejected (status : option Z) (error_message : string).

(** What lies outside the program: the [path] and [fs] modules, [Date]
    and the server.  [readFileSync] gives the bytes of a file or the message
    of the error it throws; [now k] is the time (in ms) that the [k]-th
    [new Date()] of the run reads; [server] answers a request after the
    requests made before it. *)
Record Outside : Type := {
  path_dirname : string -> string;
  path_join : string -> string -> string;
  readFileSync : string -> string + list Byte.byte;
  now : nat -> Z;
  toISOString : Z -> string;
  server : list Request -> Request -> Response
}.

(** What a run changes: the parser's [testResults], the console, the
    requests made so far and the number of clock readings. *)
Record World : Type := {
  testResults : list TestResult;
  console : list string;
  requests : list Request;
  clock_reads : nat
}.

Definition start : World :=
  {| testResults := []; console := []; requests := []; clock_reads := O |}.

(** ** Computations that change the world and may throw *)

Inductive Outcome (A : Type) : Type :=
| Ret (a : A)
| Throw (error_message : string).
Arguments Ret {A} a.
Arguments Throw {A} error_message.

Definition M (A : Type) : Type := World -> Outcome A * World.

Definition ret {A} (a : A) : M A := fun w => (Ret a, w).

Definition bind {A B} (m : M A) (k : A -> M B) : M B :=
  fun w =>
    match m w with
    | (Ret a, w') => k a w'
    | (Throw e, w') => (Throw e, w')
    end.

Definition throw {A} (e : string) : M A := fun w => (Throw e, w).

(** [try { m } catch (error) { h error.message }] *)
Definition try_catch {A} (m : M A) (h : string -> M A) : M A :=
  fun w =>
    match m w with
    | (Ret a, w') => (Ret a, w')
    | (Throw e, w') => h e w'
    end.

Declare Scope js_scope.
Delimit Scope js_scope with js.
Notation "'let*' p ':=' m 'in' k" := (bind m (fun p => k))
  (at level 10, p pattern, m at level 100, k at level 200) : js_scope.
Notation "m ';;' k" := (bind m (fun _ => k))
  (at level 100, k at level 200, right associativity) : js_scope.
Local Open Scope js_scope.

(** [console.log(line)] *)
Definition log (line : string) : M unit :=
  fun w =>
    (Ret tt, {| testResults := testResults w;
                console := console w ++ [line];
                requests := requests w;
                clock_reads := clock_reads w |}).

(** [this.testResults.push(r)] *)
Definition push_result (r : TestResult) : M unit :=
  fun w =>
    (Ret tt, {| testResults := testResults w ++ [r];
                console := console w;
                requests := requests w;
                clock_reads := clock_reads w |}).

(** [for (const x of xs) { acc = body(acc, x) }] *)
Fixpoint for_of {A B} (xs : list A) (body : B -> A -> M B) (acc : B) : M B :=
  match xs with
  | [] => ret acc
  | x :: xs' => bind (body acc x) (for_of xs' body)
  end.

(** ** The report parser *)

Module SpiraResultsParser.

Definition nl : string := String (ascii_of_N 10) "".

(** *** [buffer.toString('base64')] *)

Definition base64_alphabet : string :=
  "ABCDEFGHIJKLMNOPQRSTUVWXYZabcdefghijklmnopqrstuvwxyz0123456789+/".

Definition base64_digit (n : N) : string :=
  match String.get (N.to_nat n) base64_alphabet with
  | Some c => String c ""
  | None => ""
  end.

Fixpoint base64_of (bs : list N) : string :=
  match bs with
  | [] => ""
  | [a] =>
      base64_digit (N.shiftr a 2)
      ++ base64_digit (N.shiftl (N.land a 3) 4) ++ "=="
  | [a; b] =>
      base64_digit (N.shiftr a 2)
      ++ base64_digit (N.lor (N.shiftl (N.land a 3) 4) (N.shiftr b 4))
      ++ base64_digit (N.shiftl (N.land b 15) 2) ++ "="
  | a :: b :: c :: rest =>
      base64_digit (N.shiftr a 2)
      ++ base64_digit (N.lor (N.shiftl (N.land a 3) 4) (N.shiftr b 4))
      ++ base64_digit (N.lor (N.shiftl (N.land b 15) 2) (N.shiftr c 6))
      ++ base64_digit (N.land c 63)
      ++ base64_of rest
  end.

Definition base64 (bs : list Byte.byte) : string :=
  base64_of (List.map Byte.to_N bs).

(** *** [attachmentRegex]: [[ATTACHMENT|path]] with a path of letters,
    digits, underscore, slash, backslash and dot. *)

Definition is_path_char (c : ascii) : bool :=
  let n := N_of_ascii c in
  (((48 <=? n) && (n <=? 57)) || ((65 <=? n) && (n <=? 90))
   || ((97 <=? n) && (n <=? 122))
   || (n =? 95) || (n =? 47) || (n =? 92) || (n =? 46))%N.

Fixpoint drop (n : nat) (s : string) : string :=
  match n, s with
  | S n', String _ s' => drop n' s'
  | _, _ => s
  end.

(** A match of the expression at the start of [s]: the captured path and
    the length of the whole match. *)
Definition match_here (s : string) : option (string * nat) :=
  if startsWith s "[[ATTACHMENT|" then
    let '(p, r) := span is_path_char (drop 13 s) in
    if negb (String.eqb p "") && startsWith r "]]"
    then Some (p, (13 + String.length p + 2)%nat)
    else None
  else None.

(** [text.matchAll(attachmentRegex)]: the captured paths, from left to
    right; [skip] characters of the last match are still to be passed. *)
Fixpoint matchAll (s : string) (skip : nat) : list string :=
  match s with
  | EmptyString => []
  | String _ s' =>
      match skip with
      | S k => matchAll s' k
      | O =>
          match match_here s with
          | Some (p, n) => p :: matchAll s' (n - 1)
          | None => matchAll s' O
          end
      end
  end.

Section WithOutside.

Variable o : Outside.

(** [readAttachmentFile(reportFile, filepath)]: the attachment, or [None]
    for the [null] of the catch clause. *)
Definition readAttachmentFile (reportFile filepath : string)
  : M (option Attachment) :=
  let reportFolder := path_dirname o reportFile in
  let fullPath := path_join o reportFolder filepath in
  match readFileSync o fullPath with
  | inr fileData =>
      ret (Some {| filename := filepath; binary_data := base64 fileData |})
  | inl error_message =>
      log ("Unable to read image file '" ++ filepath ++ "' due to error '"
           ++ error_message ++ "', so skipping attachment." ++ nl);;
      ret None
  end.

(** [if (attachment) attachments.push(attachment)] *)
Definition push_if (attachment : option Attachment)
  (attachments : list Attachment) : list Attachment :=
  match attachment with
  | Some a => attachments ++ [a]
  | None => attachments
  end.

(** [extractAttachments(text, reportFile, attachments)] *)
Definition extractAttachments (text : JsVal) (reportFile : string)
  (attachments : list Attachment) : M (list Attachment) :=
  match text with
  | VStr s =>
      for_of (matchAll s O)
        (fun attachments filepath =>
           let* attachment := readAttachmentFile reportFile filepath in
           ret (push_if attachment attachments))
        attachments
  | _ => throw "text.matchAll is not a function"
  end.

(** The chain of tests on the failure, warning, error and skipped nodes:
    message, details, executionStatusId and assertCount after it. *)
Definition resolve (testcase : JsVal) : JsVal * JsVal * Z * JsNum :=
  let failure := field "failure" testcase in
  let warning := field "warning" testcase in
  let error := field "error" testcase in
  let skipped := field "skipped" testcase in
  if truthy failure then
    (or_else (field "message" failure) (VStr "Test Failed"),
     or_else (field "_" failure) failure, 1, num 1)
  else if truthy warning then
    (or_else (field "message" warning) (VStr "Test Warning"),
     or_else (field "_" warning) warning, 6, num 1)
  else if truthy error then
    (or_else (field "message" error) (VStr "Test Error"),
     or_else (field "_" error) error, 5, num 1)
  else if truthy skipped then
    (or_else (field "message" skipped) (VStr "Test Skipped"),
     or_else (or_else (field "_" skipped) skipped) (VStr ""), 4, num 1)
  else
    (VStr "Success", VStr ("Nothing Reported" ++ nl), 2, num 0).

(** [details += text] *)
Definition append (details : JsVal) (text : string) : JsVal :=
  VStr (to_string details ++ text).

(** The blocks for [system-out] and [system-err]. *)
Definition capture (label : string) (stream : JsVal) (reportFile : string)
  (acc : JsVal * list Attachment) : M (JsVal * list Attachment) :=
  if truthy stream then
    let details := append (fst acc) (label ++ to_string stream ++ nl) in
    let* attachments := extractAttachments stream reportFile (snd acc) in
    ret (details, attachments)
  else ret acc.

(** The body of the loop over the properties. *)
Definition processProperty (reportFile : string)
  (acc : JsVal * list Attachment * list Link) (prop : JsVal)
  : M (JsVal * list Attachment * list Link) :=
  let '(details, attachments, links) := acc in
  match prop with
  | VUndef | VNull => throw "Cannot read properties of undefined"
  | _ =>
      let propName := field "name" prop in
      let propValue :=
        or_else (field "value" prop) (or_else (field "_" prop) (VStr "")) in
      let details :=
        append details
          ("- " ++ to_string propName ++ "=" ++ to_string propValue ++ nl) in
      match propName with
      | VStr pn =>
          if startsWith pn "attachment" then
            match propValue with
            | VStr pv =>
                if startsWith pv "http" then
                  ret (details, attachments,
                       (links ++ [{| link_url := pv |}])%list)
                else
                  let* attachment := readAttachmentFile reportFile pv in
                  ret (details, push_if attachment attachments, links)
            | _ => throw "propValue.startsWith is not a function"
            end
          else ret (details, attachments, links)
      | _ => throw "propName.startsWith is not a function"
      end
  end.

(** [Array.isArray(x) ? x : [x]] *)
Definition as_array (x : JsVal) : list JsVal :=
  match x with
  | VArr items => items
  | _ => [x]
  end.

(** [processTestCase(testcase, suiteName, reportFile)].  The two lookups
    are lookups among the own properties of the tables (see
    [SpiraConfig.t]): the key of the first holds a dot, which no inherited
    member does; the second is Node's for the suites that are not named
    after an inherited member. *)
Definition processTestCase (config : SpiraConfig.t)
  (testcase suiteName : JsVal) (reportFile : string) : M unit :=
  match testcase with
  | VUndef | VNull => throw "Cannot read properties of undefined"
  | _ =>
      let testName := field "name" testcase in
      let className := field "classname" testcase in
      let elapsedTime :=
        parseFloat (to_string (or_else (field "time" testcase)
                                       (VNum (num 0)))) in
      let fullName := to_string className ++ "." ++ to_string testName in
      match SpiraConfig.test_case_ids config !! toLowerCase fullName with
      | Some testCaseId =>
          if num_truthy testCaseId then
            match suiteName with
            | VStr suite =>
                let testSetId :=
                  match SpiraConfig.test_set_ids config !! toLowerCase suite
                  with
                  | Some n => if num_truthy n then n else num (-1)
                  | None => num (-1)
                  end in
                let '(message, details, executionStatusId, assertCount) :=
                  resolve testcase in
                let assertCount :=
                  if truthy (field "assertions" testcase)
                  then parseInt (to_string (field "assertions" testcase))
                  else assertCount in
                let* (details, attachments) :=
                  capture "System Out: " (field "system-out" testcase)
                    reportFile (details, []) in
                let* (details, attachments) :=
                  capture "System Err: " (field "system-err" testcase)
                    reportFile (details, attachments) in
                let properties := field "properties" testcase in
                let* (details, attachments, links) :=
                  if truthy properties && truthy (field "property" properties)
                  then for_of (as_array (field "property" properties))
                         (processProperty reportFile)
                         (details, attachments, [])
                  else ret (details, attachments, []) in
                push_result
                  {| test_case_id := testCaseId;
                     name := fullName;
                     execution_status_id := executionStatusId;
                     stack_trace := details;
                     message := message;
                     duration_seconds := elapsedTime;
                     assert_count := assertCount;
                     test_set_id := testSetId;
                     attachments := attachments;
                     links := links |}
            | _ => throw "suiteName.toLowerCase is not a function"
            end
          else
            log ("Unable to find Spira id tag for test case '" ++ fullName
                 ++ "', so skipping this test case.")
      | None =>
          log ("Unable to find Spira id tag for test case '" ++ fullName
               ++ "', so skipping this test case.")
      end
  end.

End WithOutside.

End SpiraResultsParser.

(** ** The calls to the server *)

Definition RUNNER_NAME : string := "xUnit (Node.js)".
Definition REST_SERVICE_URL : string := "/Services/v6_0/RestService.svc/".

(** [await axios.post(...)]: the request is made and the server answers. *)
Definition axios_post (o : Outside) (r : Request) : M Response :=
  fun w =>
    (Ret (server o (requests w) r),
     {| testResults := testResults w;
        console := console w;
        requests := requests w ++ [r];
        clock_reads := clock_reads w |}).

(** [new Date()] *)
Definition new_Date (o : Outside) : M Z :=
  fun w =>
    (Ret (now o (clock_reads w)),
     {| testResults := testResults w;
        console := console w;
        requests := requests w;
        clock_reads := S (clock_reads w) |}).

(** [error.response?.status === 404] *)
Definition is_404 (status : option Z) : bool :=
  match status with
  | Some code => code =? 404
  | None => false
  end.

Definition id_to_string (i : IdVal) : string :=
  match i with
  | IdUndef => "undefined"
  | IdNull => "null"
  | IdNum n => num_to_string n
  end.

(** [i !== -1] *)
Definition id_is_not_minus_one (i : IdVal) : bool :=
  match i with
  | IdNum n => negb (num_eqb n (num (-1)))
  | IdUndef | IdNull => true
  end.

(** [i < 1]: [undefined] is NaN and [null] is 0 in a comparison. *)
Definition id_lt_one (i : IdVal) : bool :=
  match i with
  | IdUndef => false
  | IdNull => true
  | IdNum n => num_ltb n (num 1)
  end.

Module SpiraDocument.

Record t : Type := new {
  projectId : JsNum;
  attachmentTypeId : Z;
  testRunId : IdVal;
  filenameOrUrl : string;
  versionName : string
}.

(** [post(spiraUrl, username, token, binaryData = null)]; [None] is the
    [null], and the empty string is as falsy as it. *)
Definition post (o : Outside) (this : t) (spiraUrl username token : string)
  (binaryData : option string) : M IdVal :=
  let with_data :=
    (attachmentTypeId this =? 1)
    && match binaryData with
       | Some d => negb (String.eqb d "")
       | None => false
       end in
  let endpoint :=
    if with_data
    then "projects/" ++ num_to_string (projectId this) ++ "/documents/file"
    else "projects/" ++ num_to_string (projectId this) ++ "/documents/url" in
  let url := spiraUrl ++ REST_SERVICE_URL ++ endpoint in
  let body :=
    {| d_ProjectId := projectId this;
       d_AttachmentTypeId := attachmentTypeId this;
       d_FilenameOrUrl := filenameOrUrl this;
       d_CurrentVersion := versionName this;
       d_ArtifactId := testRunId this;
       d_ArtifactTypeId := 5;
       d_BinaryData := if with_data then binaryData else None |} in
  let* response :=
    axios_post o {| req_url := url; req_body := OfDocument body;
                    req_username := username; req_api_key := token |} in
  match response with
  | Resolved AttachmentId => ret AttachmentId
  | Rejected status error_message =>
      log (if is_404 status
           then "Unable to find a matching Spira test run of id TR:"
                ++ id_to_string (testRunId this)
                ++ ", so not able to post result"
           else "Unable to create document due to HTTP error: "
                ++ error_message);;
      ret IdNull
  end.

End SpiraDocument.

Module SpiraBuild.

Record t : Type := new {
  projectId : JsNum;
  releaseId : JsNum;
  buildStatusId : Z;
  name : string;
  description : string
}.

(** [post(spiraUrl, username, token)] *)
Definition post (o : Outside) (this : t) (spiraUrl username token : string)
  : M IdVal :=
  let url :=
    spiraUrl ++ REST_SERVICE_URL ++ "projects/"
    ++ num_to_string (projectId this) ++ "/releases/"
    ++ num_to_string (releaseId this) ++ "/builds" in
  let body :=
    {| b_ProjectId := projectId this;
       b_BuildStatusId := buildStatusId this;
       b_ReleaseId := releaseId this;
       b_Name := name this;
       b_Description := description this |} in
  let* response :=
    axios_post o {| req_url := url; req_body := OfBuild body;
                    req_username := username; req_api_key := token |} in
  match response with
  | Resolved BuildId => ret BuildId
  | Rejected status error_message =>
      log (if is_404 status
           then "Unable to find a matching Spira release of id RL:"
                ++ num_to_string (releaseId this)
                ++ ", so not able to post result"
           else "Unable to create build due to HTTP error: " ++ error_message);;
      ret IdNull
  end.

End SpiraBuild.

Module SpiraTestRun.

(** A [Date] is its time value, [None] for an invalid date. *)
Record t : Type := mk {
  projectId : JsNum;
  testCaseId : JsNum;
  testName : string;
  stackTrace : JsVal;
  statusId : Z;
  startTime : option Z;
  endTime : option Z;
  message : JsVal;
  releaseId : JsNum;
  testSetId : JsNum;
  assertCount : JsNum;
  buildId : IdVal
}.

(** The constructor: a default parameter replaces [undefined] only. *)
Definition new (projectId testCaseId : JsNum) (testName : string)
  (stackTrace : JsVal) (statusId : Z) (startTime endTime : option Z)
  (message : JsVal) (releaseId testSetId assertCount : JsNum)
  (buildId : IdVal) : t :=
  mk projectId testCaseId testName stackTrace statusId startTime endTime
     (match message with VUndef => VStr "" | _ => message end)
     releaseId testSetId assertCount
     (match buildId with IdUndef => IdNum (num (-1)) | _ => buildId end).

(** [s.replace(/\.\d{3}Z$/, 'Z')] *)
Definition strip_ms (s : string) : string :=
  match rev s with
  | String "Z" (String d3 (String d2 (String d1 (String "." r)))) =>
      if is_digit d1 && is_digit d2 && is_digit d3
      then rev r ++ "Z" else s
  | _ => s
  end.

(** [date.toISOString()], a RangeError on an invalid date. *)
Definition iso (o : Outside) (date : option Z) : M string :=
  match date with
  | Some t => ret (toISOString o t)
  | None => throw "Invalid time value"
  end.

(** [post(spiraUrl, username, token)]; the body is built before the
    [try], so that an invalid date throws out of [post]. *)
Definition post (o : Outside) (this : t) (spiraUrl username token : string)
  : M IdVal :=
  let url :=
    spiraUrl ++ REST_SERVICE_URL ++ "projects/"
    ++ num_to_string (projectId this) ++ "/test-runs/record" in
  let* start_iso := iso o (startTime this) in
  let* end_iso := iso o (endTime this) in
  let with_release := negb (num_eqb (releaseId this) (num (-1))) in
  let body :=
    {| TestRunFormatId := 1;
       StartDate := strip_ms start_iso;
       EndDate := strip_ms end_iso;
       RunnerName := RUNNER_NAME;
       RunnerTestName := testName this;
       RunnerMessage := message this;
       RunnerStackTrace := stackTrace this;
       RunnerAssertCount := assertCount this;
       TestCaseId := testCaseId this;
       ExecutionStatusId := statusId this;
       ReleaseId := if with_release then Some (releaseId this) else None;
       BuildId :=
         if with_release && id_is_not_minus_one (buildId this)
         then Some (buildId this) else None;
       TestSetId :=
         if negb (num_eqb (testSetId this) (num (-1)))
         then Some (testSetId this) else None |} in
  let* response :=
    axios_post o {| req_url := url; req_body := OfTestRun body;
                    req_username := username; req_api_key := token |} in
  match response with
  | Resolved TestRunId => ret TestRunId
  | Rejected status error_message =>
      log (if is_404 status
           then "Unable to find a matching Spira test case of id TC:"
                ++ num_to_string (testCaseId this)
                ++ ", so not able to post result"
           else "Unable to send results due to HTTP error: " ++ error_message);;
      ret (IdNum (num (-1)))
  end.

End SpiraTestRun.

(** ** The submitter *)

Module SpiraPostResults.

Definition nl : string := SpiraResultsParser.nl.

(** [new Date(currentTime.getTime() - duration_seconds * 1000)]: the
    time value is cut to whole milliseconds, and the date is invalid when
    the number is NaN, infinite or outside the range of dates. *)
Definition start_time (currentTime : Z) (duration_seconds : JsNum)
  : option Z :=
  match duration_seconds with
  | NaN | Inf _ => None
  | Dec m e =>
      let tv :=
        if 0 <=? e + 3 then currentTime - m * 10 ^ (e + 3)
        else Z.quot (currentTime * 10 ^ (- (e + 3)) - m) (10 ^ (- (e + 3))) in
      if Z.abs tv <=? 8640000000000000 then Some tv else None
  end.

Section WithOutside.

Variable o : Outside.
Variable config : SpiraConfig.t.

(** [sendResult(testResult, currentTime, buildId)]: whether it failed. *)
Definition sendResult (testResult : TestResult) (currentTime : Z)
  (buildId : IdVal) : M bool :=
  try_catch
    (let testSetId :=
       if num_ltb (num 0) (test_set_id testResult)
       then test_set_id testResult
       else SpiraConfig.test_set_id config in
     let startTime := start_time currentTime (duration_seconds testResult) in
     let testRun :=
       SpiraTestRun.new
         (SpiraConfig.project_id config)
         (test_case_id testResult)
         (name testResult)
         (stack_trace testResult)
         (execution_status_id testResult)
         startTime
         (Some currentTime)
         (message testResult)
         (SpiraConfig.release_id config)
         testSetId
         (assert_count testResult)
         buildId in
     let* testRunId :=
       SpiraTestRun.post o testRun (SpiraConfig.url config)
         (SpiraConfig.username config) (SpiraConfig.token config) in
     let isError := id_lt_one testRunId in
     if negb isError then
       for_of (attachments testResult)
         (fun _ attachment =>
            let spiraDocument :=
              SpiraDocument.new (SpiraConfig.project_id config) 1 testRunId
                (filename attachment) "1.0" in
            SpiraDocument.post o spiraDocument (SpiraConfig.url config)
              (SpiraConfig.username config) (SpiraConfig.token config)
              (Some (binary_data attachment));;
            ret tt)
         tt;;
       for_of (links testResult)
         (fun _ link =>
            let spiraDocument :=
              SpiraDocument.new (SpiraConfig.project_id config) 2 testRunId
                (link_url link) "1.0" in
            SpiraDocument.post o spiraDocument (SpiraConfig.url config)
              (SpiraConfig.username config) (SpiraConfig.token config)
              None;;
            ret tt)
         tt;;
       ret isError
     else ret isError)
    (fun error_message =>
       log ("Unable to report test case '" ++ name testResult
            ++ "' to Spira due to error '" ++ error_message ++ "'." ++ nl);;
       ret true).

(** The loop that looks for a failed result. *)
Definition build_status (testResults : list TestResult) : Z :=
  if existsb (fun testResult => execution_status_id testResult =? 1)
       testResults
  then 1 else 2.

(** One line of the description of the build, when the root has the
    field. *)
Definition described (label field_name : string) (testsuites : JsVal)
  : string :=
  if truthy (field field_name testsuites)
  then label ++ to_string (field field_name testsuites) ++ nl
  else "".

(** The block under [if (this.config.create_build)]: the id of the build. *)
Definition createBuild (testResults : list TestResult) (testsuites : JsVal)
  : M IdVal :=
  log ("Creating new build in Spira at URL '" ++ SpiraConfig.url config
       ++ "'.");;
  let buildStatusId := build_status testResults in
  let* currentTime := new_Date o in
  match testsuites with
  | VUndef | VNull => throw "Cannot read properties of undefined"
  | _ =>
      let name :=
        (if truthy (field "name" testsuites)
         then to_string (field "name" testsuites)
         else RUNNER_NAME)
        ++ " Build " ++ toISOString o currentTime in
      let description :=
        described "# Tests: " "tests" testsuites
        ++ described "# Failures: " "failures" testsuites
        ++ described "# Errors: " "errors" testsuites
        ++ described "# Skipped: " "skipped" testsuites
        ++ described "# Assertions: " "assertions" testsuites in
      let spiraBuild :=
        SpiraBuild.new (SpiraConfig.project_id config)
          (SpiraConfig.release_id config) buildStatusId name description in
      SpiraBuild.post o spiraBuild (SpiraConfig.url config)
        (SpiraConfig.username config) (SpiraConfig.token config)
  end.

(** The loop over the results: the number of successes. *)
Definition sendAll (testResults : list TestResult) (buildId : IdVal)
  : M nat :=
  for_of testResults
    (fun successCount testResult =>
       let* currentTime := new_Date o in
       let* isError := sendResult testResult currentTime buildId in
       ret (if negb isError then S successCount else successCount))
    O.

(** [sendResults(testResults, testsuites)] *)
Definition sendResults (testResults : list TestResult) (testsuites : JsVal)
  : M unit :=
  if String.eqb (SpiraConfig.url config) "" then
    log ("Unable to report test results back to Spira since URL in "
         ++ "configuration is empty")
  else
    let* buildId :=
      if SpiraConfig.create_build config
      then createBuild testResults testsuites
      else ret (IdNum (num (-1))) in
    log ("Sending test results to Spira at URL '" ++ SpiraConfig.url config
         ++ "'.");;
    try_catch
      (let* successCount := sendAll testResults buildId in
       log ("Successfully reported " ++ Z_to_string (Z.of_nat successCount)
            ++ " test cases to Spira." ++ nl))
      (fun error_message =>
         log ("Unable to report test cases to Spira due to error '"
              ++ error_message ++ "'." ++ nl)).

End WithOutside.

End SpiraPostResults.

(** ** The walk over the suites and the whole run *)

Module ParseResults.

(** The height of a value as a tree: each call of [processTestSuites] on
    a suite of a node goes one level down at least. *)
Fixpoint depth (v : JsVal) : nat :=
  match v with
  | VObj fields =>
      S ((fix over (fs : list (string * JsVal)) : nat :=
            match fs with
            | [] => O
            | (_, x) :: fs' => Nat.max (depth x) (over fs')
            end) fields)
  | VArr items =>
      S ((fix over (xs : list JsVal) : nat :=
            match xs with
            | [] => O
            | x :: xs' => Nat.max (depth x) (over xs')
            end) items)
  | _ => O
  end.

(** [Array.isArray(node.testsuite) ? node.testsuite
     : (node.testsuite ? [node.testsuite] : [node])] *)
Definition suites_of (node : JsVal) : list JsVal :=
  match field "testsuite" node with
  | VArr items => items
  | testsuite => if truthy testsuite then [testsuite] else [node]
  end.

(** [this.testResults] *)
Definition get_testResults : M (list TestResult) :=
  fun w => (Ret (testResults w), w).

Section WithOutside.

Variable o : Outside.
Variable config : SpiraConfig.t.

(** [processTestSuites(node, reportFile, suiteName)].  [fuel] bounds the
    depth of the calls, and Node throws a RangeError when its stack is
    exhausted; [depth node] calls are enough for [node]. *)
Fixpoint processTestSuites (fuel : nat) (node : JsVal) (reportFile : string)
  (suiteName : JsVal) : M unit :=
  match fuel with
  | O => throw "Maximum call stack size exceeded"
  | S fuel' =>
      if negb (truthy node) then ret tt
      else
        for_of (suites_of node)
          (fun _ suite =>
             match suite with
             | VUndef | VNull => throw "Cannot read properties of undefined"
             | _ =>
                 let currentSuiteName :=
                   or_else (field "name" suite) suiteName in
                 (if truthy (field "testsuite" suite)
                  then processTestSuites fuel' suite reportFile
                         currentSuiteName
                  else ret tt);;
                 if truthy (field "testcase" suite) then
                   for_of (SpiraResultsParser.as_array
                             (field "testcase" suite))
                     (fun _ testcase =>
                        SpiraResultsParser.processTestCase o config testcase
                          currentSuiteName reportFile)
                     tt
                 else ret tt
             end)
          tt
  end.

(** [parseResults(reportFile)], from the document that [xml2js] has
    parsed: the walk from the root with the suite name [''], then the
    submission of the results. *)
Definition parseResults (result : JsVal) (reportFile : string) : M unit :=
  match result with
  | VUndef | VNull => throw "Cannot read properties of undefined"
  | _ =>
      let testsuites :=
        or_else (field "testsuites" result) (field "testsuite" result) in
      let testsuitesRoot := or_else (field "testsuites" result) (VObj []) in
      processTestSuites (S (depth testsuites)) testsuites reportFile
        (VStr "");;
      let* results := get_testResults in
      SpiraPostResults.sendResults o config results testsuitesRoot
  end.

End WithOutside.

End ParseResults.

(** ** What a computation leaves as it is *)

(** The world after more lines on the console. *)
Definition logged (w : World) (lines : list string) : World :=
  {| testResults := testResults w;
     console := console w ++ lines;
     requests := requests w;
     clock_reads := clock_reads w |}.

(** [keeps R m]: whatever the world [w], [m] leads to a world that [R]
    relates to [w]. *)
Definition keeps {A} (R : World -> World -> Prop) (m : M A) : Prop :=
  forall w, R w (snd (m w)).

(** The requests made before are still there, and those added satisfy
    [P]. *)
Definition adds_requests (P : Request -> Prop) (w w' : World) : Prop :=
  exists rs, requests w' = (requests w ++ rs)%list /\ Forall P rs.

(** The list of results is as it was. *)
Definition same_results (w w' : World) : Prop :=
  testResults w' = testResults w.

Definition emits {A} (P : Request -> Prop) (m : M A) : Prop :=
  keeps (adds_requests P) m.

Definition not_a_build (r : Request) : Prop :=
  match req_body r with OfBuild _ => False | _ => True end.

(** The BuildId of the body of a test run that is made with the build id
    [buildId]: none without a release, none for -1 or [undefined]. *)
Definition sent_build_id (config : SpiraConfig.t) (buildId : IdVal)
  : option IdVal :=
  let this_buildId :=
    match buildId with IdUndef => IdNum (num (-1)) | _ => buildId end in
  if negb (num_eqb (SpiraConfig.release_id config) (num (-1)))
     && id_is_not_minus_one this_buildId
  then Some this_buildId else None.

(** A request that follows the creation of the build: a document, or a
    test run with the BuildId that [buildId] gives. *)
Definition carries (config : SpiraConfig.t) (buildId : IdVal) (r : Request)
  : Prop :=
  match req_body r with
  | OfBuild _ => False
  | OfTestRun b => BuildId b = sent_build_id config buildId
  | OfDocument _ => True
  end.

(** ** Readings of a parsed test case *)

Module Case.

Definition nl : string := SpiraResultsParser.nl.

(** Neither [undefined] nor [null]. *)
Definition defined (v : JsVal) : Prop :=
  match v with
  | VUndef | VNull => False
  | _ => True
  end.

(** [classname.name] *)
Definition qualified_name (testcase : JsVal) : string :=
  to_string (field "classname" testcase) ++ "."
  ++ to_string (field "name" testcase).

(** The entry of the table of test cases under the lower-cased qualified
    name. *)
Definition mapped_id (config : SpiraConfig.t) (testcase : JsVal)
  : option JsNum :=
  SpiraConfig.test_case_ids config !! toLowerCase (qualified_name testcase).

(** The lookup gives no value or a falsy one (0 or NaN). *)
Definition no_id (looked_up : option JsNum) : Prop :=
  match looked_up with
  | None => True
  | Some n => num_truthy n = false
  end.

Definition skip_line (testcase : JsVal) : string :=
  "Unable to find Spira id tag for test case '" ++ qualified_name testcase
  ++ "', so skipping this test case.".

(** The properties of the case, in the order of the report: the
    [property] children of its [properties] element, of which there may be
    one (the child itself) or several (an array). *)
Definition properties (testcase : JsVal) : list JsVal :=
  let node := field "properties" testcase in
  if truthy node && truthy (field "property" node)
  then match field "property" node with
       | VArr items => items
       | _ => [field "property" node]
       end
  else [].

(** The value of a property: its [value] attribute, else its text, else
    the empty string. *)
Definition property_value (prop : JsVal) : JsVal :=
  or_else (field "value" prop) (or_else (field "_" prop) (VStr "")).

Definition property_text (prop : JsVal) : string :=
  to_string (property_value prop).

(** The line of the details for a stream and for a property. *)
Definition stream_line (label : string) (stream : JsVal) : string :=
  if truthy stream then label ++ to_string stream ++ nl else "".

Definition property_line (prop : JsVal) : string :=
  "- " ++ to_string (field "name" prop) ++ "=" ++ property_text prop ++ nl.

(** The details after the lines of a list of properties. *)
Definition with_properties (details : JsVal) (props : list JsVal) : JsVal :=
  fold_left
    (fun d prop => SpiraResultsParser.append d (property_line prop))
    props details.

(** The details after the line of a stream. *)
Definition with_stream (details : JsVal) (label : string) (stream : JsVal)
  : JsVal :=
  if truthy stream
  then SpiraResultsParser.append details (stream_line label stream)
  else details.

(** The entry of [links] for a url. *)
Definition as_link (url : string) : Link := {| link_url := url |}.

(** A property whose name starts with "attachment", and the two kinds
    of it: its value starts with "http", or not. *)
Definition is_attachment_property (prop : JsVal) : bool :=
  match field "name" prop with
  | VStr n => startsWith n "attachment"
  | _ => false
  end.

Definition is_link_property (prop : JsVal) : bool :=
  is_attachment_property prop && startsWith (property_text prop) "http".

Definition is_file_property (prop : JsVal) : bool :=
  is_attachment_property prop
  && negb (startsWith (property_text prop) "http").

(** The paths of the markers of a stream. *)
Definition stream_paths (stream : JsVal) : list string :=
  match stream with
  | VStr s => SpiraResultsParser.matchAll s O
  | _ => []
  end.

(** The files that a case attaches, in the order in which they are read:
    the markers of [system-out], those of [system-err], then the file
    properties.  And the links of the case. *)
Definition file_paths (testcase : JsVal) : list string :=
  (stream_paths (field "system-out" testcase)
   ++ stream_paths (field "system-err" testcase)
   ++ List.map property_text
        (List.filter is_file_property (properties testcase)))%list.

Definition link_urls (testcase : JsVal) : list string :=
  List.map property_text
    (List.filter is_link_property (properties testcase)).

(** *** Reading a text in base64 *)

(** The value of a digit of base64: A to Z, a to z, 0 to 9, plus and
    slash stand for 0 to 63. *)
Definition digit64 (c : ascii) : option N :=
  let n := N_of_ascii c in
  if ((65 <=? n) && (n <=? 90))%N then Some (n - 65)%N
  else if ((97 <=? n) && (n <=? 122))%N then Some (n - 71)%N
  else if ((48 <=? n) && (n <=? 57))%N then Some (n + 4)%N
  else if (n =? 43)%N then Some 62%N
  else if (n =? 47)%N then Some 63%N
  else None.

(** The bytes that a text in base64 stands for: four digits give three
    bytes of eight bits out of their four times six bits; at the end, [=]
    stands for a missing digit, and the bits left over are 0. *)
Fixpoint decode64 (s : string) : option (list N) :=
  match s with
  | EmptyString => Some []
  | String c1 (String c2 (String c3 (String c4 rest))) =>
      match digit64 c1, digit64 c2 with
      | Some d1, Some d2 =>
          let b1 := (d1 * 4 + d2 / 16)%N in
          if Ascii.eqb c3 "=" then
            if Ascii.eqb c4 "=" && String.eqb rest ""
               && (d2 mod 16 =? 0)%N
            then Some [b1] else None
          else
            match digit64 c3 with
            | Some d3 =>
                let b2 := ((d2 mod 16) * 16 + d3 / 4)%N in
                if Ascii.eqb c4 "=" then
                  if String.eqb rest "" && (d3 mod 4 =? 0)%N
                  then Some [b1; b2] else None
                else
                  match digit64 c4, decode64 rest with
                  | Some d4, Some bs =>
                      Some (b1 :: b2 :: ((d3 mod 4) * 64 + d4)%N :: bs)
                  | _, _ => None
                  end
            | None => None
            end
      | _, _ => None
      end
  | _ => None
  end.

(** A text is the base64 of a file. *)
Definition encodes (text : string) (fileData : list Byte.byte) : Prop :=
  decode64 text = Some (List.map Byte.to_N fileData).

Section WithOutside.

Variable o : Outside.
Variable reportFile : string.

(** The file that a path names, seen from the directory of the report. *)
Definition full_path (filepath : string) : string :=
  path_join o (path_dirname o reportFile) filepath.

(** The attachment for a path, if the file can be read, and the line on
    the console if it cannot. *)
Definition read_attachment (filepath : string) : list Attachment :=
  match readFileSync o (full_path filepath) with
  | inr fileData =>
      [{| filename := filepath;
          binary_data := SpiraResultsParser.base64 fileData |}]
  | inl _ => []
  end.

Definition read_log (filepath : string) : list string :=
  match readFileSync o (full_path filepath) with
  | inr _ => []
  | inl error_message =>
      ["Unable to read image file '" ++ filepath ++ "' due to error '"
       ++ error_message ++ "', so skipping attachment." ++ nl]
  end.

(** An attachment holds a file of the directory of the report: the file
    of its name can be read, and its data is the base64 of the bytes. *)
Definition holds_file (a : Attachment) : Prop :=
  exists fileData,
    readFileSync o (full_path (filename a)) = inr fileData
    /\ encodes (binary_data a) fileData.

End WithOutside.

(** What lets Node go through a case without a TypeError: the two streams
    are text when they are there, every property has a text for a name, and
    an attachment property has a text for a value. *)
Definition stream_ok (stream : JsVal) : Prop :=
  truthy stream = false \/ exists s, stream = VStr s.

Definition property_ok (prop : JsVal) : Prop :=
  exists n, field "name" prop = VStr n
            /\ (startsWith n "attachment" = true ->
                exists v, property_value prop = VStr v).

Definition readable (testcase : JsVal) : Prop :=
  defined testcase
  /\ stream_ok (field "system-out" testcase)
  /\ stream_ok (field "system-err" testcase)
  /\ Forall property_ok (properties testcase).

(** The duration that the specification gives to a case: the parsed
    [time], and 0 when [time] is absent or cannot be parsed; never below 0. *)
Definition specified_duration (testcase : JsVal) : JsNum :=
  if truthy (field "time" testcase) then
    match parseFloat (to_string (field "time" testcase)) with
    | NaN => num 0
    | parsed => parsed
    end
  else num 0.

Definition duration_as_specified (testcase : JsVal) (r : TestResult) : Prop :=
  duration_seconds r = specified_duration testcase
  /\ num_geb (duration_seconds r) (num 0) = true.

(** The world after one more result and more lines on the console. *)
Definition submitted (w : World) (r : TestResult) (lines : list string)
  : World :=
  {| testResults := testResults w ++ [r];
     console := console w ++ lines;
     requests := requests w;
     clock_reads := clock_reads w |}.

End Case.

(** ** Inputs used in the examples below *)

Module Sample.

Definition nl : string := SpiraResultsParser.nl.

Definition bytes_of (s : string) : list Byte.byte :=
  List.map byte_of_ascii (list_ascii_of_string s).

(** A report directory that holds [out/log.txt] only, a clock that ticks
    once a second, and a server that refuses [refused] and gives every other
    request the id 7. *)
Definition outside (refused : Request -> bool) : Outside :=
  {| path_dirname := fun _ => "reports";
     path_join := fun a b => a ++ "/" ++ b;
     readFileSync := fun p =>
       if String.eqb p "reports/out/log.txt" then inr (bytes_of "Man")
       else inl ("ENOENT: no such file or directory, open '" ++ p ++ "'");
     now := fun k => 1700000000000 + 1000 * Z.of_nat k;
     toISOString := fun t => Z_to_string (t / 1000) ++ ".000Z";
     server := fun _ r =>
       if refused r then Rejected (Some 500) "Request failed with status code 500"
       else Resolved (IdNum (num 7)) |}.

Definition is_build (r : Request) : bool :=
  match req_body r with OfBuild _ => true | _ => false end.

Definition config_text : string :=
  "[credentials]" ++ nl ++
  "url = http://localhost/spira" ++ nl ++
  "username = administrator" ++ nl ++
  "project_id = 1" ++ nl ++
  "release_id = 5" ++ nl ++
  "create_build = true" ++ nl ++
  "[test_cases]" ++ nl ++
  "LIS.Registration.registration1 = 2" ++ nl ++
  "LIS.Registration.registration2 = 3" ++ nl ++
  "LIS.Registration.registration3 = 0" ++ nl ++
  "[test_sets]" ++ nl ++
  "LIS.Registration = 2" ++ nl.

Definition config : SpiraConfig.t := SpiraConfig.loadConfig config_text.

(** [<testcase classname="LIS.Registration" name=... >children</testcase>] *)
Definition testcase (name : string) (children : list (string * JsVal))
  : JsVal :=
  VObj (("classname", VStr "LIS.Registration") :: ("name", VStr name)
        :: children).

Definition passed : TestResult :=
  {| test_case_id := num 2; name := "LIS.Registration.registration1";
     execution_status_id := 2;
     stack_trace := VStr ("Nothing Reported" ++ nl);
     message := VStr "Success"; duration_seconds := Dec 15 (-1);
     assert_count := num 0; test_set_id := num 2;
     attachments := []; links := [] |}.

Definition failed : TestResult :=
  {| test_case_id := num 3; name := "LIS.Registration.registration2";
     execution_status_id := 1;
     stack_trace := VStr "expected 1 but was 2";
     message := VStr "Test Failed"; duration_seconds := num 0;
     assert_count := num 1; test_set_id := num 2;
     attachments := []; links := [] |}.

Definition report : string := "reports/junit.xml".

(** A case with three attachment properties: a link, a file that is in
    the directory of the report and one that is not. *)
Definition with_attachments : JsVal :=
  testcase "registration1"
    [("time", VStr "1.5");
     ("system-out", VStr "started");
     ("properties",
       VObj [("property",
               VArr [VObj [("name", VStr "attachment_1");
                           ("value", VStr "http://example.com/x")];
                     VObj [("name", VStr "attachment_2");
                           ("value", VStr "out/log.txt")];
                     VObj [("name", VStr "attachment_3");
                           ("value", VStr "missing.png")];
                     VObj [("name", VStr "browser");
                           ("value", VStr "firefox")]])])].

(** A case that names a file in [system-out] and has three attachment
    properties: a link, a file that is in the directory of the report and
    one that is not. *)
Definition with_files : JsVal :=
  testcase "registration1"
    [("system-out", VStr "saved [[ATTACHMENT|out/log.txt]] and left");
     ("properties",
       VObj [("property",
               VArr [VObj [("name", VStr "attachment_1");
                           ("value", VStr "http://example.com/x")];
                     VObj [("name", VStr "attachment_2");
                           ("value", VStr "out/log.txt")];
                     VObj [("name", VStr "attachment_3");
                           ("value", VStr "missing.png")];
                     VObj [("name", VStr "browser");
                           ("value", VStr "firefox")]])])].

(** The case [registration3], mapped to 0, with its name in capitals. *)
Definition shouted : JsVal := testcase "REGISTRATION3" [].

(** [<skipped/>], [<error/>] and [<failure/>] are the empty string for
    [xml2js]. *)
Definition skipped_empty : JsVal :=
  testcase "registration1" [("skipped", VStr "")].

Definition failure_empty_and_skipped : JsVal :=
  testcase "registration1"
    [("failure", VStr ""); ("skipped", VObj [("message", VStr "later")])].

Definition error_empty : JsVal :=
  testcase "registration2" [("error", VStr "")].

Definition time_unparsable : JsVal :=
  testcase "registration1" [("time", VStr "abc")].

Definition time_negative : JsVal :=
  testcase "registration1" [("time", VStr "-1.5")].

(** The result that [processTestCase] adds for [with_attachments]. *)
Definition with_attachments_result : TestResult :=
  {| test_case_id := num 2;
     name := "LIS.Registration.registration1";
     execution_status_id := 2;
     stack_trace :=
       VStr ("Nothing Reported" ++ nl ++
             "System Out: started" ++ nl ++
             "- attachment_1=http://example.com/x" ++ nl ++
             "- attachment_2=out/log.txt" ++ nl ++
             "- attachment_3=missing.png" ++ nl ++
             "- browser=firefox" ++ nl);
     message := VStr "Success";
     duration_seconds := Dec 15 (-1);
     assert_count := num 0;
     test_set_id := num 2;
     attachments := [{| filename := "out/log.txt"; binary_data := "TWFu" |}];
     links := [{| link_url := "http://example.com/x" |}] |}.

(** The results after [processTestCase] on a case, from an empty list. *)
Definition results_of (tc : JsVal) : list TestResult :=
  testResults
    (snd (SpiraResultsParser.processTestCase (outside (fun _ => false))
            config tc (VStr "LIS.Registration") report start)).


(** A case with a property that has no name, and two failed cases: one
    whose failure node has a text, one whose failure node has none. *)
Definition unnamed_property : JsVal :=
  testcase "registration1"
    [("properties", VObj [("property", VObj [("value", VStr "firefox")])])].

Definition failure_with_text : JsVal :=
  testcase "registration2"
    [("failure", VObj [("message", VStr "expected 1 but was 2");
                       ("_", VStr "at Registration.java:3")]);
     ("system-out", VStr "started")].

Definition failure_no_text : JsVal :=
  testcase "registration2"
    [("failure", VObj [("message", VStr "expected 1 but was 2")]);
     ("system-out", VStr "started")].

(** The results that [processTestCase] adds for the two. *)
Definition failure_with_text_result : TestResult :=
  {| test_case_id := num 3; name := "LIS.Registration.registration2";
     execution_status_id := 1;
     stack_trace :=
       VStr ("at Registration.java:3" ++ "System Out: started" ++ nl);
     message := VStr "expected 1 but was 2"; duration_seconds := num 0;
     assert_count := num 1; test_set_id := num 2;
     attachments := []; links := [] |}.

Definition failure_no_text_result : TestResult :=
  {| test_case_id := num 3; name := "LIS.Registration.registration2";
     execution_status_id := 1;
     stack_trace := VStr ("[object Object]" ++ "System Out: started" ++ nl);
     message := VStr "expected 1 but was 2"; duration_seconds := num 0;
     assert_count := num 1; test_set_id := num 2;
     attachments := []; links := [] |}.



(** A file whose entries stand before any section or in a section that
    the loader does not read. *)
Definition misplaced_text : string :=
  "url = http://localhost/spira" ++ nl ++
  "[settings]" ++ nl ++
  "project_id = 3" ++ nl.

(** The BuildId fields of the test-run requests among [rs]. *)
Definition build_ids (rs : list Request) : list (option IdVal) :=
  flat_map (fun r => match req_body r with
                     | OfTestRun b => [BuildId b]
                     | _ => []
                     end) rs.

End Sample.

(** ** Further readings of texts, runs and requests *)

Module Text.

(** [s.includes(c)] for one character, and whether every character of a
    text satisfies a test. *)
Fixpoint contains (c : ascii) (s : string) : bool :=
  match s with
  | EmptyString => false
  | String a s' => Ascii.eqb a c || contains c s'
  end.

Fixpoint all_chars (p : ascii -> bool) (s : string) : bool :=
  match s with
  | EmptyString => true
  | String a s' => p a && all_chars p s'
  end.



(** A text of ASCII characters: on these [toLowerCase] and [trim] are
    those of Node. *)
Definition is_ascii (c : ascii) : bool := (N_of_ascii c <? 128)%N.

Definition ascii_text (s : string) : bool := all_chars is_ascii s.

(** A name under which no object inherits a member, once in lower case:
    of the members that every object inherits, [constructor] and
    [__proto__] are the two in lower case. *)
Definition own_name (s : string) : bool :=
  negb (String.eqb (toLowerCase s) "constructor")
  && negb (String.eqb (toLowerCase s) "__proto__").

(** Every text of a parsed document satisfies [p]. *)
Fixpoint all_texts (p : string -> bool) (v : JsVal) : bool :=
  match v with
  | VStr s => p s
  | VObj fields =>
      (fix over (fs : list (string * JsVal)) : bool :=
         match fs with
         | [] => true
         | (_, x) :: fs' => all_texts p x && over fs'
         end) fields
  | VArr items =>
      (fix over (xs : list JsVal) : bool :=
         match xs with
         | [] => true
         | x :: xs' => all_texts p x && over xs'
         end) items
  | _ => true
  end.

(** Every element of a parsed document that holds test cases or suites has
    a name that satisfies [p], when its name is a text. *)
Fixpoint suites_named (p : string -> bool) (v : JsVal) : bool :=
  match v with
  | VObj fields =>
      (if truthy (assoc "testcase" fields) || truthy (assoc "testsuite" fields)
       then match assoc "name" fields with
            | VStr s => p s
            | _ => true
            end
       else true)
      && (fix over (fs : list (string * JsVal)) : bool :=
            match fs with
            | [] => true
            | (_, x) :: fs' => suites_named p x && over fs'
            end) fields
  | VArr items =>
      (fix over (xs : list JsVal) : bool :=
         match xs with
         | [] => true
         | x :: xs' => suites_named p x && over xs'
         end) items
  | _ => true
  end.

(** A report on which the walk of the model is the walk of Node: its
    texts are of ASCII characters, and no suite is named after an inherited
    member. *)
Definition plain_report (v : JsVal) : Prop :=
  all_texts ascii_text v = true /\ suites_named own_name v = true.


(** No credentials entry is spelled like one of the two tables. *)
Definition keeps_tables (es : list (string * string * string)) : Prop :=
  forall k v,
    In ("credentials", k, v) es ->
    k <> "test_case_ids" /\ k <> "test_set_ids".

(** A key that is stored: [__proto__] is not. *)
Definition stored_key (section key : string) : Prop :=
  if String.eqb section "credentials" then key <> "__proto__"
  else toLowerCase key <> "__proto__".

End Text.

Module Runs.

(** Only the console has grown. *)
Definition only_logs (w w' : World) : Prop :=
  exists lines, w' = logged w lines.

(** Only the console has grown, and at most one result was added. *)
Definition at_most_one_result (w w' : World) : Prop :=
  exists lines,
    w' = logged w lines \/ exists r, w' = Case.submitted w r lines.

(** The test-set id that a suite name resolves to: the entry of the table
    under the lower-cased name when it is truthy, else -1. *)
Definition test_set_of (config : SpiraConfig.t) (suite : string) : JsNum :=
  match SpiraConfig.test_set_ids config !! toLowerCase suite with
  | Some n => if num_truthy n then n else num (-1)
  | None => num (-1)
  end.

End Runs.

(** ** Readings of the walk over the suites *)

Module Walk.

(** No request was made and the clock was not read; the results before
    are still there, and those added satisfy [P]. *)
Definition adds_results (P : TestResult -> Prop) (w w' : World) : Prop :=
  requests w' = requests w
  /\ clock_reads w' = clock_reads w
  /\ exists rs, testResults w' = (testResults w ++ rs)%list /\ Forall P rs.

(** A result that the tables of the configuration account for: its id is
    the entry of the table of test cases under its lower-cased name, and is
    not 0; its test-set id is -1 or an entry of the table of test sets, and
    then not 0; its status is one of the five that the parser gives. *)
Definition from_tables (config : SpiraConfig.t) (r : TestResult) : Prop :=
  SpiraConfig.test_case_ids config !! toLowerCase (name r)
  = Some (test_case_id r)
  /\ num_truthy (test_case_id r) = true
  /\ (test_set_id r = num (-1)
      \/ num_truthy (test_set_id r) = true
         /\ exists suite,
              SpiraConfig.test_set_ids config !! toLowerCase suite
              = Some (test_set_id r))
  /\ In (execution_status_id r) [1; 2; 4; 5; 6].

(** The error of Node when its stack is exhausted, and a computation that
    never throws an error. *)
Definition stack_exhausted : string := "Maximum call stack size exceeded".

Definition never_throws {A} (e : string) (m : M A) : Prop :=
  forall w, fst (m w) <> Throw e.

(** The root without its own test cases and attributes: what is left is
    its suites. *)
Definition suites_only (root : JsVal) : JsVal :=
  VObj [("testsuite", field "testsuite" root)].

End Walk.

(** ** Reports used in the examples below *)

Module Reports.

(** [<testsuite name="All"> <testcase registration2/>
      <testsuite name="LIS.Registration"> <testcase registration1/>
      </testsuite> </testsuite>]: a root suite with a case of its own and a
    nested suite. *)
Definition nested_root : JsVal :=
  VObj [("name", VStr "All");
        ("testcase", Sample.testcase "registration2" []);
        ("testsuite",
          VObj [("name", VStr "LIS.Registration");
                ("testcase", Sample.testcase "registration1" [])])].

Definition nested : JsVal := VObj [("testsuite", nested_root)].

(** A configuration that asks for no build. *)
Definition plain_text : string :=
  "[credentials]" ++ Sample.nl ++
  "url = http://localhost/spira" ++ Sample.nl ++
  "username = administrator" ++ Sample.nl ++
  "project_id = 1" ++ Sample.nl ++
  "test_set_id = 9" ++ Sample.nl ++
  "[test_cases]" ++ Sample.nl ++
  "LIS.Registration.registration1 = 2" ++ Sample.nl.

Definition plain_config : SpiraConfig.t := SpiraConfig.loadConfig plain_text.

(** The result of [Sample.time_unparsable]: its duration is NaN. *)
Definition timeless : TestResult :=
  {| test_case_id := num 2; name := "LIS.Registration.registration1";
     execution_status_id := 2;
     stack_trace := VStr ("Nothing Reported" ++ Sample.nl);
     message := VStr "Success"; duration_seconds := NaN;
     assert_count := num 0; test_set_id := num 2;
     attachments := []; links := [] |}.

End Reports.

(** ** Readings of the requests of a run *)

Module Sent.

(** What the program reads in the answer to a test run: the id of the
    response, and -1 when the request is rejected. *)
Definition run_id (answer : Response) : IdVal :=
  match answer with
  | Resolved id => id
  | Rejected _ _ => IdNum (num (-1))
  end.

(** What a document request says: the type of the attachment, the file
    name or url, the test run it is attached to and the data sent. *)
Definition document_of (r : Request)
  : option (Z * string * IdVal * option string) :=
  match req_body r with
  | OfDocument b =>
      Some (d_AttachmentTypeId b, d_FilenameOrUrl b, d_ArtifactId b,
            d_BinaryData b)
  | _ => None
  end.

Definition is_document (r : Request) : Prop :=
  match req_body r with
  | OfDocument _ => True
  | _ => False
  end.

(** The documents of a result under a test run: a file (type 1) for each
    attachment, with its data when there is some, then a url (type 2) for
    each link. *)
Definition documents (r : TestResult) (id : IdVal)
  : list (option (Z * string * IdVal * option string)) :=
  (List.map
     (fun a =>
        Some (1, filename a, id,
              if String.eqb (binary_data a) "" then None
              else Some (binary_data a)))
     (attachments r)
   ++ List.map (fun l => Some (2, link_url l, id, None)) (links r))%list.

(** The body of a test run says what the result says. *)
Definition reports (r : TestResult) (b : TestRunBody) : Prop :=
  RunnerTestName b = name r
  /\ TestCaseId b = test_case_id r
  /\ ExecutionStatusId b = execution_status_id r
  /\ RunnerStackTrace b = stack_trace r
  /\ RunnerAssertCount b = assert_count r.

(** The names of the test runs among [rs], in the order of the requests. *)
Definition run_names (rs : list Request) : list string :=
  flat_map (fun r => match req_body r with
                     | OfTestRun b => [RunnerTestName b]
                     | _ => []
                     end) rs.

(** Every test run among the requests satisfies [Q]. *)
Definition each_run (Q : TestRunBody -> Prop) (r : Request) : Prop :=
  match req_body r with
  | OfTestRun b => Q b
  | _ => True
  end.

(** The test-set id that the test run of a result is sent with: the one
    of the result when it is above 0, else the one of the configuration; and
    none when that is -1. *)
Definition sent_test_set (config : SpiraConfig.t) (r : TestResult)
  : option JsNum :=
  let id :=
    if num_ltb (num 0) (test_set_id r) then test_set_id r
    else SpiraConfig.test_set_id config in
  if num_eqb id (num (-1)) then None else Some id.

(** A request that goes to the REST service of the configured server, under
    the configured project and with the configured credentials. *)
Definition addressed (config : SpiraConfig.t) (r : Request) : Prop :=
  startsWith (req_url r)
    (SpiraConfig.url config ++ REST_SERVICE_URL ++ "projects/"
     ++ num_to_string (SpiraConfig.project_id config) ++ "/") = true
  /\ req_username r = SpiraConfig.username config
  /\ req_api_key r = SpiraConfig.token config.

(** No build was made: the request is not a build, and a test run has no
    BuildId. *)
Definition without_build (r : Request) : Prop :=
  match req_body r with
  | OfBuild _ => False
  | OfTestRun b => BuildId b = None
  | OfDocument _ => True
  end.

(** A test run is for a case of the table: its TestCaseId is the entry
    under its lower-cased RunnerTestName, and is not 0. *)
Definition for_known_case (config : SpiraConfig.t) (r : Request) : Prop :=
  match req_body r with
  | OfTestRun b =>
      SpiraConfig.test_case_ids config !! toLowerCase (RunnerTestName b)
      = Some (TestCaseId b)
      /\ num_truthy (TestCaseId b) = true
      /\ In (ExecutionStatusId b) [1; 2; 4; 5; 6]
  | _ => True
  end.

(** A build that takes nothing from the report: it is named after the
    runner and a date, and has an empty description. *)
Definition unnamed_build (o : Outside) (r : Request) : Prop :=
  match req_body r with
  | OfBuild b =>
      b_Description b = ""
      /\ exists t, b_Name b = RUNNER_NAME ++ " Build " ++ toISOString o t
  | _ => True
  end.

(** The world after requests, lines on the console and readings of the
    clock. *)
Definition after (w : World) (rs : list Request) (lines : list string)
  (reads : nat) : World :=
  {| testResults := testResults w;
     console := console w ++ lines;
     requests := requests w ++ rs;
     clock_reads := clock_reads w + reads |}.

End Sent.

(** ** Properties of the computations *)

Module MonadFacts.

Lemma append_empty_r (s : string) : s ++ "" = s.
Proof.
  induction s as [| c s IH]; [reflexivity |].
  change (String c (s ++ "") = String c s). rewrite IH. reflexivity.
Qed.

Lemma append_assoc (a b c : string) : (a ++ b) ++ c = a ++ (b ++ c).
Proof.
  induction a as [| x a IH]; [reflexivity |].
  change (String x ((a ++ b) ++ c) = String x (a ++ (b ++ c))).
  rewrite IH. reflexivity.
Qed.

Lemma concat_cons (x : string) (xs : list string) :
  String.concat "" (x :: xs) = x ++ String.concat "" xs.
Proof.
  destruct xs as [| y ys].
  - symmetry. apply append_empty_r.
  - reflexivity.
Qed.

Lemma bind_Ret {A B} (m : M A) (k : A -> M B) (w w1 : World) (a : A) :
  m w = (Ret a, w1) -> bind m k w = k a w1.
Proof. intros H. unfold bind. rewrite H. reflexivity. Qed.

Section Keeps.

Context (R : World -> World -> Prop).
Hypothesis R_refl : forall w, R w w.
Hypothesis R_trans : forall w1 w2 w3, R w1 w2 -> R w2 w3 -> R w1 w3.

Lemma keeps_ret {A} (a : A) : keeps R (ret a).
Proof using R_refl. intros w. apply R_refl. Qed.

Lemma keeps_throw {A} (e : string) : keeps R (@throw A e).
Proof using R_refl. intros w. apply R_refl. Qed.

Lemma keeps_bind {A B} (m : M A) (k : A -> M B) :
  keeps R m -> (forall a, keeps R (k a)) -> keeps R (bind m k).
Proof using R_trans.
  intros Hm Hk w. unfold bind. specialize (Hm w).
  destruct (m w) as [[a | e] w1]; simpl in *.
  - apply (R_trans _ _ _ Hm). apply Hk.
  - exact Hm.
Qed.

Lemma keeps_try_catch {A} (m : M A) (h : string -> M A) :
  keeps R m -> (forall e, keeps R (h e)) -> keeps R (try_catch m h).
Proof using R_trans.
  intros Hm Hh w. unfold try_catch. specialize (Hm w).
  destruct (m w) as [[a | e] w1]; simpl in *.
  - exact Hm.
  - apply (R_trans _ _ _ Hm). apply Hh.
Qed.

Lemma keeps_for_of {A B} (xs : list A) (body : B -> A -> M B) (acc : B) :
  (forall b x, keeps R (body b x)) -> keeps R (for_of xs body acc).
Proof using R_refl R_trans.
  intros Hbody. revert acc.
  induction xs as [| x xs IH]; intros acc; simpl.
  - apply keeps_ret.
  - apply keeps_bind; auto.
Qed.

End Keeps.

Lemma logged_nil w : logged w [] = w.
Proof. destruct w. unfold logged. simpl. rewrite app_nil_r. reflexivity. Qed.

Lemma logged_logged w a b : logged (logged w a) b = logged w (a ++ b).
Proof. unfold logged. simpl. rewrite app_assoc. reflexivity. Qed.

End MonadFacts.

(** ** Properties of the configuration loader *)

Module ConfigFacts.

Import SpiraConfig.

(** Case analysis on every comparison of strings in the goal. *)
Ltac string_cases :=
  repeat match goal with
    | |- context [String.eqb ?a ?b] =>
        destruct (String.eqb_spec a b); subst; simpl in *; try congruence
    end.

(** The loop stores the entries of the file, one after the other. *)
Lemma loadLines_entries (lines : list string) (section : string) (c : t) :
  snd (loadLines lines (section, c))
  = fold_left store_entry (entries_from section lines) c.
Proof.
  revert section c. induction lines as [| line lines IH]; intros section c.
  - reflexivity.
  - unfold loadLines in *. simpl. unfold loadLine at 2. simpl.
    destruct (classify (trim line)); simpl; apply IH.
Qed.

Lemma stored_store_same (c : t) (section key value : string) :
  known_section section ->
  Text.stored_key section key ->
  stored (store section key value c) section key = value_of section key value.
Proof.
  intros [-> | [-> | ->]] Hkey; unfold Text.stored_key in Hkey;
    simpl in Hkey; unfold stored, store, value_of, set_entry; simpl.
  - unfold set_number, set_string. string_cases.
    rewrite lookup_insert_eq. reflexivity.
  - destruct (String.eqb_spec (toLowerCase key) "__proto__");
      [contradiction |].
    rewrite lookup_insert_eq. reflexivity.
  - destruct (String.eqb_spec (toLowerCase key) "__proto__");
      [contradiction |].
    rewrite lookup_insert_eq. reflexivity.
Qed.

Lemma stored_store_other (c : t) (section key section' key' value' : string) :
  known_section section ->
  ~ (section' = section /\ same_key section key key') ->
  stored (store section' key' value' c) section key = stored c section key.
Proof.
  intros [-> | [-> | ->]] Hother; unfold same_key in Hother; simpl in Hother;
    unfold stored, store, set_number, set_string, set_entry; simpl.
  - string_cases; try (exfalso; apply Hother; split; reflexivity).
    rewrite lookup_insert_ne; [reflexivity |].
    intros ->. apply Hother. split; reflexivity.
  - string_cases.
    rewrite lookup_insert_ne; [reflexivity |].
    intros Heq. apply Hother. split; [reflexivity | congruence].
  - string_cases.
    rewrite lookup_insert_ne; [reflexivity |].
    intros Heq. apply Hother. split; [reflexivity | congruence].
Qed.

(** Entries that do not write a key leave what is stored for it. *)
Lemma stored_after_others (after : list (string * string * string))
  (c : t) (section key : string) :
  known_section section ->
  (forall k v, In (section, k, v) after -> ~ same_key section key k) ->
  stored (fold_left store_entry after c) section key = stored c section key.
Proof.
  intros Hknown. revert c.
  induction after as [| [[s k] v] after IH]; intros c Hafter; simpl.
  - reflexivity.
  - rewrite IH.
    + unfold store_entry. simpl. apply stored_store_other; [exact Hknown |].
      intros [-> Hsame]. apply (Hafter k v); [left; reflexivity | exact Hsame].
    + intros k' v' Hin. apply (Hafter k' v'). right. exact Hin.
Qed.






End ConfigFacts.

(** ** Base64 reads back *)

Module Base64Facts.

Import SpiraResultsParser Case.

Local Open Scope N_scope.

Lemma below (bound : nat) (P : N -> bool) :
  forallb (fun k => P (N.of_nat k)) (seq 0 bound) = true ->
  forall n, n < N.of_nat bound -> P n = true.
Proof.
  intros Hall n Hn.
  rewrite forallb_forall in Hall.
  rewrite <- (N2Nat.id n). apply Hall. apply in_seq. lia.
Qed.

Lemma below2 (bound : nat) (P : N -> N -> bool) :
  forallb (fun j => forallb (fun k => P (N.of_nat j) (N.of_nat k))
                      (seq 0 bound)) (seq 0 bound) = true ->
  forall a b, a < N.of_nat bound -> b < N.of_nat bound -> P a b = true.
Proof.
  intros Hall a b Ha Hb.
  apply (below bound (P a)); [| exact Hb].
  apply (below bound
           (fun a => forallb (fun k => P a (N.of_nat k)) (seq 0 bound)));
    assumption.
Qed.

(** The digit of a value below 64 is one character, which is not [=] and
    reads back as the value. *)
Lemma digit_reads_back (n : N) :
  n < 64 ->
  exists c, base64_digit n = String c ""
            /\ digit64 c = Some n
            /\ Ascii.eqb c "=" = false.
Proof.
  intros Hn.
  pose (check := fun n =>
    match base64_digit n with
    | String c EmptyString =>
        match digit64 c with
        | Some m => (m =? n) && negb (Ascii.eqb c "=")
        | None => false
        end
    | _ => false
    end).
  assert (Hcheck : check n = true).
  { apply (below 64 check); [vm_compute; reflexivity | exact Hn]. }
  unfold check in Hcheck.
  destruct (base64_digit n) as [| c [| c' s]]; try discriminate.
  exists c. split; [reflexivity |].
  destruct (digit64 c) as [m |]; [| discriminate].
  apply andb_true_iff in Hcheck. destruct Hcheck as [Hm Hc].
  apply N.eqb_eq in Hm. subst m. split; [reflexivity |].
  destruct (Ascii.eqb c "="); [discriminate | reflexivity].
Qed.

(** The four digits of three bytes, and the bytes back from them. *)
Lemma first_digits (a b : N) :
  a < 256 -> b < 256 ->
  let d1 := N.shiftr a 2 in
  let d2 := N.lor (N.shiftl (N.land a 3) 4) (N.shiftr b 4) in
  d1 < 64 /\ d2 < 64 /\ d1 * 4 + d2 / 16 = a /\ d2 mod 16 = N.shiftr b 4.
Proof.
  intros Ha Hb.
  pose (check := fun a b =>
    let d1 := N.shiftr a 2 in
    let d2 := N.lor (N.shiftl (N.land a 3) 4) (N.shiftr b 4) in
    (d1 <? 64) && (d2 <? 64) && (d1 * 4 + d2 / 16 =? a)
    && (d2 mod 16 =? N.shiftr b 4)).
  assert (Hcheck : check a b = true).
  { apply (below2 256 check); [vm_compute; reflexivity | exact Ha | exact Hb]. }
  unfold check in Hcheck. cbv zeta in Hcheck |- *.
  repeat (apply andb_true_iff in Hcheck; destruct Hcheck as [Hcheck ?]).
  repeat split;
    first [apply N.ltb_lt; assumption | apply N.eqb_eq; assumption].
Qed.

Lemma last_digits (b c : N) :
  b < 256 -> c < 256 ->
  let d3 := N.lor (N.shiftl (N.land b 15) 2) (N.shiftr c 6) in
  let d4 := N.land c 63 in
  d3 < 64 /\ d4 < 64 /\ N.shiftr b 4 * 16 + d3 / 4 = b
  /\ (d3 mod 4) * 64 + d4 = c.
Proof.
  intros Hb Hc.
  pose (check := fun b c =>
    let d3 := N.lor (N.shiftl (N.land b 15) 2) (N.shiftr c 6) in
    let d4 := N.land c 63 in
    (d3 <? 64) && (d4 <? 64) && (N.shiftr b 4 * 16 + d3 / 4 =? b)
    && ((d3 mod 4) * 64 + d4 =? c)).
  assert (Hcheck : check b c = true).
  { apply (below2 256 check); [vm_compute; reflexivity | exact Hb | exact Hc]. }
  unfold check in Hcheck. cbv zeta in Hcheck |- *.
  repeat (apply andb_true_iff in Hcheck; destruct Hcheck as [Hcheck ?]).
  repeat split;
    first [apply N.ltb_lt; assumption | apply N.eqb_eq; assumption].
Qed.

(** The digits before the padding. *)
Lemma padded_digits (a : N) :
  a < 256 ->
  N.shiftl (N.land a 3) 4 < 64
  /\ N.shiftr a 2 * 4 + N.shiftl (N.land a 3) 4 / 16 = a
  /\ N.shiftl (N.land a 3) 4 mod 16 = 0
  /\ N.shiftl (N.land a 15) 2 < 64
  /\ N.shiftr a 4 * 16 + N.shiftl (N.land a 15) 2 / 4 = a
  /\ N.shiftl (N.land a 15) 2 mod 4 = 0.
Proof.
  intros Ha.
  pose (check := fun a =>
    (N.shiftl (N.land a 3) 4 <? 64)
    && (N.shiftr a 2 * 4 + N.shiftl (N.land a 3) 4 / 16 =? a)
    && (N.shiftl (N.land a 3) 4 mod 16 =? 0)
    && (N.shiftl (N.land a 15) 2 <? 64)
    && (N.shiftr a 4 * 16 + N.shiftl (N.land a 15) 2 / 4 =? a)
    && (N.shiftl (N.land a 15) 2 mod 4 =? 0)).
  assert (Hcheck : check a = true).
  { apply (below 256 check); [vm_compute; reflexivity | exact Ha]. }
  unfold check in Hcheck.
  repeat (apply andb_true_iff in Hcheck; destruct Hcheck as [Hcheck ?]).
  repeat split;
    first [apply N.ltb_lt; assumption | apply N.eqb_eq; assumption].
Qed.

(** Lists, three elements at a time. *)
Lemma by_threes {A} (P : list A -> Prop) :
  P [] ->
  (forall a, P [a]) ->
  (forall a b, P [a; b]) ->
  (forall a b c rest, P rest -> P (a :: b :: c :: rest)) ->
  forall l, P l.
Proof.
  intros H0 H1 H2 H3.
  assert (Hall : forall l, P l /\ (forall a, P (a :: l))
                           /\ (forall a b, P (a :: b :: l))).
  { induction l as [| x l (IH0 & IH1 & IH2)].
    - auto.
    - split; [apply IH1 |]. split; [intros a; apply IH2 |].
      intros a b. apply H3. exact IH0. }
  intros l. apply Hall.
Qed.

Lemma decode_encode (ns : list N) :
  Forall (fun n => n < 256) ns -> decode64 (base64_of ns) = Some ns.
Proof.
  pattern ns. apply by_threes; clear ns.
  - reflexivity.
  - intros a Ha. inversion Ha as [| ? ? Ha' _]; subst.
    destruct (first_digits a 0 Ha' eq_refl) as (H1 & _).
    destruct (padded_digits a Ha') as (H2 & Hb1 & Hmod & _).
    destruct (digit_reads_back _ H1) as (c1 & E1 & D1 & _).
    destruct (digit_reads_back _ H2) as (c2 & E2 & D2 & _).
    cbn [base64_of]. rewrite E1, E2.
    change (decode64 (String c1 (String c2 "==")) = Some [a]).
    cbn [decode64]. rewrite D1, D2.
    cbn [Ascii.eqb Bool.eqb andb String.eqb].
    rewrite Hmod, Hb1. reflexivity.
  - intros a b Hab. inversion Hab as [| ? ? Ha Hb']; subst.
    inversion Hb' as [| ? ? Hb _]; subst.
    destruct (first_digits a b Ha Hb) as (H1 & H2 & Hb1 & Hmod2).
    destruct (padded_digits b Hb) as (_ & _ & _ & H3 & Hb2 & Hmod3).
    destruct (digit_reads_back _ H1) as (c1 & E1 & D1 & _).
    destruct (digit_reads_back _ H2) as (c2 & E2 & D2 & _).
    destruct (digit_reads_back _ H3) as (c3 & E3 & D3 & N3).
    cbn [base64_of]. rewrite E1, E2, E3.
    change (decode64 (String c1 (String c2 (String c3 "="))) = Some [a; b]).
    cbn [decode64]. rewrite D1, D2, N3, D3.
    cbn [Ascii.eqb Bool.eqb andb String.eqb].
    rewrite Hmod3, Hb1, Hmod2, Hb2. reflexivity.
  - intros a b c rest IH Hall.
    inversion Hall as [| ? ? Ha Hall1]; subst.
    inversion Hall1 as [| ? ? Hb Hall2]; subst.
    inversion Hall2 as [| ? ? Hc Hrest]; subst.
    destruct (first_digits a b Ha Hb) as (H1 & H2 & Hb1 & Hmod2).
    destruct (last_digits b c Hb Hc) as (H3 & H4 & Hb2 & Hb3).
    destruct (digit_reads_back _ H1) as (c1 & E1 & D1 & _).
    destruct (digit_reads_back _ H2) as (c2 & E2 & D2 & _).
    destruct (digit_reads_back _ H3) as (c3 & E3 & D3 & N3).
    destruct (digit_reads_back _ H4) as (c4 & E4 & D4 & N4).
    cbn [base64_of]. rewrite E1, E2, E3, E4.
    change (decode64
              (String c1 (String c2 (String c3 (String c4 (base64_of rest)))))
            = Some (a :: b :: c :: rest)).
    cbn [decode64]. rewrite D1, D2, N3, D3, N4, D4, (IH Hrest).
    rewrite Hb1, Hmod2, Hb2, Hb3. reflexivity.
Qed.

(** The text that [buffer.toString('base64')] gives reads back, as
    base64, to the bytes of the buffer. *)
Lemma base64_encodes (fileData : list Byte.byte) :
  encodes (base64 fileData) fileData.
Proof.
  unfold encodes, base64. apply decode_encode.
  induction fileData as [| x fileData IH]; constructor; [| exact IH].
  pose proof (Byte.to_N_bounded x). lia.
Qed.

End Base64Facts.

(** ** Properties of the report parser *)

Module ParserFacts.

Import SpiraResultsParser Case MonadFacts.

Section WithOutside.

Variable o : Outside.
Variable reportFile : string.

Abbreviation read_all paths :=
  (flat_map (read_attachment o reportFile) paths).
Abbreviation read_logs paths :=
  (flat_map (read_log o reportFile) paths).
Abbreviation file_values props :=
  (List.map property_text (List.filter is_file_property props)).
Abbreviation link_values props :=
  (List.map property_text (List.filter is_link_property props)).


Lemma readAttachmentFile_run (filepath : string) (w : World) :
  exists a,
    readAttachmentFile o reportFile filepath w
    = (Ret a, logged w (read_log o reportFile filepath))
    /\ forall attachments,
        push_if a attachments
        = (attachments ++ read_attachment o reportFile filepath)%list.
Proof.
  unfold readAttachmentFile, read_log, read_attachment, full_path.
  destruct (readFileSync o _) as [e | data].
  - exists None. split; [reflexivity |].
    intros atts. simpl. rewrite app_nil_r. reflexivity.
  - exists (Some {| filename := filepath; binary_data := base64 data |}).
    split; [| reflexivity].
    unfold ret. rewrite logged_nil. reflexivity.
Qed.

(** Reading the files of a list of paths. *)
Lemma read_paths_run (paths : list string) (attachments : list Attachment)
  (w : World) :
  for_of paths
    (fun attachments filepath =>
       let* attachment := readAttachmentFile o reportFile filepath in
       ret (push_if attachment attachments))
    attachments w
  = (Ret (attachments ++ read_all paths)%list, logged w (read_logs paths)).
Proof.
  revert attachments w.
  induction paths as [| path paths IH]; intros atts w; simpl.
  - unfold ret. rewrite app_nil_r, logged_nil. reflexivity.
  - destruct (readAttachmentFile_run path w) as [a [Hrun Hpush]].
    erewrite bind_Ret; [| erewrite bind_Ret; [| exact Hrun]; reflexivity].
    rewrite IH, Hpush, logged_logged, <- app_assoc. reflexivity.
Qed.

Lemma capture_run (label : string) (stream details : JsVal)
  (attachments : list Attachment) (w : World) :
  stream_ok stream ->
  capture o label stream reportFile (details, attachments) w
  = (Ret (if truthy stream
          then append details (stream_line label stream) else details,
          (attachments ++ read_all (stream_paths stream))%list),
     logged w (read_logs (stream_paths stream))).
Proof.
  intros [Hfalsy | [s ->]]; unfold capture, stream_line.
  - rewrite Hfalsy. unfold ret.
    assert (Hnone : stream_paths stream = []).
    { destruct stream; try reflexivity. simpl in Hfalsy.
      destruct s; [reflexivity | discriminate]. }
    rewrite Hnone. simpl. rewrite app_nil_r, logged_nil. reflexivity.
  - destruct (truthy (VStr s)) eqn:E.
    + unfold extractAttachments. simpl fst. simpl snd.
      erewrite bind_Ret; [| apply read_paths_run]. reflexivity.
    + simpl in E. destruct s; [| discriminate].
      unfold ret. simpl. rewrite app_nil_r, logged_nil. reflexivity.
Qed.

Lemma processProperty_run (prop details : JsVal)
  (attachments : list Attachment) (links : list Link) (w : World) :
  property_ok prop ->
  processProperty o reportFile (details, attachments, links) prop w
  = (Ret (append details (property_line prop),
          (attachments ++ read_all (file_values [prop]))%list,
          (links ++ List.map as_link (link_values [prop]))%list),
     logged w (read_logs (file_values [prop]))).
Proof.
  intros [n [Hname Hvalue]].
  assert (Hprop : exists fs, prop = VObj fs).
  { destruct prop; simpl in Hname; try discriminate. eauto. }
  destruct Hprop as [fs ->].
  unfold processProperty. cbv beta iota zeta.
  fold (property_value (VObj fs)).
  unfold file_values, link_values.
  cbn [List.filter].
  unfold is_file_property, is_link_property, is_attachment_property,
    property_line, property_text.
  rewrite Hname.
  destruct (startsWith n "attachment") eqn:Hatt.
  - destruct (Hvalue eq_refl) as [v Hv]. rewrite Hv.
    cbn [to_string andb].
    destruct (startsWith v "http") eqn:Hhttp; cbn [negb List.map flat_map];
      unfold property_text; rewrite ?Hv; cbn [to_string].
    + unfold ret. rewrite !app_nil_r, logged_nil. reflexivity.
    + destruct (readAttachmentFile_run v w) as [a [Hrun Hpush]].
      erewrite bind_Ret; [| exact Hrun].
      unfold ret. rewrite Hpush, !app_nil_r. reflexivity.
  - cbn [andb List.map flat_map].
    unfold ret. rewrite !app_nil_r, logged_nil. reflexivity.
Qed.

Lemma properties_run (props : list JsVal) (details : JsVal)
  (attachments : list Attachment) (links : list Link) (w : World) :
  Forall property_ok props ->
  for_of props (processProperty o reportFile) (details, attachments, links) w
  = (Ret (with_properties details props,
          (attachments ++ read_all (file_values props))%list,
          (links ++ List.map as_link (link_values props))%list),
     logged w (read_logs (file_values props))).
Proof.
  intros Hok. revert details attachments links w.
  induction Hok as [| prop props Hprop Hprops IH];
    intros details atts links w.
  - simpl. unfold ret. rewrite !app_nil_r, logged_nil. reflexivity.
  - cbn [for_of]. erewrite bind_Ret; [| apply processProperty_run, Hprop].
    rewrite IH, logged_logged, <- !app_assoc.
    cbn [with_properties fold_left].
    assert (Hf : file_values (prop :: props)
                 = (file_values [prop] ++ file_values props)%list).
    { cbn [List.filter]. destruct (is_file_property prop); reflexivity. }
    assert (Hl : link_values (prop :: props)
                 = (link_values [prop] ++ link_values props)%list).
    { cbn [List.filter]. destruct (is_link_property prop); reflexivity. }
    rewrite Hf, Hl, !flat_map_app, List.map_app. reflexivity.
Qed.

Lemma with_properties_text (text : string) (props : list JsVal) :
  with_properties (VStr text) props
  = VStr (text ++ String.concat "" (List.map property_line props)).
Proof.
  revert text. induction props as [| prop props IH]; intros text.
  - simpl. rewrite append_empty_r. reflexivity.
  - cbn [List.map]. rewrite concat_cons, <- append_assoc, <- IH.
    reflexivity.
Qed.

(** *** What a submitted case must be *)

Lemma same_results_refl w : same_results w w.
Proof. reflexivity. Qed.

Lemma same_results_trans w1 w2 w3 :
  same_results w1 w2 -> same_results w2 w3 -> same_results w1 w3.
Proof. unfold same_results. congruence. Qed.

(** Walks down a computation that only reads files and writes lines. *)
Ltac same_walk :=
  repeat first
    [ apply (keeps_ret same_results same_results_refl)
    | apply (keeps_throw same_results same_results_refl)
    | apply (keeps_bind same_results same_results_trans)
    | apply (keeps_for_of same_results same_results_refl
               same_results_trans)
    | match goal with
      | |- forall _, _ => intro
      | |- keeps _ (if ?x then _ else _) => destruct x
      | |- keeps _ (match ?x with _ => _ end) => destruct x
      end
    | (intros ?w; reflexivity) ].

Lemma keeps_readAttachmentFile (filepath : string) :
  keeps same_results (readAttachmentFile o reportFile filepath).
Proof. unfold readAttachmentFile. same_walk. Qed.

Lemma keeps_capture label stream acc :
  keeps same_results (capture o label stream reportFile acc).
Proof.
  unfold capture, extractAttachments. same_walk;
    apply keeps_readAttachmentFile.
Qed.

Lemma keeps_processProperty acc prop :
  keeps same_results (processProperty o reportFile acc prop).
Proof.
  unfold processProperty. destruct acc as [[details atts] lnks].
  same_walk; apply keeps_readAttachmentFile.
Qed.

Lemma keeps_properties props acc :
  keeps same_results (for_of props (processProperty o reportFile) acc).
Proof.
  apply (keeps_for_of same_results same_results_refl same_results_trans).
  intros b x. apply keeps_processProperty.
Qed.

Lemma capture_Ret_ok label stream acc w x w1 :
  capture o label stream reportFile acc w = (Ret x, w1) -> stream_ok stream.
Proof.
  unfold capture, stream_ok. destruct (truthy stream) eqn:E; [| auto].
  destruct stream; eauto; unfold extractAttachments, bind, throw;
    discriminate.
Qed.

Lemma processProperty_Ret_ok acc prop w x w1 :
  processProperty o reportFile acc prop w = (Ret x, w1) -> property_ok prop.
Proof.
  unfold processProperty, property_ok.
  destruct acc as [[details atts] lnks].
  fold (property_value prop).
  destruct prop; try (unfold throw; discriminate);
    cbv beta iota zeta;
    destruct (field "name" _) eqn:Hname; try (unfold throw; discriminate);
    intros Hrun; eexists; (split; [reflexivity |]); intros Hatt;
    rewrite Hatt in Hrun;
    destruct (property_value _); try (unfold throw in Hrun; discriminate);
    eauto.
Qed.

Lemma properties_Ret_ok props acc w x w1 :
  for_of props (processProperty o reportFile) acc w = (Ret x, w1) ->
  Forall property_ok props.
Proof.
  revert acc w. induction props as [| prop props IH]; intros acc w Hrun.
  - constructor.
  - cbn [for_of] in Hrun. unfold bind in Hrun.
    destruct (processProperty o reportFile acc prop w) as [[y | e] w2] eqn:E;
      [| discriminate].
    constructor; [eapply processProperty_Ret_ok, E | eapply IH, Hrun].
Qed.

Lemma not_pushed (w w1 : World) (r : TestResult) :
  same_results w w1 -> testResults w1 <> (testResults w ++ [r])%list.
Proof.
  unfold same_results. intros -> H.
  apply (f_equal (@List.length _)) in H. rewrite length_app in H.
  simpl in H. lia.
Qed.

(** A readable case with a test-case id is submitted: one result is
    added, whose fields are as follows, and the console gets one line for
    each file that cannot be read. *)
Lemma processTestCase_submits (config : SpiraConfig.t)
  (testcase : JsVal) (suite : string) (id : JsNum) (w : World) :
  readable testcase ->
  mapped_id config testcase = Some id ->
  num_truthy id = true ->
  exists r,
    processTestCase o config testcase (VStr suite) reportFile w
    = (Ret tt, submitted w r (read_logs (file_paths testcase)))
    /\ test_case_id r = id
    /\ name r = qualified_name testcase
    /\ execution_status_id r = snd (fst (resolve testcase))
    /\ message r = fst (fst (fst (resolve testcase)))
    /\ stack_trace r
       = with_properties
           (with_stream
              (with_stream (snd (fst (fst (resolve testcase))))
                 "System Out: " (field "system-out" testcase))
              "System Err: " (field "system-err" testcase))
           (properties testcase)
    /\ duration_seconds r
       = parseFloat (to_string (or_else (field "time" testcase)
                                        (VNum (num 0))))
    /\ assert_count r
       = (if truthy (field "assertions" testcase)
          then parseInt (to_string (field "assertions" testcase))
          else snd (resolve testcase))
    /\ attachments r = read_all (file_paths testcase)
    /\ links r = List.map as_link (link_urls testcase).
Proof.
  intros (Hdef & Hout & Herr & Hprops) Hid Htruthy.
  unfold mapped_id, qualified_name in Hid.
  unfold processTestCase.
  destruct (resolve testcase) as [[[msg details] status] asserts] eqn:Hres.
  assert (Hbody :
    forall body : M unit,
      match testcase with
      | VUndef | VNull => throw "Cannot read properties of undefined"
      | _ => body
      end = body) by (destruct testcase; simpl in Hdef; tauto).
  rewrite Hbody, Hid, Htruthy. cbv beta iota zeta.
  assert (Hloop : forall acc,
    (if truthy (field "properties" testcase)
        && truthy (field "property" (field "properties" testcase))
     then for_of (as_array (field "property" (field "properties" testcase)))
            (processProperty o reportFile) acc
     else ret acc)
    = for_of (properties testcase) (processProperty o reportFile) acc).
  { intros acc. unfold properties.
    destruct (truthy _ && truthy _); reflexivity. }
  eexists. split.
  - erewrite bind_Ret; [| apply capture_run; exact Hout]. cbv beta iota.
    erewrite bind_Ret; [| apply capture_run; exact Herr]. cbv beta iota.
    rewrite Hloop.
    erewrite bind_Ret; [| apply properties_run; exact Hprops].
    unfold push_result, submitted, file_paths.
    rewrite !logged_logged. simpl. rewrite !flat_map_app. reflexivity.
  - simpl. unfold link_urls, file_paths.
    rewrite !flat_map_app, <- !app_assoc.
    repeat split; reflexivity.
Qed.

(** A case that adds a result is a readable case with a test-case id,
    in a suite whose name is a text. *)
Lemma submitted_case_inv (config : SpiraConfig.t)
  (testcase suiteName : JsVal) (w : World) (r : TestResult) :
  testResults (snd (processTestCase o config testcase suiteName reportFile w))
  = (testResults w ++ [r])%list ->
  readable testcase
  /\ (exists id, mapped_id config testcase = Some id
                 /\ num_truthy id = true)
  /\ exists suite, suiteName = VStr suite.
Proof.
  intros H.
  assert (Hdef : defined testcase).
  { destruct testcase; try exact I; exfalso;
      (eapply not_pushed; [| exact H]); reflexivity. }
  assert (Hbody :
    forall body : M unit,
      match testcase with
      | VUndef | VNull => throw "Cannot read properties of undefined"
      | _ => body
      end = body) by (destruct testcase; simpl in Hdef; tauto).
  unfold processTestCase in H. rewrite Hbody in H. cbv zeta in H.
  unfold readable, mapped_id, qualified_name.
  destruct (SpiraConfig.test_case_ids config !! _) as [id |];
    [| exfalso; (eapply not_pushed; [| exact H]); reflexivity].
  destruct (num_truthy id) eqn:Htruthy;
    [| exfalso; (eapply not_pushed; [| exact H]); reflexivity].
  destruct suiteName as [| | | | suite | |];
    try (exfalso; (eapply not_pushed; [| exact H]); reflexivity).
  destruct (resolve testcase) as [[[msg details] status] asserts].
  unfold bind at 1 in H.
  pose proof (keeps_capture "System Out: " (field "system-out" testcase)
                (details, []) w) as K1.
  destruct (capture o "System Out: " _ reportFile _ w)
    as [[[d1 a1] | e] w1] eqn:E1; simpl in K1;
    [| exfalso; eapply not_pushed; [exact K1 | exact H]].
  unfold bind at 1 in H.
  pose proof (keeps_capture "System Err: " (field "system-err" testcase)
                (d1, a1) w1) as K2.
  destruct (capture o "System Err: " _ reportFile _ w1)
    as [[[d2 a2] | e] w2] eqn:E2; simpl in K2;
    [| exfalso; eapply not_pushed;
       [exact (same_results_trans _ _ _ K1 K2) | exact H]].
  assert (Hloop : forall acc,
    (if truthy (field "properties" testcase)
        && truthy (field "property" (field "properties" testcase))
     then for_of (as_array (field "property" (field "properties" testcase)))
            (processProperty o reportFile) acc
     else ret acc)
    = for_of (properties testcase) (processProperty o reportFile) acc).
  { intros acc. unfold properties.
    destruct (truthy _ && truthy _); reflexivity. }
  rewrite Hloop in H. unfold bind at 1 in H.
  pose proof (keeps_properties (properties testcase) (d2, a2, []) w2) as K3.
  destruct (for_of (properties testcase) _ _ w2)
    as [[x | e] w3] eqn:E3; simpl in K3;
    [| exfalso; eapply not_pushed;
       [exact (same_results_trans _ _ _
                 (same_results_trans _ _ _ K1 K2) K3) | exact H]].
  repeat split; eauto.
  - eapply capture_Ret_ok, E1.
  - eapply capture_Ret_ok, E2.
  - eapply properties_Ret_ok, E3.
Qed.

(** The fields of the result that a case adds. *)
Lemma submitted_case_fields (config : SpiraConfig.t)
  (testcase suiteName : JsVal) (w : World) (r : TestResult) :
  testResults (snd (processTestCase o config testcase suiteName reportFile w))
  = (testResults w ++ [r])%list ->
  processTestCase o config testcase suiteName reportFile w
  = (Ret tt, submitted w r (read_logs (file_paths testcase)))
  /\ mapped_id config testcase = Some (test_case_id r)
  /\ name r = qualified_name testcase
  /\ execution_status_id r = snd (fst (resolve testcase))
  /\ message r = fst (fst (fst (resolve testcase)))
  /\ stack_trace r
     = with_properties
         (with_stream
            (with_stream (snd (fst (fst (resolve testcase))))
               "System Out: " (field "system-out" testcase))
            "System Err: " (field "system-err" testcase))
         (properties testcase)
  /\ duration_seconds r
     = parseFloat (to_string (or_else (field "time" testcase)
                                      (VNum (num 0))))
  /\ assert_count r
     = (if truthy (field "assertions" testcase)
        then parseInt (to_string (field "assertions" testcase))
        else snd (resolve testcase))
  /\ attachments r = read_all (file_paths testcase)
  /\ links r = List.map as_link (link_urls testcase).
Proof.
  intros H.
  destruct (submitted_case_inv config testcase suiteName w r H)
    as (Hread & (id & Hid & Htruthy) & (suite & ->)).
  destruct (processTestCase_submits config testcase suite id w
              Hread Hid Htruthy) as (r' & Hrun & Hr' & Hfields).
  rewrite Hrun in H. simpl in H. apply app_inj_tail in H.
  destruct H as [_ [= ->]].
  split; [exact Hrun |]. split; [rewrite Hr'; exact Hid | exact Hfields].
Qed.

Lemma with_stream_text (text label : string) (stream : JsVal) :
  with_stream (VStr text) label stream
  = VStr (text ++ stream_line label stream).
Proof.
  unfold with_stream, stream_line. destruct (truthy stream).
  - reflexivity.
  - rewrite append_empty_r. reflexivity.
Qed.

(** What the chain of tests gives: the first of the four nodes that is
    truthy decides, in the order failure, warning, error, skipped. *)
Lemma resolve_status (testcase : JsVal) :
  snd (fst (resolve testcase))
  = if truthy (field "failure" testcase) then 1
    else if truthy (field "warning" testcase) then 6
    else if truthy (field "error" testcase) then 5
    else if truthy (field "skipped" testcase) then 4
    else 2.
Proof.
  unfold resolve.
  destruct (truthy (field "failure" testcase)); [reflexivity |].
  destruct (truthy (field "warning" testcase)); [reflexivity |].
  destruct (truthy (field "error" testcase)); [reflexivity |].
  destruct (truthy (field "skipped" testcase)); reflexivity.
Qed.

Lemma resolve_asserts (testcase : JsVal) :
  snd (resolve testcase)
  = if truthy (field "failure" testcase)
       || truthy (field "warning" testcase)
       || truthy (field "error" testcase)
       || truthy (field "skipped" testcase)
    then num 1 else num 0.
Proof.
  unfold resolve.
  destruct (truthy (field "failure" testcase)); [reflexivity |].
  destruct (truthy (field "warning" testcase)); [reflexivity |].
  destruct (truthy (field "error" testcase)); [reflexivity |].
  destruct (truthy (field "skipped" testcase)); reflexivity.
Qed.

Lemma resolve_nothing (testcase : JsVal) :
  truthy (field "failure" testcase) = false ->
  truthy (field "warning" testcase) = false ->
  truthy (field "error" testcase) = false ->
  truthy (field "skipped" testcase) = false ->
  resolve testcase
  = (VStr "Success", VStr ("Nothing Reported" ++ nl), 2, num 0).
Proof.
  intros Hf Hw He Hs. unfold resolve. rewrite Hf, Hw, He, Hs. reflexivity.
Qed.

(** The status of a submitted case: the first truthy node among failure,
    warning, error and skipped decides, and the case has passed when none
    is truthy.  (An empty element is not truthy.) *)
Lemma submitted_status (config : SpiraConfig.t)
  (testcase suiteName : JsVal) (w : World) (r : TestResult) :
  testResults (snd (processTestCase o config testcase suiteName reportFile w))
  = (testResults w ++ [r])%list ->
  execution_status_id r
  = if truthy (field "failure" testcase) then 1
    else if truthy (field "warning" testcase) then 6
    else if truthy (field "error" testcase) then 5
    else if truthy (field "skipped" testcase) then 4
    else 2.
Proof.
  intros H.
  destruct (submitted_case_fields config testcase suiteName w r H)
    as (_ & _ & _ & Hstatus & _).
  rewrite Hstatus. apply resolve_status.
Qed.

(** The assert count of a submitted case: the parsed [assertions] when
    the attribute is truthy, else 1 when one of the four nodes is truthy,
    else 0. *)
Lemma submitted_assert_count (config : SpiraConfig.t)
  (testcase suiteName : JsVal) (w : World) (r : TestResult) :
  testResults (snd (processTestCase o config testcase suiteName reportFile w))
  = (testResults w ++ [r])%list ->
  assert_count r
  = if truthy (field "assertions" testcase)
    then parseInt (to_string (field "assertions" testcase))
    else if truthy (field "failure" testcase)
            || truthy (field "warning" testcase)
            || truthy (field "error" testcase)
            || truthy (field "skipped" testcase)
         then num 1 else num 0.
Proof.
  intros H.
  destruct (submitted_case_fields config testcase suiteName w r H)
    as (_ & _ & _ & _ & _ & _ & _ & Hasserts & _).
  rewrite Hasserts, resolve_asserts. reflexivity.
Qed.

(** The attachments read hold the files of their names. *)
Lemma read_all_hold (paths : list string) :
  Forall (holds_file o reportFile) (read_all paths).
Proof.
  induction paths as [| filepath paths IH]; [constructor |].
  cbn [flat_map]. apply Forall_app_2; [| exact IH].
  unfold read_attachment.
  destruct (readFileSync o (full_path o reportFile filepath))
    as [e | fileData] eqn:E; constructor; [| constructor].
  exists fileData. split; [exact E | apply Base64Facts.base64_encodes].
Qed.

(** C2.  The id of a case is looked up in the table of test cases under
    the lower-cased [classname.name], here a text of ASCII characters.  When
    the lookup gives nothing, or gives 0 (or NaN), which is as falsy as
    nothing, [processTestCase] writes one line on the console and returns:
    the list of results is as it was. *)
Theorem unmapped_case_is_skipped (config : SpiraConfig.t)
  (testcase suiteName : JsVal) (w : World) :
  defined testcase ->
  Text.ascii_text (qualified_name testcase) = true ->
  no_id (mapped_id config testcase) ->
  processTestCase o config testcase suiteName reportFile w
  = (Ret tt, logged w [skip_line testcase]).
Proof.
  intros Hdef _ Hno. unfold no_id, mapped_id, qualified_name in Hno.
  unfold processTestCase, skip_line, qualified_name.
  assert (Hbody :
    forall body : M unit,
      match testcase with
      | VUndef | VNull => throw "Cannot read properties of undefined"
      | _ => body
      end = body) by (destruct testcase; simpl in Hdef; tauto).
  rewrite Hbody. cbv zeta.
  destruct (SpiraConfig.test_case_ids config !! _) as [n |].
  - rewrite Hno. reflexivity.
  - reflexivity.
Qed.

(** C10.  When [processTestCase] adds a result for a case that has none
    of the four nodes (failure, warning, error, skipped: absent, or empty),
    the details of the result start with the line "Nothing Reported",
    followed by the "System Out: " line if there is a [system-out], the
    "System Err: " line if there is a [system-err], and one "- name=value"
    line for each property, in this order. *)
Theorem nothing_reported_details (config : SpiraConfig.t)
  (testcase suiteName : JsVal) (w : World) (r : TestResult) :
  testResults (snd (processTestCase o config testcase suiteName reportFile w))
  = (testResults w ++ [r])%list ->
  truthy (field "failure" testcase) = false ->
  truthy (field "warning" testcase) = false ->
  truthy (field "error" testcase) = false ->
  truthy (field "skipped" testcase) = false ->
  stack_trace r
  = VStr (("Nothing Reported" ++ nl)
          ++ stream_line "System Out: " (field "system-out" testcase)
          ++ stream_line "System Err: " (field "system-err" testcase)
          ++ String.concat ""
               (List.map property_line (properties testcase))).
Proof.
  intros H Hf Hw He Hs.
  destruct (submitted_case_fields config testcase suiteName w r H)
    as (_ & _ & _ & _ & _ & Hdetails & _).
  rewrite Hdetails, (resolve_nothing testcase Hf Hw He Hs).
  cbn [fst snd].
  rewrite !with_stream_text, with_properties_text, !append_assoc.
  reflexivity.
Qed.

(** C4, as the code has it.  When [processTestCase] adds a result for a
    case, the duration of the result is what [parseFloat] reads in the
    [time] attribute of the case, and 0 when the attribute is absent or
    empty.  (So the duration is NaN when the attribute does not start with
    a number, and below 0 when the attribute is.) *)
Theorem duration_is_parsed_time (config : SpiraConfig.t)
  (testcase suiteName : JsVal) (w : World) (r : TestResult) :
  testResults (snd (processTestCase o config testcase suiteName reportFile w))
  = (testResults w ++ [r])%list ->
  duration_seconds r
  = if truthy (field "time" testcase)
    then parseFloat (to_string (field "time" testcase))
    else num 0.
Proof.
  intros H.
  destruct (submitted_case_fields config testcase suiteName w r H)
    as (_ & _ & _ & _ & _ & _ & Hduration & _).
  rewrite Hduration. unfold or_else.
  destruct (truthy (field "time" testcase)); reflexivity.
Qed.

(** C3.  A readable case with a test-case id is submitted, whatever can
    be read of its files.  Its links are the values of the properties whose
    name starts with "attachment" and whose value starts with "http"; its
    attachments are the files named by the markers of the two streams and by
    the other properties whose name starts with "attachment", each read from
    the directory of the report and encoded in base64, so that the data of
    every attachment reads back to the bytes of its file; a file that cannot
    be read gives a line on the console and no attachment. *)
Theorem attachment_properties (config : SpiraConfig.t)
  (testcase : JsVal) (suite : string) (id : JsNum) (w : World) :
  readable testcase ->
  mapped_id config testcase = Some id ->
  num_truthy id = true ->
  exists r,
    processTestCase o config testcase (VStr suite) reportFile w
    = (Ret tt, submitted w r (read_logs (file_paths testcase)))
    /\ links r = List.map as_link (link_urls testcase)
    /\ attachments r = read_all (file_paths testcase)
    /\ Forall (holds_file o reportFile) (attachments r).
Proof.
  intros Hread Hid Htruthy.
  destruct (processTestCase_submits config testcase suite id w
              Hread Hid Htruthy)
    as (r & Hrun & _ & _ & _ & _ & _ & _ & _ & Hatt & Hlinks).
  exists r. split; [exact Hrun |]. split; [exact Hlinks |].
  split; [exact Hatt |]. rewrite Hatt. apply read_all_hold.
Qed.

End WithOutside.

Lemma readable_with_attachments : readable Sample.with_attachments.
Proof.
  split; [exact I |]. split; [right; eexists; reflexivity |].
  split; [left; reflexivity |].
  repeat constructor; eexists;
    (split; [reflexivity | intros _; eexists; reflexivity]).
Qed.

(** The table is searched under the lower-cased name: the case named in
    capitals finds the entry of [registration3], which is 0. *)
Lemma shouted_is_mapped_to_zero :
  mapped_id Sample.config Sample.shouted = Some (num 0).
Proof. vm_compute. reflexivity. Qed.

Lemma unmapped_case_is_skipped_witness :
  defined Sample.shouted
  /\ Text.ascii_text (qualified_name Sample.shouted) = true
  /\ mapped_id Sample.config Sample.shouted = Some (num 0)
  /\ no_id (mapped_id Sample.config Sample.shouted)
  /\ processTestCase (Sample.outside (fun _ => false)) Sample.config
       Sample.shouted (VStr "LIS.Registration") Sample.report start
     = (Ret tt,
        logged start
          ["Unable to find Spira id tag for test case "
           ++ "'LIS.Registration.REGISTRATION3', so skipping this test case."]).
Proof.
  assert (Hno : no_id (mapped_id Sample.config Sample.shouted))
    by (rewrite shouted_is_mapped_to_zero; reflexivity).
  split; [exact I |]. split; [reflexivity |].
  split; [exact shouted_is_mapped_to_zero |]. split; [exact Hno |].
  apply (unmapped_case_is_skipped (Sample.outside (fun _ => false))
           Sample.report Sample.config Sample.shouted
           (VStr "LIS.Registration") start I eq_refl Hno).
Defined.

Lemma mapped_with_attachments :
  mapped_id Sample.config Sample.with_attachments = Some (num 2).
Proof. vm_compute. reflexivity. Qed.

Lemma with_attachments_submitted :
  testResults
    (snd (processTestCase (Sample.outside (fun _ => false)) Sample.config
            Sample.with_attachments (VStr "LIS.Registration") Sample.report
            start))
  = (testResults start ++ [Sample.with_attachments_result])%list.
Proof. vm_compute. reflexivity. Qed.

Lemma nothing_reported_details_witness :
  testResults
    (snd (processTestCase (Sample.outside (fun _ => false)) Sample.config
            Sample.with_attachments (VStr "LIS.Registration") Sample.report
            start))
  = (testResults start ++ [Sample.with_attachments_result])%list
  /\ truthy (field "failure" Sample.with_attachments) = false
  /\ truthy (field "warning" Sample.with_attachments) = false
  /\ truthy (field "error" Sample.with_attachments) = false
  /\ truthy (field "skipped" Sample.with_attachments) = false
  /\ stack_trace Sample.with_attachments_result
     = VStr (("Nothing Reported" ++ nl)
             ++ stream_line "System Out: "
                  (field "system-out" Sample.with_attachments)
             ++ stream_line "System Err: "
                  (field "system-err" Sample.with_attachments)
             ++ String.concat ""
                  (List.map property_line
                     (properties Sample.with_attachments))).
Proof.
  split; [exact with_attachments_submitted |].
  repeat (split; [reflexivity |]).
  apply (nothing_reported_details (Sample.outside (fun _ => false))
           Sample.report Sample.config Sample.with_attachments
           (VStr "LIS.Registration") start Sample.with_attachments_result
           with_attachments_submitted);
    reflexivity.
Defined.

Lemma duration_is_parsed_time_witness :
  testResults
    (snd (processTestCase (Sample.outside (fun _ => false)) Sample.config
            Sample.with_attachments (VStr "LIS.Registration") Sample.report
            start))
  = (testResults start ++ [Sample.with_attachments_result])%list
  /\ duration_seconds Sample.with_attachments_result
     = if truthy (field "time" Sample.with_attachments)
       then parseFloat (to_string (field "time" Sample.with_attachments))
       else num 0.
Proof.
  split; [exact with_attachments_submitted |].
  apply (duration_is_parsed_time (Sample.outside (fun _ => false))
           Sample.report Sample.config Sample.with_attachments
           (VStr "LIS.Registration") start Sample.with_attachments_result
           with_attachments_submitted).
Defined.

Lemma readable_with_files : readable Sample.with_files.
Proof.
  split; [exact I |]. split; [right; eexists; reflexivity |].
  split; [left; reflexivity |].
  repeat constructor; eexists;
    (split; [reflexivity | intros _; eexists; reflexivity]).
Qed.

Lemma mapped_with_files :
  mapped_id Sample.config Sample.with_files = Some (num 2).
Proof. vm_compute. reflexivity. Qed.

Lemma attachment_properties_witness :
  readable Sample.with_files
  /\ mapped_id Sample.config Sample.with_files = Some (num 2)
  /\ num_truthy (num 2) = true
  /\ exists r,
      processTestCase (Sample.outside (fun _ => false)) Sample.config
        Sample.with_files (VStr "LIS.Registration") Sample.report start
      = (Ret tt,
         submitted start r
           ["Unable to read image file 'missing.png' due to error "
            ++ "'ENOENT: no such file or directory, open "
            ++ "'reports/missing.png'', so skipping attachment." ++ nl])
      /\ links r = [{| link_url := "http://example.com/x" |}]
      /\ attachments r
         = [{| filename := "out/log.txt"; binary_data := "TWFu" |};
            {| filename := "out/log.txt"; binary_data := "TWFu" |}]
      /\ Forall (holds_file (Sample.outside (fun _ => false)) Sample.report)
           (attachments r).
Proof.
  repeat (split; [first [exact readable_with_files
                        | exact mapped_with_files
                        | reflexivity] |]).
  destruct (attachment_properties (Sample.outside (fun _ => false))
              Sample.report Sample.config Sample.with_files
              "LIS.Registration" (num 2) start
              readable_with_files mapped_with_files eq_refl)
    as (r & Hrun & Hlinks & Hattachments & Hfiles).
  exists r. split; [exact Hrun |]. split; [exact Hlinks |].
  split; [exact Hattachments | exact Hfiles].
Defined.

(** The links, the attachments and the console of the sample case: the
    url is a link, [out/log.txt] is read from the directory of the report,
    and [missing.png] is reported and left out. *)
Example sample_links_and_files :
  List.map link_url (flat_map links (Sample.results_of Sample.with_attachments))
  = ["http://example.com/x"]
  /\ flat_map attachments (Sample.results_of Sample.with_attachments)
     = [{| filename := "out/log.txt"; binary_data := "TWFu" |}]
  /\ full_path (Sample.outside (fun _ => false)) Sample.report "out/log.txt"
     = "reports/out/log.txt"
  /\ List.length (Sample.results_of Sample.with_attachments) = 1%nat.
Proof. repeat split; vm_compute; reflexivity. Qed.

(** C4, as the specification has it, fails on a [time] that is not a
    number, which gives NaN and not 0, and on a negative [time], which is
    kept. *)
Lemma duration_counterexample :
  (exists r, In r (Sample.results_of Sample.time_unparsable)
             /\ ~ duration_as_specified Sample.time_unparsable r)
  /\ (exists r, In r (Sample.results_of Sample.time_negative)
                /\ ~ duration_as_specified Sample.time_negative r).
Proof.
  split.
  - eexists. split.
    + cbv. left. reflexivity.
    + intros [H _]. vm_compute in H. discriminate.
  - eexists. split.
    + cbv. left. reflexivity.
    + intros [_ H]. vm_compute in H. discriminate.
Qed.

(** C1.  An empty [skipped] element is the empty string, which is falsy:
    the case is reported as passed (2), not as skipped (4).  And with an
    empty [failure] element and a [skipped] one, the case is reported as
    skipped (4), not as failed (1). *)
Theorem empty_node_is_not_seen :
  List.map execution_status_id (Sample.results_of Sample.skipped_empty) = [2]
  /\ List.map execution_status_id
       (Sample.results_of Sample.failure_empty_and_skipped) = [4].
Proof. split; vm_compute; reflexivity. Qed.

(** C6.  An empty [error] element is the empty string, which is falsy:
    the assert count of the case stays 0. *)
Theorem empty_node_counts_no_assert :
  List.map assert_count (Sample.results_of Sample.error_empty) = [num 0]
  /\ List.map execution_status_id (Sample.results_of Sample.error_empty)
     = [2].
Proof. split; vm_compute; reflexivity. Qed.

End ParserFacts.

(** ** Properties of the submitter *)

Module SubmitterFacts.

Import SpiraPostResults MonadFacts.

Lemma adds_requests_refl P w : adds_requests P w w.
Proof. exists []. rewrite app_nil_r. auto. Qed.

Lemma adds_requests_trans P w1 w2 w3 :
  adds_requests P w1 w2 -> adds_requests P w2 w3 -> adds_requests P w1 w3.
Proof.
  intros [rs [H1 HP]] [rs' [H2 HP']]. exists (rs ++ rs')%list.
  rewrite H2, H1, <- app_assoc. split; [reflexivity | apply Forall_app; auto].
Qed.

Section Emits.

Context (P : Request -> Prop).

Lemma emits_ret {A} (a : A) : emits P (ret a).
Proof. apply keeps_ret, adds_requests_refl. Qed.

Lemma emits_throw {A} (e : string) : emits P (@throw A e).
Proof. apply keeps_throw, adds_requests_refl. Qed.

Lemma emits_log (line : string) : emits P (log line).
Proof. intros w. exists []. simpl. rewrite app_nil_r. auto. Qed.

Lemma emits_new_Date (o : Outside) : emits P (new_Date o).
Proof. intros w. exists []. simpl. rewrite app_nil_r. auto. Qed.

Lemma emits_axios_post (o : Outside) (r : Request) :
  P r -> emits P (axios_post o r).
Proof. intros Hr w. exists [r]. simpl. auto. Qed.

Lemma emits_bind {A B} (m : M A) (k : A -> M B) :
  emits P m -> (forall a, emits P (k a)) -> emits P (bind m k).
Proof. apply keeps_bind, adds_requests_trans. Qed.

Lemma emits_try_catch {A} (m : M A) (h : string -> M A) :
  emits P m -> (forall e, emits P (h e)) -> emits P (try_catch m h).
Proof. apply keeps_try_catch, adds_requests_trans. Qed.

Lemma emits_for_of {A B} (xs : list A) (body : B -> A -> M B) (acc : B) :
  (forall b x, emits P (body b x)) -> emits P (for_of xs body acc).
Proof.
  apply keeps_for_of; [apply adds_requests_refl | apply adds_requests_trans].
Qed.

End Emits.

(** Walks down a computation built from the combinators above. *)
Ltac emits_walk :=
  repeat first
    [ apply emits_ret | apply emits_throw | apply emits_log
    | apply emits_new_Date
    | apply emits_axios_post; first [exact I | reflexivity]
    | apply emits_bind | apply emits_try_catch | apply emits_for_of
    | intros [? | ? ?] | intro ].

Lemma carries_not_a_build config buildId (rs : list Request) :
  Forall (carries config buildId) rs -> Forall not_a_build rs.
Proof.
  intros H. induction H as [| r rs Hr _ IH]; constructor; [| exact IH].
  unfold carries in Hr. unfold not_a_build.
  destruct (req_body r); tauto.
Qed.

Lemma emits_document_post o config buildId d spiraUrl username token data :
  emits (carries config buildId)
    (SpiraDocument.post o d spiraUrl username token data).
Proof. unfold SpiraDocument.post. emits_walk. Qed.

(** The build id given to [sendResult] is the one of its test run. *)
Lemma emits_sendResult o config r currentTime buildId :
  emits (carries config buildId) (sendResult o config r currentTime buildId).
Proof.
  unfold sendResult. apply emits_try_catch; [| emits_walk].
  apply emits_bind.
  - unfold SpiraTestRun.post, SpiraTestRun.iso, SpiraTestRun.new.
    cbn [SpiraTestRun.startTime SpiraTestRun.endTime].
    destruct (start_time currentTime (duration_seconds r)); emits_walk.
  - intros testRunId.
    destruct (negb (id_lt_one testRunId)); emits_walk;
      apply emits_document_post.
Qed.

(** The build id is threaded into every request of the loop. *)
Lemma emits_sendAll o config results buildId :
  emits (carries config buildId) (sendAll o config results buildId).
Proof.
  unfold sendAll. apply emits_for_of. intros n r.
  apply emits_bind; [apply emits_new_Date |]. intros t.
  apply emits_bind; [apply emits_sendResult | emits_walk].
Qed.

(** C8.  With an empty [url] in the configuration, [sendResults] writes one
    line on the console, saying that the results cannot be reported, and
    returns: whatever the results are, no request is made (no build, no
    test run, no document) and nothing else changes. *)
Theorem sendResults_empty_url_no_request
  (o : Outside) (config : SpiraConfig.t) (results : list TestResult)
  (testsuites : JsVal) (w : World) :
  SpiraConfig.url config = "" ->
  sendResults o config results testsuites w
  = (Ret tt,
     logged w ["Unable to report test results back to Spira since URL in configuration is empty"]).
Proof.
  intros Hurl. unfold sendResults. rewrite Hurl. reflexivity.
Qed.

Lemma sendResults_empty_url_no_request_witness :
  SpiraConfig.url SpiraConfig.initial = ""
  /\ sendResults (Sample.outside (fun _ => false)) SpiraConfig.initial
       [Sample.passed; Sample.failed] (VObj []) start
     = (Ret tt,
        logged start ["Unable to report test results back to Spira since URL in configuration is empty"]).
Proof.
  split.
  - reflexivity.
  - apply (sendResults_empty_url_no_request
             (Sample.outside (fun _ => false)) SpiraConfig.initial
             [Sample.passed; Sample.failed] (VObj []) start).
    reflexivity.
Defined.

Lemma build_status_failed (results : list TestResult) :
  (exists r, In r results /\ execution_status_id r = 1) ->
  build_status results = 1.
Proof.
  intros [r [Hin Hr]]. unfold build_status.
  replace (existsb _ results) with true; [reflexivity |].
  symmetry. apply existsb_exists. exists r. split; [exact Hin |].
  apply Z.eqb_eq. exact Hr.
Qed.

Lemma build_status_passed (results : list TestResult) :
  (forall r, In r results -> execution_status_id r <> 1) ->
  build_status results = 2.
Proof.
  intros Hall. unfold build_status.
  destruct (existsb _ results) eqn:E; [| reflexivity].
  apply existsb_exists in E. destruct E as [r [Hin Hr]].
  apply Z.eqb_eq in Hr. destruct (Hall r Hin Hr).
Qed.

(** What follows the creation of the build: the requests for the results. *)
Lemma emits_after_build o config results buildId :
  emits (carries config buildId)
    (log ("Sending test results to Spira at URL '" ++ SpiraConfig.url config
          ++ "'.");;
     try_catch
       (let* successCount := sendAll o config results buildId in
        log ("Successfully reported " ++ Z_to_string (Z.of_nat successCount)
             ++ " test cases to Spira." ++ nl))
       (fun error_message =>
          log ("Unable to report test cases to Spira due to error '"
               ++ error_message ++ "'." ++ nl)))%js.
Proof.
  apply emits_bind; [apply emits_log |]. intros _.
  apply emits_try_catch; [| emits_walk].
  apply emits_bind; [apply emits_sendAll | emits_walk].
Qed.

(** The creation of the build makes one request, whose status is that of
    the results, and gives the id of the response, or [null]. *)
Lemma createBuild_request o config results testsuites w :
  truthy testsuites = true ->
  exists b build_url buildId lines,
    createBuild o config results testsuites w
    = (Ret buildId,
       {| testResults := testResults w;
          console := console w ++ lines;
          requests :=
            requests w
            ++ [{| req_url := build_url; req_body := OfBuild b;
                   req_username := SpiraConfig.username config;
                   req_api_key := SpiraConfig.token config |}];
          clock_reads := S (clock_reads w) |})
    /\ b_BuildStatusId b = build_status results.
Proof.
  intros Hroot. unfold createBuild.
  destruct testsuites; simpl in Hroot; try discriminate;
    cbv [SpiraBuild.post bind log new_Date axios_post ret]; simpl;
    match goal with
    | |- context [server o ?h ?r] => destruct (server o h r) as [id | st msg]
    end; simpl; rewrite <- ?app_assoc; simpl;
    do 4 eexists; (split; [reflexivity | reflexivity]).
Qed.

(** C7.  When a build is created (the url is set, [create_build] is on and
    the root node is the one [parseResults] passes), the first request of
    [sendResults] is the one create-build call of the run, and its
    BuildStatusId is 1 if some result has execution status 1 and 2 if none
    has. *)
Theorem build_status_sent
  (o : Outside) (config : SpiraConfig.t) (results : list TestResult)
  (testsuites : JsVal) (w : World) :
  SpiraConfig.url config <> "" ->
  SpiraConfig.create_build config = true ->
  truthy testsuites = true ->
  exists (b : BuildBody) (build_url : string) (rest : list Request),
    requests (snd (sendResults o config results testsuites w))
    = (requests w
       ++ {| req_url := build_url; req_body := OfBuild b;
             req_username := SpiraConfig.username config;
             req_api_key := SpiraConfig.token config |} :: rest)%list
    /\ Forall not_a_build rest
    /\ ((exists r, In r results /\ execution_status_id r = 1) ->
        b_BuildStatusId b = 1)
    /\ ((forall r, In r results -> execution_status_id r <> 1) ->
        b_BuildStatusId b = 2).
Proof.
  intros Hurl Hbuild Hroot.
  unfold sendResults.
  destruct (String.eqb (SpiraConfig.url config) "") eqn:E;
    [apply String.eqb_eq in E; contradiction |].
  rewrite Hbuild.
  destruct (createBuild_request o config results testsuites w Hroot)
    as (b & build_url & buildId & lines & Hrun & Hstatus).
  rewrite (bind_Ret _ _ _ _ _ Hrun).
  destruct (emits_after_build o config results buildId
              {| testResults := testResults w;
                 console := console w ++ lines;
                 requests :=
                   requests w
                   ++ [{| req_url := build_url; req_body := OfBuild b;
                          req_username := SpiraConfig.username config;
                          req_api_key := SpiraConfig.token config |}];
                 clock_reads := S (clock_reads w) |})
    as [rest [Hrest Hnb]].
  exists b, build_url, rest.
  split; [| split; [exact (carries_not_a_build _ _ _ Hnb)
                   | rewrite Hstatus; split;
    [apply build_status_failed | apply build_status_passed]]].
  etransitivity; [exact Hrest |]. simpl. rewrite <- app_assoc. reflexivity.
Qed.

Lemma build_status_sent_witness :
  SpiraConfig.url Sample.config <> ""
  /\ SpiraConfig.create_build Sample.config = true
  /\ truthy (VObj [("name", VStr "suite")]) = true
  /\ exists (b : BuildBody) (build_url : string) (rest : list Request),
    requests (snd (sendResults (Sample.outside (fun _ => false))
                     Sample.config [Sample.passed; Sample.failed]
                     (VObj [("name", VStr "suite")]) start))
    = (requests start
       ++ {| req_url := build_url; req_body := OfBuild b;
             req_username := SpiraConfig.username Sample.config;
             req_api_key := SpiraConfig.token Sample.config |} :: rest)%list
    /\ Forall not_a_build rest
    /\ ((exists r, In r [Sample.passed; Sample.failed]
                  /\ execution_status_id r = 1) ->
        b_BuildStatusId b = 1)
    /\ ((forall r, In r [Sample.passed; Sample.failed]
                  -> execution_status_id r <> 1) ->
        b_BuildStatusId b = 2).
Proof.
  assert (Hurl : SpiraConfig.url Sample.config <> "")
    by (vm_compute; discriminate).
  split; [exact Hurl |].
  split; [vm_compute; reflexivity |].
  split; [reflexivity |].
  apply (build_status_sent (Sample.outside (fun _ => false)) Sample.config
           [Sample.passed; Sample.failed] (VObj [("name", VStr "suite")])
           start Hurl).
  - vm_compute; reflexivity.
  - reflexivity.
Defined.

(** The optional fields of a test-run body: ReleaseId is there exactly
    when the release id is not -1, BuildId when moreover the build id is not
    -1, TestSetId when the test-set id is not -1. *)
Lemma test_run_optional_fields o run spiraUrl username token w s e :
  SpiraTestRun.startTime run = Some s ->
  SpiraTestRun.endTime run = Some e ->
  exists body run_url,
    requests (snd (SpiraTestRun.post o run spiraUrl username token w))
    = (requests w
       ++ [{| req_url := run_url; req_body := OfTestRun body;
              req_username := username; req_api_key := token |}])%list
    /\ ReleaseId body
       = (if num_eqb (SpiraTestRun.releaseId run) (num (-1)) then None
          else Some (SpiraTestRun.releaseId run))
    /\ BuildId body
       = (if num_eqb (SpiraTestRun.releaseId run) (num (-1)) then None
          else if id_is_not_minus_one (SpiraTestRun.buildId run)
               then Some (SpiraTestRun.buildId run) else None)
    /\ TestSetId body
       = (if num_eqb (SpiraTestRun.testSetId run) (num (-1)) then None
          else Some (SpiraTestRun.testSetId run)).
Proof.
  intros Hs He. unfold SpiraTestRun.post. rewrite Hs, He.
  cbv [SpiraTestRun.iso bind ret axios_post]. simpl.
  match goal with
  | |- context [server o ?h ?r] => destruct (server o h r) as [id | st msg]
  end; simpl; do 2 eexists;
    (split; [reflexivity |]); simpl;
    destruct (num_eqb (SpiraTestRun.releaseId run) (num (-1)));
    destruct (num_eqb (SpiraTestRun.testSetId run) (num (-1)));
    simpl; auto.
Qed.

(** What the creation of the build returns is the build id of every test
    run that follows: the id of the response, and [null] (not -1) when the
    call fails. *)
Lemma build_id_threaded o config results testsuites w :
  SpiraConfig.url config <> "" ->
  SpiraConfig.create_build config = true ->
  truthy testsuites = true ->
  exists buildId build_request rest,
    fst (createBuild o config results testsuites w) = Ret buildId
    /\ buildId
       = match server o (requests w) build_request with
         | Resolved id => id
         | Rejected _ _ => IdNull
         end
    /\ requests (snd (sendResults o config results testsuites w))
       = (requests w ++ build_request :: rest)%list
    /\ Forall (carries config buildId) rest.
Proof.
  intros Hurl Hbuild Hroot.
  unfold sendResults.
  destruct (String.eqb (SpiraConfig.url config) "") eqn:E;
    [apply String.eqb_eq in E; contradiction |].
  rewrite Hbuild.
  assert (Hrun : exists buildId build_request w1,
    createBuild o config results testsuites w = (Ret buildId, w1)
    /\ requests w1 = (requests w ++ [build_request])%list
    /\ buildId
       = match server o (requests w) build_request with
         | Resolved id => id
         | Rejected _ _ => IdNull
         end).
  { unfold createBuild.
    destruct testsuites; simpl in Hroot; try discriminate;
      cbv [SpiraBuild.post bind log new_Date axios_post ret]; simpl;
      match goal with
      | |- context [server o ?h ?r] =>
          destruct (server o h r) as [id | st msg] eqn:Hserver
      end; simpl; do 3 eexists;
      (split; [reflexivity | split; [reflexivity |]]);
      rewrite Hserver; reflexivity. }
  destruct Hrun as (buildId & build_request & w1 & Hrun & Hreq & Hid).
  rewrite Hrun, (bind_Ret _ _ _ _ _ Hrun).
  destruct (emits_after_build o config results buildId w1)
    as [rest [Hrest Hcarries]].
  exists buildId, build_request, rest.
  split; [reflexivity |]. split; [exact Hid |]. split; [| exact Hcarries].
  etransitivity; [exact Hrest |]. rewrite Hreq, <- app_assoc. reflexivity.
Qed.

(** C5.  A run whose create-build call fails: the configuration asks for
    a build under release 5 and the server refuses the build.  The failed
    call yields [null], not -1, and the test-run request that follows
    carries [BuildId: null]. *)
Theorem failed_build_threads_null :
  fst (createBuild (Sample.outside Sample.is_build) Sample.config
         [Sample.passed] (VObj []) start)
  = Ret IdNull
  /\ Sample.build_ids
       (requests
          (snd (sendResults (Sample.outside Sample.is_build) Sample.config
                  [Sample.passed] (VObj []) start)))
     = [Some IdNull].
Proof. split; vm_compute; reflexivity. Qed.

End SubmitterFacts.

(** ** Further properties of the configuration loader *)

Module LoaderFacts.

Import SpiraConfig Text MonadFacts.

Lemma split_nonempty (c : ascii) (s : string) : split c s <> [].
Proof.
  destruct s as [| a s]; simpl; [discriminate |].
  destruct (Ascii.eqb a c); [discriminate |].
  destruct (split c s); discriminate.
Qed.

(** Splitting at a separator splits both sides of it. *)
Lemma split_app (c : ascii) (a b : string) :
  split c (a ++ String c b) = (split c a ++ split c b)%list.
Proof.
  induction a as [| x a IH].
  - simpl. rewrite Ascii.eqb_refl. reflexivity.
  - change (String x a ++ String c b) with (String x (a ++ String c b)).
    cbn [split]. rewrite IH.
    destruct (Ascii.eqb x c); [reflexivity |].
    destruct (split c a) as [| h t] eqn:E;
      [destruct (split_nonempty c a E) | reflexivity].
Qed.

Lemma split_without (c : ascii) (s : string) :
  contains c s = false -> split c s = [s].
Proof.
  induction s as [| a s IH]; [reflexivity |].
  cbn [contains split]. intros H. apply orb_false_iff in H.
  destruct H as [Ha Hs]. rewrite Ha, (IH Hs). reflexivity.
Qed.

Lemma concat_head (sep : string) (a : ascii) (h : string) (t : list string) :
  String.concat sep (String a h :: t) = String a (String.concat sep (h :: t)).
Proof. destruct t; reflexivity. Qed.

(** Joining what a split gives, with the separator, gives the text back. *)
Lemma join_split (c : ascii) (s : string) :
  join (String c "") (split c s) = s.
Proof.
  unfold join. induction s as [| a s IH]; [reflexivity |].
  cbn [split]. destruct (Ascii.eqb_spec a c) as [-> | Hne].
  - destruct (split c s) as [| h t] eqn:E;
      [destruct (split_nonempty c s E) |].
    change (String.concat (String c "") ("" :: h :: t))
      with (String c (String.concat (String c "") (h :: t))).
    rewrite IH. reflexivity.
  - destruct (split c s) as [| h t] eqn:E;
      [destruct (split_nonempty c s E) |].
    rewrite concat_head, IH. reflexivity.
Qed.

Lemma startsWith_head (k rest p : string) :
  k <> "" -> String.length p = 1%nat ->
  startsWith (k ++ rest) p = startsWith k p.
Proof.
  intros Hk Hp. destruct k as [| a k]; [congruence |].
  destruct p as [| b [| b' p]]; try discriminate.
  unfold startsWith. simpl.
  destruct (ascii_dec b a); [| reflexivity].
  generalize (k ++ rest). intros s. destruct k, s; reflexivity.
Qed.

(** X1.  In a trimmed line [key=value] of ASCII characters whose key is
    not empty and has no ["="], and which is neither a comment nor a header
    (it does not both start with ["["] and end with ["]"]), the key is the
    text before the first ["="] and the value is all the text after it,
    further ["="] included, both trimmed; the entry is stored in the current
    section, which stays.  (A credentials key spelled like one of the two
    tables is left out: Node replaces the table by the value.) *)
Theorem entry_splits_at_first_equals
  (section key value : string) (c : t) :
  ascii_text (key ++ "=" ++ value) = true ->
  key <> "" ->
  contains "=" key = false ->
  startsWith key "#" = false ->
  startsWith (key ++ "=" ++ value) "[" && endsWith (key ++ "=" ++ value) "]"
  = false ->
  trim (key ++ "=" ++ value) = key ++ "=" ++ value ->
  (section = "credentials" ->
   trim key <> "test_case_ids" /\ trim key <> "test_set_ids") ->
  loadLine (section, c) (key ++ "=" ++ value)
  = (section, store section (trim key) (trim value) c).
Proof.
  intros _ Hkey Hno Hcomment Hheader Htrim _.
  unfold loadLine. rewrite Htrim. unfold classify.
  assert (Hline : String.eqb (key ++ "=" ++ value) "" = false).
  { destruct key; [congruence | reflexivity]. }
  rewrite Hline, (startsWith_head key _ "#" Hkey eq_refl), Hcomment.
  cbn [orb]. rewrite Hheader.
  change (key ++ "=" ++ value) with (key ++ String "=" value).
  rewrite split_app, (split_without _ _ Hno). cbn [app].
  assert (Hk : String.eqb key "" = false)
    by (destruct key; [congruence | reflexivity]).
  rewrite Hk.
  destruct (split "=" value) as [| h tl] eqn:E;
    [destruct (split_nonempty _ _ E) |].
  cbn [List.length Nat.eqb orb]. rewrite <- E.
  change "=" with (String "="%char "") at 1.
  rewrite join_split. reflexivity.
Qed.

Lemma entry_splits_at_first_equals_witness :
  ascii_text ("[url " ++ "=" ++ " http://host/spira?a=b=c") = true
  /\ "[url " <> ""
  /\ contains "=" "[url " = false
  /\ startsWith "[url " "#" = false
  /\ startsWith ("[url " ++ "=" ++ " http://host/spira?a=b=c") "["
     && endsWith ("[url " ++ "=" ++ " http://host/spira?a=b=c") "]"
     = false
  /\ trim ("[url " ++ "=" ++ " http://host/spira?a=b=c")
     = "[url " ++ "=" ++ " http://host/spira?a=b=c"
  /\ ("credentials" = "credentials" ->
      trim "[url " <> "test_case_ids" /\ trim "[url " <> "test_set_ids")
  /\ loadLine ("credentials", initial)
       ("[url " ++ "=" ++ " http://host/spira?a=b=c")
     = ("credentials",
        store "credentials" "[url" "http://host/spira?a=b=c" initial).
Proof.
  assert (Hkey : "[url " <> "") by discriminate.
  assert (Htables : "credentials" = "credentials" ->
                    trim "[url " <> "test_case_ids"
                    /\ trim "[url " <> "test_set_ids")
    by (intros _; split; discriminate).
  split; [reflexivity |]. split; [exact Hkey |].
  repeat (split; [reflexivity |]).
  split; [exact Htables |].
  apply (entry_splits_at_first_equals "credentials" "[url "
           " http://host/spira?a=b=c" initial eq_refl Hkey eq_refl eq_refl
           eq_refl eq_refl Htables).
Defined.




(** An entry of a section that the loader does not know stores nothing. *)
Lemma store_unknown (section key value : string) (c : t) :
  ~ known_section section -> store section key value c = c.
Proof.
  intros Hunknown. unfold store, known_section in *.
  ConfigFacts.string_cases; tauto.
Qed.

(** X3.  A file of ASCII characters whose entries all stand in sections
    other than [credentials], [test_cases] and [test_sets] (or before any
    section) leaves the object as the constructor made it. *)
Theorem unknown_sections_are_ignored (content : string) :
  ascii_text content = true ->
  (forall section key value,
      In (section, key, value) (entries content) ->
      ~ known_section section) ->
  loadConfig content = initial.
Proof.
  intros _ Hall. unfold loadConfig. rewrite ConfigFacts.loadLines_entries.
  fold (entries content). revert Hall.
  generalize (entries content). intros es.
  induction es as [| [[s k] v] es IH]; intros Hall; [reflexivity |].
  cbn [fold_left]. unfold store_entry at 2. cbn [fst snd].
  rewrite (store_unknown s k v initial);
    [| apply (Hall s k v); left; reflexivity].
  apply IH. intros s' k' v' Hin. apply (Hall s' k' v'). right. exact Hin.
Qed.

Lemma unknown_sections_are_ignored_witness :
  ascii_text Sample.misplaced_text = true
  /\ (forall section key value,
      In (section, key, value) (entries Sample.misplaced_text) ->
      ~ known_section section)
  /\ loadConfig Sample.misplaced_text = initial
  /\ SpiraConfig.url (loadConfig Sample.misplaced_text) = ""
  /\ SpiraConfig.project_id (loadConfig Sample.misplaced_text) = num (-1).
Proof.
  assert (Hall : forall section key value,
             In (section, key, value) (entries Sample.misplaced_text) ->
             ~ known_section section).
  { assert (Hentries : entries Sample.misplaced_text
                       = [("", "url", "http://localhost/spira");
                          ("settings", "project_id", "3")])
      by (vm_compute; reflexivity).
    rewrite Hentries. intros section key value [H | [H | []]];
      injection H as <- _ _; intros [H | [H | H]]; discriminate. }
  assert (Hascii : ascii_text Sample.misplaced_text = true)
    by (vm_compute; reflexivity).
  split; [exact Hascii |]. split; [exact Hall |].
  split;
    [| rewrite (unknown_sections_are_ignored Sample.misplaced_text
                  Hascii Hall); split; reflexivity].
  apply (unknown_sections_are_ignored Sample.misplaced_text Hascii Hall).
Defined.

Lemma lower_is_no_dot (c : ascii) :
  Ascii.eqb (lower c) "."%char = Ascii.eqb c "."%char.
Proof. destruct c as [[] [] [] [] [] [] [] []]; reflexivity. Qed.

Lemma contains_dot_lower (s : string) :
  contains "." (toLowerCase s) = contains "." s.
Proof.
  induction s as [| c s IH]; [reflexivity |].
  cbn [toLowerCase contains]. rewrite lower_is_no_dot, IH. reflexivity.
Qed.

Lemma contains_dot_app (a b : string) :
  contains "." (a ++ "." ++ b) = true.
Proof.
  induction a as [| c a IH]; [reflexivity |].
  change (String c a ++ "." ++ b) with (String c (a ++ "." ++ b)).
  cbn [contains]. rewrite IH. apply orb_true_r.
Qed.

(** A key that a qualified name matches up to case is not [__proto__]: it
    holds a dot. *)
Lemma qualified_key_is_stored (testcase : JsVal) (key : string) :
  toLowerCase (Case.qualified_name testcase) = toLowerCase key ->
  stored_key "test_cases" key.
Proof.
  intros Hname. unfold stored_key. cbn [String.eqb]. intros Hproto.
  assert (Hdot : contains "." (toLowerCase key) = true).
  { rewrite <- Hname, contains_dot_lower. apply contains_dot_app. }
  rewrite Hproto in Hdot. discriminate.
Qed.

(** X4.  In a file of ASCII characters that has no credentials entry
    spelled like one of the two tables, the key of an entry of [test_cases]
    is matched whatever the case of its letters: when no later entry of the
    section has the same key up to case, a test case whose [classname.name]
    (a text of ASCII characters) is the key up to case gets the integer of
    the entry as its id. *)
Theorem test_case_key_any_case
  (content key value : string)
  (before after : list (string * string * string)) (testcase : JsVal) :
  ascii_text content = true ->
  keeps_tables (entries content) ->
  ascii_text (Case.qualified_name testcase) = true ->
  entries content = (before ++ ("test_cases", key, value) :: after)%list ->
  (forall k v, In ("test_cases", k, v) after ->
               toLowerCase k <> toLowerCase key) ->
  toLowerCase (Case.qualified_name testcase) = toLowerCase key ->
  Case.mapped_id (loadConfig content) testcase = Some (parseInt value).
Proof.
  intros _ _ _ Hentries Hlast Hname.
  assert (Hknown : known_section "test_cases")
    by (right; left; reflexivity).
  assert (Hstored :
    stored (loadConfig content) "test_cases" key
    = value_of "test_cases" key value).
  { unfold loadConfig. rewrite ConfigFacts.loadLines_entries.
    fold (entries content). rewrite Hentries, fold_left_app. cbn [fold_left].
    rewrite ConfigFacts.stored_after_others; [| exact Hknown |].
    - apply ConfigFacts.stored_store_same; [exact Hknown |].
      apply (qualified_key_is_stored testcase). exact Hname.
    - intros k v Hin Hsame. apply (Hlast k v Hin).
      unfold same_key in Hsame. simpl in Hsame. congruence. }
  unfold stored, value_of in Hstored. simpl in Hstored.
  unfold Case.mapped_id. rewrite Hname.
  destruct (test_case_ids (loadConfig content) !! toLowerCase key);
    congruence.
Qed.

Lemma sample_entries :
  entries Sample.config_text
  = ([("credentials", "url", "http://localhost/spira");
      ("credentials", "username", "administrator");
      ("credentials", "project_id", "1");
      ("credentials", "release_id", "5");
      ("credentials", "create_build", "true")]
     ++ ("test_cases", "LIS.Registration.registration1", "2")
     :: [("test_cases", "LIS.Registration.registration2", "3");
         ("test_cases", "LIS.Registration.registration3", "0");
         ("test_sets", "LIS.Registration", "2")])%list.
Proof. vm_compute. reflexivity. Qed.

Lemma sample_keeps_tables : keeps_tables (entries Sample.config_text).
Proof.
  rewrite sample_entries. intros k v Hin. simpl in Hin.
  repeat (destruct Hin as [Hin | Hin];
          [inversion Hin; subst; split; discriminate |]).
  destruct Hin.
Qed.

Lemma test_case_key_any_case_witness :
  ascii_text Sample.config_text = true
  /\ keeps_tables (entries Sample.config_text)
  /\ ascii_text
       (Case.qualified_name
          (VObj [("classname", VStr "lis.REGISTRATION");
                 ("name", VStr "Registration1")])) = true
  /\ entries Sample.config_text
     = ([("credentials", "url", "http://localhost/spira");
         ("credentials", "username", "administrator");
         ("credentials", "project_id", "1");
         ("credentials", "release_id", "5");
         ("credentials", "create_build", "true")]
        ++ ("test_cases", "LIS.Registration.registration1", "2")
        :: [("test_cases", "LIS.Registration.registration2", "3");
            ("test_cases", "LIS.Registration.registration3", "0");
            ("test_sets", "LIS.Registration", "2")])%list
  /\ (forall k v,
        In ("test_cases", k, v)
          [("test_cases", "LIS.Registration.registration2", "3");
           ("test_cases", "LIS.Registration.registration3", "0");
           ("test_sets", "LIS.Registration", "2")] ->
        toLowerCase k <> toLowerCase "LIS.Registration.registration1")
  /\ toLowerCase
       (Case.qualified_name
          (VObj [("classname", VStr "lis.REGISTRATION");
                 ("name", VStr "Registration1")]))
     = toLowerCase "LIS.Registration.registration1"
  /\ Case.mapped_id (loadConfig Sample.config_text)
       (VObj [("classname", VStr "lis.REGISTRATION");
              ("name", VStr "Registration1")])
     = Some (num 2).
Proof.
  assert (Hascii : ascii_text Sample.config_text = true)
    by (vm_compute; reflexivity).
  assert (Hlast : forall k v,
    In ("test_cases", k, v)
      [("test_cases", "LIS.Registration.registration2", "3");
       ("test_cases", "LIS.Registration.registration3", "0");
       ("test_sets", "LIS.Registration", "2")] ->
    toLowerCase k <> toLowerCase "LIS.Registration.registration1").
  { intros k v [H | [H | [H | []]]]; injection H as <- _;
      try discriminate; vm_compute; discriminate. }
  split; [exact Hascii |]. split; [exact sample_keeps_tables |].
  split; [reflexivity |].
  split; [exact sample_entries |]. split; [exact Hlast |].
  split; [reflexivity |].
  apply (test_case_key_any_case Sample.config_text
           "LIS.Registration.registration1" "2" _ _
           (VObj [("classname", VStr "lis.REGISTRATION");
                  ("name", VStr "Registration1")])
           Hascii sample_keeps_tables eq_refl sample_entries Hlast).
  reflexivity.
Defined.

End LoaderFacts.

(** ** Properties of the attachment markers *)

Module MarkerFacts.

Import SpiraResultsParser Text MonadFacts.

Lemma prefix_append (a b : string) : String.prefix a (a ++ b) = true.
Proof.
  induction a as [| x a IH]; [destruct b; reflexivity |].
  change (String x a ++ b) with (String x (a ++ b)). cbn [String.prefix].
  destruct (ascii_dec x x); [exact IH | congruence].
Qed.

Lemma length_append (a b : string) :
  String.length (a ++ b) = (String.length a + String.length b)%nat.
Proof.
  induction a as [| x a IH]; [reflexivity |].
  change (String x a ++ b) with (String x (a ++ b)). simpl. rewrite IH.
  reflexivity.
Qed.

(** After a match, its characters are passed. *)
Lemma matchAll_skip (a b : string) :
  matchAll (a ++ b) (String.length a) = matchAll b O.
Proof.
  induction a as [| x a IH]; [reflexivity |].
  change (String x a ++ b) with (String x (a ++ b)). exact IH.
Qed.

Lemma match_here_other (c : ascii) (s : string) :
  Ascii.eqb c "[" = false -> match_here (String c s) = None.
Proof.
  intros H. unfold match_here, startsWith. cbn [String.prefix].
  destruct (ascii_dec "[" c) as [<- | _]; [discriminate | reflexivity].
Qed.

(** No match starts in a text without ["["]. *)
Lemma matchAll_without (s t : string) :
  contains "[" s = false -> matchAll (s ++ t) O = matchAll t O.
Proof.
  induction s as [| c s IH]; [reflexivity |].
  cbn [contains]. intros H. apply orb_false_iff in H. destruct H as [Hc Hs].
  change (String c s ++ t) with (String c (s ++ t)).
  cbn [matchAll]. rewrite (match_here_other c _ Hc). exact (IH Hs).
Qed.

Lemma span_path (p rest : string) :
  all_chars is_path_char p = true ->
  match rest with
  | String c _ => is_path_char c = false
  | EmptyString => True
  end ->
  span is_path_char (p ++ rest) = (p, rest).
Proof.
  intros Hp Hrest. induction p as [| x p IH].
  - destruct rest as [| c rest]; [reflexivity |].
    simpl. simpl in Hrest. rewrite Hrest. reflexivity.
  - cbn [all_chars] in Hp. apply andb_true_iff in Hp. destruct Hp as [Hx Hp].
    change (String x p ++ rest) with (String x (p ++ rest)).
    cbn [span]. rewrite Hx, (IH Hp). reflexivity.
Qed.

Lemma path_without_bracket (p : string) :
  all_chars is_path_char p = true -> contains "[" p = false.
Proof.
  induction p as [| x p IH]; [reflexivity |].
  cbn [all_chars contains]. intros H. apply andb_true_iff in H.
  destruct H as [Hx Hp]. rewrite (IH Hp), orb_false_r.
  destruct (Ascii.eqb_spec x "[") as [-> | _]; [discriminate | reflexivity].
Qed.

(** X5.  A marker [[ATTACHMENT|path]] whose path is made of letters,
    digits, underscore, slash, backslash and dot is found after any text
    without ["["], its path is the one captured, and the search goes on
    after the marker. *)
Theorem marker_is_found (before path after : string) :
  contains "[" before = false ->
  path <> "" ->
  all_chars is_path_char path = true ->
  matchAll (before ++ "[[ATTACHMENT|" ++ path ++ "]]" ++ after) O
  = path :: matchAll after O.
Proof.
  intros Hbefore Hpath Hchars.
  rewrite (matchAll_without _ _ Hbefore).
  assert (Hhere :
    match_here ("[[ATTACHMENT|" ++ path ++ "]]" ++ after)
    = Some (path, (13 + String.length path + 2)%nat)).
  { unfold match_here, startsWith. rewrite prefix_append.
    change (drop 13 ("[[ATTACHMENT|" ++ path ++ "]]" ++ after))
      with (path ++ "]]" ++ after).
    rewrite (span_path path ("]]" ++ after) Hchars eq_refl).
    rewrite prefix_append.
    destruct path; [congruence | reflexivity]. }
  change ("[[ATTACHMENT|" ++ path ++ "]]" ++ after)
    with (String "[" ("[ATTACHMENT|" ++ path ++ "]]" ++ after)) at 1.
  cbn [matchAll].
  change (String "[" ("[ATTACHMENT|" ++ path ++ "]]" ++ after))
    with ("[[ATTACHMENT|" ++ path ++ "]]" ++ after).
  rewrite Hhere. f_equal.
  replace ("[ATTACHMENT|" ++ path ++ "]]" ++ after)
    with (("[ATTACHMENT|" ++ path ++ "]]") ++ after)
    by (rewrite !append_assoc; reflexivity).
  replace (13 + String.length path + 2 - 1)%nat
    with (String.length ("[ATTACHMENT|" ++ path ++ "]]")).
  - apply matchAll_skip.
  - rewrite !length_append. simpl. lia.
Qed.

Lemma marker_is_found_witness :
  contains "[" "saved " = false
  /\ "shots/login_1.png" <> ""
  /\ all_chars is_path_char "shots/login_1.png" = true
  /\ matchAll ("saved " ++ "[[ATTACHMENT|" ++ "shots/login_1.png" ++ "]]"
              ++ " and left") O
     = "shots/login_1.png" :: matchAll " and left" O.
Proof.
  assert (Hpath : "shots/login_1.png" <> "") by discriminate.
  split; [reflexivity |]. split; [exact Hpath |]. split; [reflexivity |].
  apply (marker_is_found "saved " "shots/login_1.png" " and left"
           eq_refl Hpath eq_refl).
Defined.

Lemma contains_append (c : ascii) (a b : string) :
  contains c (a ++ b) = contains c a || contains c b.
Proof.
  induction a as [| x a IH]; [reflexivity |].
  change (String x a ++ b) with (String x (a ++ b)).
  cbn [contains]. rewrite IH, orb_assoc. reflexivity.
Qed.

(** X6.  A marker whose path holds a character outside the class (a
    hyphen, a space, a colon, ...) is no marker: nothing is captured from
    it. *)
Theorem marker_with_other_character_is_ignored
  (before a b after : string) (c : ascii) :
  contains "[" before = false ->
  all_chars is_path_char a = true ->
  all_chars is_path_char b = true ->
  is_path_char c = false ->
  c <> "["%char ->
  c <> "]"%char ->
  matchAll (before ++ "[[ATTACHMENT|" ++ a ++ String c (b ++ "]]" ++ after)) O
  = matchAll after O.
Proof.
  intros Hbefore Ha Hb Hc Hopen Hclose.
  rewrite (matchAll_without _ _ Hbefore).
  set (tail := String c (b ++ "]]" ++ after)).
  assert (Hhere : match_here ("[[ATTACHMENT|" ++ a ++ tail) = None).
  { unfold match_here, startsWith. rewrite prefix_append.
    change (drop 13 ("[[ATTACHMENT|" ++ a ++ tail)) with (a ++ tail).
    rewrite (span_path a tail Ha Hc).
    unfold tail. cbn [String.prefix].
    destruct (ascii_dec "]" c) as [<- | _]; [congruence |].
    rewrite andb_false_r. reflexivity. }
  change ("[[ATTACHMENT|" ++ a ++ tail)
    with (String "[" ("[ATTACHMENT|" ++ a ++ tail)) at 1.
  cbn [matchAll].
  change (String "[" ("[ATTACHMENT|" ++ a ++ tail))
    with ("[[ATTACHMENT|" ++ a ++ tail).
  rewrite Hhere.
  change ("[ATTACHMENT|" ++ a ++ tail)
    with (String "[" ("ATTACHMENT|" ++ a ++ tail)).
  cbn [matchAll].
  assert (Hsecond :
    match_here (String "[" ("ATTACHMENT|" ++ a ++ tail)) = None).
  { unfold match_here, startsWith.
    change ("ATTACHMENT|" ++ a ++ tail)
      with (String "A" ("TTACHMENT|" ++ a ++ tail)).
    cbn [String.prefix].
    destruct (ascii_dec "[" "["); [| congruence].
    destruct (ascii_dec "[" "A"); [discriminate | reflexivity]. }
  rewrite Hsecond.
  unfold tail.
  replace ("ATTACHMENT|" ++ a ++ String c (b ++ "]]" ++ after))
    with (("ATTACHMENT|" ++ a ++ String c (b ++ "]]")) ++ after).
  - apply matchAll_without.
    rewrite !contains_append. cbn [contains].
    rewrite (path_without_bracket a Ha).
    rewrite contains_append, (path_without_bracket b Hb).
    destruct (Ascii.eqb_spec c "[") as [-> | _]; [congruence | reflexivity].
  - rewrite !append_assoc.
    change (String c (b ++ "]]") ++ after)
      with (String c ((b ++ "]]") ++ after)).
    rewrite append_assoc. reflexivity.
Qed.

Lemma marker_with_other_character_is_ignored_witness :
  contains "[" "see " = false
  /\ all_chars is_path_char "screen" = true
  /\ all_chars is_path_char "shot.png" = true
  /\ is_path_char "-" = false
  /\ "-"%char <> "["%char
  /\ "-"%char <> "]"%char
  /\ matchAll ("see " ++ "[[ATTACHMENT|" ++ "screen"
               ++ String "-" ("shot.png" ++ "]]" ++ "")) O
     = matchAll "" O.
Proof.
  assert (Hopen : "-"%char <> "["%char) by discriminate.
  assert (Hclose : "-"%char <> "]"%char) by discriminate.
  repeat (split; [first [exact Hopen | exact Hclose | reflexivity] |]).
  apply (marker_with_other_character_is_ignored "see " "screen" "shot.png"
           "" "-" eq_refl eq_refl eq_refl eq_refl Hopen Hclose).
Defined.

End MarkerFacts.

(** ** Further properties of [processTestCase] *)

Module CaseFacts.

Import SpiraResultsParser Case Runs MonadFacts ParserFacts.

Lemma only_logs_refl w : only_logs w w.
Proof. exists []. symmetry. apply logged_nil. Qed.

Lemma only_logs_trans w1 w2 w3 :
  only_logs w1 w2 -> only_logs w2 w3 -> only_logs w1 w3.
Proof.
  intros [a ->] [b ->]. exists (a ++ b)%list. apply logged_logged.
Qed.

Lemma only_logs_log line : keeps only_logs (log line).
Proof. intros w. exists [line]. reflexivity. Qed.

(** Walks down a computation that only writes lines. *)
Ltac logs_walk :=
  repeat first
    [ apply (keeps_ret only_logs only_logs_refl)
    | apply (keeps_throw only_logs only_logs_refl)
    | apply (keeps_bind only_logs only_logs_trans)
    | apply (keeps_for_of only_logs only_logs_refl only_logs_trans)
    | apply only_logs_log
    | match goal with
      | |- forall _, _ => intro
      | |- keeps _ (if ?x then _ else _) => destruct x
      | |- keeps _ (match ?x with _ => _ end) => destruct x
      end ].

Section WithOutside.

Variable o : Outside.
Variable reportFile : string.

Lemma only_logs_capture label stream acc :
  keeps only_logs (capture o label stream reportFile acc).
Proof.
  unfold capture, extractAttachments, readAttachmentFile. logs_walk.
Qed.

Lemma only_logs_properties props acc :
  keeps only_logs (for_of props (processProperty o reportFile) acc).
Proof.
  apply (keeps_for_of only_logs only_logs_refl only_logs_trans).
  intros [[details atts] lnks] prop.
  unfold processProperty, readAttachmentFile. logs_walk.
Qed.

Lemma submitted_logged w lines r lines' :
  submitted (logged w lines) r lines' = submitted w r (lines ++ lines').
Proof. unfold submitted, logged. simpl. rewrite app_assoc. reflexivity. Qed.

Lemma at_most_one_after_logs {A B} (m : M A) (k : A -> M B) :
  keeps only_logs m ->
  (forall a, keeps at_most_one_result (k a)) ->
  keeps at_most_one_result (bind m k).
Proof.
  intros Hm Hk w. unfold bind. destruct (Hm w) as [l1 H1].
  destruct (m w) as [[a | e] w1]; simpl in H1; subst w1.
  - destruct (Hk a (logged w l1)) as [l2 [H2 | [r H2]]];
      exists (l1 ++ l2)%list; rewrite H2.
    + left. apply logged_logged.
    + right. exists r. apply submitted_logged.
  - exists l1. left. reflexivity.
Qed.

Lemma at_most_one_of_logs {A} (m : M A) :
  keeps only_logs m -> keeps at_most_one_result m.
Proof. intros Hm w. destruct (Hm w) as [l H]. exists l. left. exact H. Qed.

Lemma keeps_at_most_one (config : SpiraConfig.t)
  (testcase suiteName : JsVal) :
  keeps at_most_one_result
    (processTestCase o config testcase suiteName reportFile).
Proof.
  unfold processTestCase.
  assert (Hthrow : forall e, keeps at_most_one_result (@throw unit e)).
  { intros e. apply at_most_one_of_logs. logs_walk. }
  assert (Hlog : forall line, keeps at_most_one_result (log line)).
  { intros line. apply at_most_one_of_logs. logs_walk. }
  assert (Hpush : forall r, keeps at_most_one_result (push_result r)).
  { intros r w. exists []. right. exists r.
    unfold push_result, submitted. simpl. rewrite app_nil_r. reflexivity. }
  destruct testcase; try apply Hthrow;
    (destruct (SpiraConfig.test_case_ids config !! _) as [id |];
       [| apply Hlog]);
    (destruct (num_truthy id); [| apply Hlog]);
    destruct suiteName; try apply Hthrow;
    cbv zeta;
    destruct (resolve _) as [[[msg details] status] asserts];
    (apply at_most_one_after_logs; [apply only_logs_capture |]);
    intros [d1 a1];
    (apply at_most_one_after_logs; [apply only_logs_capture |]);
    intros [d2 a2];
    (apply at_most_one_after_logs;
       [destruct (truthy _ && truthy _);
          [apply only_logs_properties | logs_walk]
       | intros [[d3 a3] l3]; apply Hpush]).
Qed.

(** X7.  Whatever the case, [processTestCase] makes no request and does
    not read the clock: it only writes lines on the console and adds at most
    one result to the list. *)
Theorem processTestCase_adds_at_most_one (config : SpiraConfig.t)
  (testcase suiteName : JsVal) (w : World) :
  at_most_one_result w
    (snd (processTestCase o config testcase suiteName reportFile w)).
Proof. apply keeps_at_most_one. Qed.

(** X8.  A case that has a test-case id but is not readable (a stream
    that is not a text, a property without a text for a name, an attachment
    property without a text for a value) makes [processTestCase] throw: no
    result is added, and only the lines of the files read before are on the
    console. *)
Theorem unreadable_case_throws (config : SpiraConfig.t)
  (testcase : JsVal) (suite : string) (id : JsNum) (w : World) :
  defined testcase ->
  mapped_id config testcase = Some id ->
  num_truthy id = true ->
  ~ readable testcase ->
  exists e lines,
    processTestCase o config testcase (VStr suite) reportFile w
    = (Throw e, logged w lines).
Proof.
  intros Hdef Hid Htruthy Hnot.
  unfold mapped_id, qualified_name in Hid.
  assert (Hbody :
    forall body : M unit,
      match testcase with
      | VUndef | VNull => throw "Cannot read properties of undefined"
      | _ => body
      end = body) by (destruct testcase; simpl in Hdef; tauto).
  unfold processTestCase. rewrite Hbody, Hid, Htruthy. cbv zeta.
  destruct (resolve testcase) as [[[msg details] status] asserts].
  unfold bind at 1.
  destruct (only_logs_capture "System Out: " (field "system-out" testcase)
              (details, []) w) as [l1 K1].
  destruct (capture o "System Out: " _ reportFile _ w)
    as [[[d1 a1] | e] w1] eqn:E1; simpl in K1; subst w1; [| eauto].
  unfold bind at 1.
  destruct (only_logs_capture "System Err: " (field "system-err" testcase)
              (d1, a1) (logged w l1)) as [l2 K2].
  destruct (capture o "System Err: " _ reportFile _ (logged w l1))
    as [[[d2 a2] | e] w2] eqn:E2; simpl in K2; subst w2;
    [| rewrite logged_logged; eauto].
  assert (Hloop : forall acc,
    (if truthy (field "properties" testcase)
        && truthy (field "property" (field "properties" testcase))
     then for_of (as_array (field "property" (field "properties" testcase)))
            (processProperty o reportFile) acc
     else ret acc)
    = for_of (properties testcase) (processProperty o reportFile) acc).
  { intros acc. unfold properties.
    destruct (truthy _ && truthy _); reflexivity. }
  rewrite Hloop. unfold bind at 1.
  destruct (only_logs_properties (properties testcase) (d2, a2, [])
              (logged (logged w l1) l2)) as [l3 K3].
  destruct (for_of (properties testcase) _ _ (logged (logged w l1) l2))
    as [[x | e] w3] eqn:E3; simpl in K3; subst w3;
    [| rewrite !logged_logged; eauto].
  destruct Hnot. repeat split.
  - exact Hdef.
  - eapply capture_Ret_ok, E1.
  - eapply capture_Ret_ok, E2.
  - eapply properties_Ret_ok, E3.
Qed.

(** The test-set id of the result of a readable case. *)
Lemma submitted_test_set (config : SpiraConfig.t)
  (testcase : JsVal) (suite : string) (id : JsNum) (w : World) :
  readable testcase ->
  mapped_id config testcase = Some id ->
  num_truthy id = true ->
  exists r,
    processTestCase o config testcase (VStr suite) reportFile w
    = (Ret tt,
       submitted w r
         (flat_map (read_log o reportFile) (file_paths testcase)))
    /\ test_set_id r = test_set_of config suite.
Proof.
  intros (Hdef & Hout & Herr & Hprops) Hid Htruthy.
  unfold mapped_id, qualified_name in Hid.
  unfold processTestCase.
  destruct (resolve testcase) as [[[msg details] status] asserts] eqn:Hres.
  assert (Hbody :
    forall body : M unit,
      match testcase with
      | VUndef | VNull => throw "Cannot read properties of undefined"
      | _ => body
      end = body) by (destruct testcase; simpl in Hdef; tauto).
  rewrite Hbody, Hid, Htruthy. cbv beta iota zeta.
  assert (Hloop : forall acc,
    (if truthy (field "properties" testcase)
        && truthy (field "property" (field "properties" testcase))
     then for_of (as_array (field "property" (field "properties" testcase)))
            (processProperty o reportFile) acc
     else ret acc)
    = for_of (properties testcase) (processProperty o reportFile) acc).
  { intros acc. unfold properties.
    destruct (truthy _ && truthy _); reflexivity. }
  eexists. split.
  - erewrite bind_Ret; [| apply capture_run; exact Hout]. cbv beta iota.
    erewrite bind_Ret; [| apply capture_run; exact Herr]. cbv beta iota.
    rewrite Hloop.
    erewrite bind_Ret; [| apply properties_run; exact Hprops].
    unfold push_result, submitted, file_paths.
    rewrite !logged_logged. simpl. rewrite !flat_map_app. reflexivity.
  - reflexivity.
Qed.


Lemma to_string_with_stream (details : JsVal) (label : string)
  (stream : JsVal) :
  to_string (with_stream details label stream)
  = to_string details ++ stream_line label stream.
Proof.
  unfold with_stream, stream_line. destruct (truthy stream).
  - reflexivity.
  - rewrite append_empty_r. reflexivity.
Qed.

Lemma to_string_with_properties (details : JsVal) (props : list JsVal) :
  to_string (with_properties details props)
  = to_string details ++ String.concat "" (List.map property_line props).
Proof.
  revert details. induction props as [| prop props IH]; intros details.
  - simpl. rewrite append_empty_r. reflexivity.
  - cbn [List.map]. rewrite concat_cons.
    change (with_properties details (prop :: props))
      with (with_properties (append details (property_line prop)) props).
    rewrite IH. unfold append. cbn [to_string].
    rewrite append_assoc. reflexivity.
Qed.

(** X10.  The result of a case with a failure node has the [message]
    attribute of the node for a message, or "Test Failed" when there is
    none, and its details read: the text of the node (or the node itself as
    a text, when it has none), then the "System Out: " line, the
    "System Err: " line and one line for each property. *)
Theorem failure_message_and_details (config : SpiraConfig.t)
  (testcase suiteName : JsVal) (w : World) (r : TestResult) :
  testResults (snd (processTestCase o config testcase suiteName reportFile w))
  = (testResults w ++ [r])%list ->
  truthy (field "failure" testcase) = true ->
  message r
  = or_else (field "message" (field "failure" testcase)) (VStr "Test Failed")
  /\ to_string (stack_trace r)
     = to_string (or_else (field "_" (field "failure" testcase))
                          (field "failure" testcase))
       ++ stream_line "System Out: " (field "system-out" testcase)
       ++ stream_line "System Err: " (field "system-err" testcase)
       ++ String.concat "" (List.map property_line (properties testcase)).
Proof.
  intros H Hfailure.
  destruct (submitted_case_fields o reportFile config testcase suiteName
              w r H) as (_ & _ & _ & _ & Hmsg & Hdetails & _).
  assert (Hres :
    resolve testcase
    = (or_else (field "message" (field "failure" testcase))
               (VStr "Test Failed"),
       or_else (field "_" (field "failure" testcase))
               (field "failure" testcase), 1, num 1)).
  { unfold resolve. rewrite Hfailure. reflexivity. }
  rewrite Hres in Hmsg, Hdetails. cbn [fst snd] in Hmsg, Hdetails.
  split; [exact Hmsg |].
  rewrite Hdetails, to_string_with_properties, !to_string_with_stream,
    !append_assoc.
  reflexivity.
Qed.

(** X11.  A failure node that has attributes but no text is itself the
    details of the result when nothing follows it, and is turned into the
    text "[object Object]" as soon as a stream or a property adds a line. *)
Theorem failure_without_text (config : SpiraConfig.t)
  (testcase suiteName : JsVal) (w : World) (r : TestResult)
  (fields : list (string * JsVal)) :
  testResults (snd (processTestCase o config testcase suiteName reportFile w))
  = (testResults w ++ [r])%list ->
  field "failure" testcase = VObj fields ->
  truthy (assoc "_" fields) = false ->
  stack_trace r
  = match truthy (field "system-out" testcase),
          truthy (field "system-err" testcase),
          properties testcase with
    | false, false, [] => VObj fields
    | _, _, _ =>
        VStr ("[object Object]"
              ++ stream_line "System Out: " (field "system-out" testcase)
              ++ stream_line "System Err: " (field "system-err" testcase)
              ++ String.concat ""
                   (List.map property_line (properties testcase)))
    end.
Proof.
  intros H Hfailure Htext.
  destruct (submitted_case_fields o reportFile config testcase suiteName
              w r H) as (_ & _ & _ & _ & _ & Hdetails & _).
  assert (Hres : snd (fst (fst (resolve testcase))) = VObj fields).
  { unfold resolve. rewrite Hfailure. cbn [truthy fst snd field].
    unfold or_else. rewrite Htext. reflexivity. }
  rewrite Hres in Hdetails. rewrite Hdetails.
  destruct (truthy (field "system-out" testcase)) eqn:Eout;
    destruct (truthy (field "system-err" testcase)) eqn:Eerr;
    unfold with_stream, stream_line; rewrite ?Eout, ?Eerr;
    unfold append; cbn [to_string];
    try (rewrite with_properties_text, !append_assoc;
         destruct (properties testcase); reflexivity).
  destruct (properties testcase) as [| prop props]; [reflexivity |].
  change (with_properties (VObj fields) (prop :: props))
    with (with_properties (append (VObj fields) (property_line prop)) props).
  unfold append. cbn [to_string List.map].
  rewrite with_properties_text, concat_cons, !append_assoc.
  reflexivity.
Qed.

End WithOutside.

Lemma unnamed_property_unreadable : ~ readable Sample.unnamed_property.
Proof.
  intros (_ & _ & _ & Hprops).
  change (properties Sample.unnamed_property)
    with [VObj [("value", VStr "firefox")]] in Hprops.
  inversion Hprops as [| ? ? (n & Hname & _) _]; subst.
  discriminate Hname.
Qed.

Lemma unreadable_case_throws_witness :
  defined Sample.unnamed_property
  /\ mapped_id Sample.config Sample.unnamed_property = Some (num 2)
  /\ num_truthy (num 2) = true
  /\ ~ readable Sample.unnamed_property
  /\ exists e lines,
       processTestCase (Sample.outside (fun _ => false)) Sample.config
         Sample.unnamed_property (VStr "LIS.Registration") Sample.report
         start
       = (Throw e, logged start lines).
Proof.
  assert (Hid : mapped_id Sample.config Sample.unnamed_property
                = Some (num 2)) by (vm_compute; reflexivity).
  split; [exact I |]. split; [exact Hid |]. split; [reflexivity |].
  split; [exact unnamed_property_unreadable |].
  apply (unreadable_case_throws (Sample.outside (fun _ => false))
           Sample.report Sample.config Sample.unnamed_property
           "LIS.Registration" (num 2) start I Hid eq_refl
           unnamed_property_unreadable).
Defined.

Lemma failure_with_text_submitted :
  testResults
    (snd (processTestCase (Sample.outside (fun _ => false)) Sample.config
            Sample.failure_with_text (VStr "LIS.Registration") Sample.report
            start))
  = (testResults start ++ [Sample.failure_with_text_result])%list.
Proof. vm_compute. reflexivity. Qed.

Lemma failure_no_text_submitted :
  testResults
    (snd (processTestCase (Sample.outside (fun _ => false)) Sample.config
            Sample.failure_no_text (VStr "LIS.Registration") Sample.report
            start))
  = (testResults start ++ [Sample.failure_no_text_result])%list.
Proof. vm_compute. reflexivity. Qed.


Lemma failure_message_and_details_witness :
  testResults
    (snd (processTestCase (Sample.outside (fun _ => false)) Sample.config
            Sample.failure_with_text (VStr "LIS.Registration") Sample.report
            start))
  = (testResults start ++ [Sample.failure_with_text_result])%list
  /\ truthy (field "failure" Sample.failure_with_text) = true
  /\ message Sample.failure_with_text_result
     = or_else (field "message" (field "failure" Sample.failure_with_text))
               (VStr "Test Failed")
  /\ to_string (stack_trace Sample.failure_with_text_result)
     = to_string (or_else (field "_" (field "failure" Sample.failure_with_text))
                          (field "failure" Sample.failure_with_text))
       ++ stream_line "System Out: "
            (field "system-out" Sample.failure_with_text)
       ++ stream_line "System Err: "
            (field "system-err" Sample.failure_with_text)
       ++ String.concat ""
            (List.map property_line (properties Sample.failure_with_text)).
Proof.
  split; [exact failure_with_text_submitted |].
  split; [reflexivity |].
  apply (failure_message_and_details (Sample.outside (fun _ => false))
           Sample.report Sample.config Sample.failure_with_text
           (VStr "LIS.Registration") start Sample.failure_with_text_result
           failure_with_text_submitted eq_refl).
Defined.

Lemma failure_without_text_witness :
  testResults
    (snd (processTestCase (Sample.outside (fun _ => false)) Sample.config
            Sample.failure_no_text (VStr "LIS.Registration") Sample.report
            start))
  = (testResults start ++ [Sample.failure_no_text_result])%list
  /\ field "failure" Sample.failure_no_text
     = VObj [("message", VStr "expected 1 but was 2")]
  /\ truthy (assoc "_" [("message", VStr "expected 1 but was 2")]) = false
  /\ stack_trace Sample.failure_no_text_result
     = match truthy (field "system-out" Sample.failure_no_text),
             truthy (field "system-err" Sample.failure_no_text),
             properties Sample.failure_no_text with
       | false, false, [] => VObj [("message", VStr "expected 1 but was 2")]
       | _, _, _ =>
           VStr ("[object Object]"
                 ++ stream_line "System Out: "
                      (field "system-out" Sample.failure_no_text)
                 ++ stream_line "System Err: "
                      (field "system-err" Sample.failure_no_text)
                 ++ String.concat ""
                      (List.map property_line
                         (properties Sample.failure_no_text)))
       end.
Proof.
  split; [exact failure_no_text_submitted |].
  split; [reflexivity |]. split; [reflexivity |].
  apply (failure_without_text (Sample.outside (fun _ => false))
           Sample.report Sample.config Sample.failure_no_text
           (VStr "LIS.Registration") start Sample.failure_no_text_result
           [("message", VStr "expected 1 but was 2")]
           failure_no_text_submitted eq_refl eq_refl).
Defined.

End CaseFacts.

(** ** Properties of the walk over the suites *)

Module WalkFacts.

Import SpiraResultsParser ParseResults Case Runs Walk MonadFacts ParserFacts
  CaseFacts.

Lemma adds_results_refl P w : adds_results P w w.
Proof.
  split; [reflexivity |]. split; [reflexivity |].
  exists []. rewrite app_nil_r. auto.
Qed.

Lemma adds_results_trans P w1 w2 w3 :
  adds_results P w1 w2 -> adds_results P w2 w3 -> adds_results P w1 w3.
Proof.
  intros (Hr & Hc & rs & Hrs & HP) (Hr' & Hc' & rs' & Hrs' & HP').
  split; [congruence |]. split; [congruence |].
  exists (rs ++ rs')%list. rewrite Hrs', Hrs, <- app_assoc.
  split; [reflexivity | apply Forall_app; auto].
Qed.

Lemma test_set_of_cases (config : SpiraConfig.t) (suite : string) :
  test_set_of config suite = num (-1)
  \/ num_truthy (test_set_of config suite) = true
     /\ exists suite',
          SpiraConfig.test_set_ids config !! toLowerCase suite'
          = Some (test_set_of config suite).
Proof.
  unfold test_set_of.
  destruct (SpiraConfig.test_set_ids config !! toLowerCase suite)
    as [n |] eqn:E; [| left; reflexivity].
  destruct (num_truthy n) eqn:Hn; [| left; reflexivity].
  right. split; [exact Hn |]. exists suite. exact E.
Qed.

Lemma status_cases (testcase : JsVal) :
  In (snd (fst (resolve testcase))) [1; 2; 4; 5; 6].
Proof.
  rewrite resolve_status.
  destruct (truthy (field "failure" testcase)); [simpl; tauto |].
  destruct (truthy (field "warning" testcase)); [simpl; tauto |].
  destruct (truthy (field "error" testcase)); [simpl; tauto |].
  destruct (truthy (field "skipped" testcase)); simpl; tauto.
Qed.

Section WithOutside.

Variable o : Outside.
Variable config : SpiraConfig.t.

(** The result of a case is accounted for by the tables. *)
Lemma case_adds (testcase suiteName : JsVal) (reportFile : string) :
  keeps (adds_results (from_tables config))
    (processTestCase o config testcase suiteName reportFile).
Proof.
  intros w.
  destruct (keeps_at_most_one o reportFile config testcase suiteName w)
    as [lines [H | [r H]]].
  - rewrite H. split; [reflexivity |]. split; [reflexivity |].
    exists []. simpl. rewrite app_nil_r. auto.
  - assert (Hres :
      testResults
        (snd (processTestCase o config testcase suiteName reportFile w))
      = (testResults w ++ [r])%list) by (rewrite H; reflexivity).
    rewrite H. split; [reflexivity |]. split; [reflexivity |].
    exists [r]. split; [reflexivity |]. constructor; [| constructor].
    destruct (submitted_case_inv o reportFile config testcase suiteName
                w r Hres) as (Hread & (id & Hid & Htruthy) & (suite & ->)).
    destruct (submitted_case_fields o reportFile config testcase
                (VStr suite) w r Hres)
      as (_ & Hmapped & Hname & Hstatus & _).
    destruct (submitted_test_set o reportFile config testcase suite id w
                Hread Hid Htruthy) as (r' & Hrun & Hset).
    rewrite Hrun in Hres. simpl in Hres. apply app_inj_tail in Hres.
    destruct Hres as [_ [= ->]].
    unfold from_tables. rewrite Hname, Hstatus, Hset.
    split; [exact Hmapped |].
    split; [congruence |].
    split; [apply test_set_of_cases | apply status_cases].
Qed.

Lemma walk_adds (fuel : nat) (node : JsVal) (reportFile : string)
  (suiteName : JsVal) :
  keeps (adds_results (from_tables config))
    (processTestSuites o config fuel node reportFile suiteName).
Proof.
  pose proof (adds_results_refl (from_tables config)) as Hrefl.
  pose proof (adds_results_trans (from_tables config)) as Htrans.
  revert node suiteName.
  induction fuel as [| fuel IH]; intros node suiteName;
    [apply keeps_throw; exact Hrefl |].
  cbn [processTestSuites].
  destruct (negb (truthy node)); [apply keeps_ret; exact Hrefl |].
  apply keeps_for_of; [exact Hrefl | exact Htrans |].
  intros [] suite.
  assert (Hbody :
    keeps (adds_results (from_tables config))
      ((if truthy (field "testsuite" suite)
        then processTestSuites o config fuel suite reportFile
               (or_else (field "name" suite) suiteName)
        else ret tt);;
       if truthy (field "testcase" suite) then
         for_of (as_array (field "testcase" suite))
           (fun _ testcase =>
              processTestCase o config testcase
                (or_else (field "name" suite) suiteName) reportFile)
           tt
       else ret tt)%js).
  { apply keeps_bind; [exact Htrans | |].
    - destruct (truthy (field "testsuite" suite));
        [apply IH | apply keeps_ret; exact Hrefl].
    - intros _. destruct (truthy (field "testcase" suite));
        [| apply keeps_ret; exact Hrefl].
      apply keeps_for_of; [exact Hrefl | exact Htrans |].
      intros _ testcase. apply case_adds. }
  destruct suite; try exact Hbody; apply keeps_throw; exact Hrefl.
Qed.


Lemma for_of_ext {A B} (xs : list A) (f g : B -> A -> M B) :
  (forall b x w, In x xs -> f b x w = g b x w) ->
  forall acc w, for_of xs f acc w = for_of xs g acc w.
Proof.
  induction xs as [| x xs IH]; intros Hfg acc w; [reflexivity |].
  cbn [for_of]. unfold bind. rewrite (Hfg acc x w (or_introl eq_refl)).
  destruct (g acc x w) as [[b | e] w1]; [| reflexivity].
  apply IH. intros b' x' w' Hin. apply Hfg. right. exact Hin.
Qed.

Lemma depth_assoc (k : string) (fs : list (string * JsVal)) :
  (depth (assoc k fs) < depth (VObj fs))%nat.
Proof.
  induction fs as [| [k' v] fs IH]; [simpl; lia |].
  cbn [assoc]. destruct (String.eqb k k').
  - cbn [depth]. lia.
  - cbn [depth] in IH |- *. lia.
Qed.

Lemma depth_field (k : string) (node : JsVal) :
  truthy (field k node) = true ->
  (depth (field k node) < depth node)%nat.
Proof.
  destruct node; simpl; try discriminate. intros _. apply depth_assoc.
Qed.

Lemma depth_item (x : JsVal) (items : list JsVal) :
  In x items -> (depth x < depth (VArr items))%nat.
Proof.
  induction items as [| y items IH]; [intros [] |].
  intros [-> | Hin].
  - cbn [depth]. lia.
  - specialize (IH Hin). cbn [depth] in IH |- *. lia.
Qed.

(** A suite of a node that has suites of its own lies deeper than the
    node. *)
Lemma suites_deeper (node suite : JsVal) :
  In suite (suites_of node) ->
  truthy (field "testsuite" suite) = true ->
  (depth suite < depth node)%nat.
Proof.
  unfold suites_of. intros Hin Hsub.
  assert (Hfield : truthy (field "testsuite" node) = true ->
                   (depth (field "testsuite" node) < depth node)%nat)
    by apply depth_field.
  destruct (field "testsuite" node) as [| | b | n | s | fs | items] eqn:E.
  all: cbn [truthy] in Hin, Hfield.
  all: try (destruct Hin as [<- | []]; rewrite E in Hsub;
            discriminate Hsub).
  - destruct b; destruct Hin as [<- | []];
      [apply Hfield; reflexivity | rewrite E in Hsub; discriminate].
  - revert Hin. destruct (num_truthy n) eqn:Hn; intros Hin;
      destruct Hin as [<- | []];
      [apply Hfield; reflexivity
      | rewrite E in Hsub; cbn [truthy] in Hsub; congruence].
  - revert Hin. destruct (negb (String.eqb s "")) eqn:Hs; intros Hin;
      destruct Hin as [<- | []];
      [apply Hfield; reflexivity
      | rewrite E in Hsub; cbn [truthy] in Hsub; congruence].
  - destruct Hin as [<- | []]. apply Hfield. reflexivity.
  - apply Nat.lt_trans with (depth (VArr items)).
    + apply depth_item. exact Hin.
    + apply Hfield. reflexivity.
Qed.

Lemma walk_fuel (fuel1 fuel2 : nat) (node : JsVal) (reportFile : string)
  (suiteName : JsVal) (w : World) :
  (depth node < fuel1)%nat ->
  (depth node < fuel2)%nat ->
  processTestSuites o config fuel1 node reportFile suiteName w
  = processTestSuites o config fuel2 node reportFile suiteName w.
Proof.
  revert fuel2 node suiteName w.
  induction fuel1 as [| fuel1 IH]; intros fuel2 node suiteName w H1 H2;
    [lia |].
  destruct fuel2 as [| fuel2]; [lia |].
  cbn [processTestSuites].
  destruct (negb (truthy node)); [reflexivity |].
  apply for_of_ext. intros [] suite w' Hin.
  destruct suite; try reflexivity;
    match goal with
    | |- context [truthy (field "testsuite" ?s)] =>
        destruct (truthy (field "testsuite" s)) eqn:Hsub; [| reflexivity];
        pose proof (suites_deeper node s Hin Hsub) as Hlt;
        unfold bind; rewrite (IH fuel2) by lia; reflexivity
    end.
Qed.

Lemma never_ret {A} (e : string) (a : A) : never_throws e (ret a).
Proof. intros w. discriminate. Qed.

Lemma never_log (e line : string) : never_throws e (log line).
Proof. intros w. discriminate. Qed.

Lemma never_push (e : string) (r : TestResult) :
  never_throws e (push_result r).
Proof. intros w. discriminate. Qed.

Lemma never_throw {A} (e e' : string) :
  e' <> e -> never_throws e (@throw A e').
Proof. intros Hne w. simpl. congruence. Qed.

Lemma never_bind {A B} (e : string) (m : M A) (k : A -> M B) :
  never_throws e m -> (forall a, never_throws e (k a)) ->
  never_throws e (bind m k).
Proof.
  intros Hm Hk w. unfold bind. specialize (Hm w).
  destruct (m w) as [[a | e'] w1]; [apply Hk |].
  simpl in *. congruence.
Qed.

Lemma never_for_of_in {A B} (e : string) (xs : list A)
  (body : B -> A -> M B) (acc : B) :
  (forall b x, In x xs -> never_throws e (body b x)) ->
  never_throws e (for_of xs body acc).
Proof.
  revert acc. induction xs as [| x xs IH]; intros acc Hbody; cbn [for_of].
  - apply never_ret.
  - apply never_bind; [apply Hbody; left; reflexivity |].
    intros b. apply IH. intros b' x' Hin. apply Hbody. right. exact Hin.
Qed.

(** Walks down a computation whose throws are all written out. *)
Ltac never_walk :=
  repeat first
    [ apply never_ret | apply never_log | apply never_push
    | apply never_throw; discriminate
    | apply never_bind
    | apply never_for_of_in
    | match goal with
      | |- forall _, _ => intro
      | |- never_throws _ (if ?x then _ else _) => destruct x
      | |- never_throws _ (match ?x with _ => _ end) => destruct x
      end ].

(** What [processTestCase] throws is a TypeError, not the exhaustion of
    the stack. *)
Lemma never_processTestCase (testcase suiteName : JsVal)
  (reportFile : string) :
  never_throws stack_exhausted
    (processTestCase o config testcase suiteName reportFile).
Proof.
  unfold stack_exhausted, processTestCase, capture, extractAttachments,
    processProperty, readAttachmentFile.
  never_walk.
Qed.

Lemma never_walk_exhausts (fuel : nat) (node : JsVal) (reportFile : string)
  (suiteName : JsVal) :
  (depth node < fuel)%nat ->
  never_throws stack_exhausted
    (processTestSuites o config fuel node reportFile suiteName).
Proof.
  revert node suiteName.
  induction fuel as [| fuel IH]; intros node suiteName Hdepth; [lia |].
  cbn [processTestSuites].
  destruct (negb (truthy node)); [apply never_ret |].
  apply never_for_of_in. intros [] suite Hin.
  assert (Hbody :
    never_throws stack_exhausted
      ((if truthy (field "testsuite" suite)
        then processTestSuites o config fuel suite reportFile
               (or_else (field "name" suite) suiteName)
        else ret tt);;
       if truthy (field "testcase" suite) then
         for_of (as_array (field "testcase" suite))
           (fun _ testcase =>
              processTestCase o config testcase
                (or_else (field "name" suite) suiteName) reportFile)
           tt
       else ret tt)%js).
  { apply never_bind.
    - destruct (truthy (field "testsuite" suite)) eqn:Hsub;
        [| apply never_ret].
      apply IH. pose proof (suites_deeper node suite Hin Hsub). lia.
    - intros _. destruct (truthy (field "testcase" suite));
        [| apply never_ret].
      apply never_for_of_in. intros _ testcase _.
      apply never_processTestCase. }
  destruct suite; try exact Hbody;
    apply never_throw; unfold stack_exhausted; discriminate.
Qed.

(** X13.  Once the bound on the depth of its calls is above the depth of
    the node, the walk does not depend on the bound and does not exhaust
    it: what it returns or throws is what the suites and the cases make it
    return or throw, never the error of the exhausted stack. *)
Theorem walk_needs_depth_only (fuel1 fuel2 : nat) (node : JsVal)
  (reportFile : string) (suiteName : JsVal) (w : World) :
  (depth node < fuel1)%nat ->
  (depth node < fuel2)%nat ->
  processTestSuites o config fuel1 node reportFile suiteName w
  = processTestSuites o config fuel2 node reportFile suiteName w
  /\ fst (processTestSuites o config fuel1 node reportFile suiteName w)
     <> Throw stack_exhausted.
Proof.
  intros H1 H2. split; [apply walk_fuel; assumption |].
  apply never_walk_exhausts. exact H1.
Qed.

(** On a node that has suites, the walk reads the suites only. *)
Lemma walk_suites_only (fuel : nat) (node : JsVal) (reportFile : string)
  (suiteName : JsVal) (w : World) :
  truthy (field "testsuite" node) = true ->
  processTestSuites o config fuel node reportFile suiteName w
  = processTestSuites o config fuel (suites_only node) reportFile suiteName w.
Proof.
  intros Hsub. destruct fuel as [| fuel]; [reflexivity |].
  cbn [processTestSuites].
  assert (Hnode : truthy node = true)
    by (destruct node; simpl in Hsub; try discriminate; reflexivity).
  assert (Hsuites : suites_of (suites_only node) = suites_of node).
  { unfold suites_of, suites_only.
    change (field "testsuite" (VObj [("testsuite", field "testsuite" node)]))
      with (field "testsuite" node).
    destruct (field "testsuite" node); try reflexivity;
      rewrite Hsub; reflexivity. }
  rewrite Hnode, Hsuites. reflexivity.
Qed.

Lemma depth_suites_only (node : JsVal) :
  truthy (field "testsuite" node) = true ->
  (depth (suites_only node) <= depth node)%nat.
Proof.
  intros Hsub. pose proof (depth_field "testsuite" node Hsub).
  unfold suites_only. cbn [depth]. lia.
Qed.

(** X14.  When the root element of the report is a [testsuite] that has
    suites of its own, the run is the one of the report without the test
    cases and the attributes of the root: the root's own cases are never
    read, and its name is not handed down. *)
Theorem root_cases_are_not_read (result : JsVal) (reportFile : string)
  (w : World) :
  truthy (field "testsuites" result) = false ->
  truthy (field "testsuite" (field "testsuite" result)) = true ->
  parseResults o config result reportFile w
  = parseResults o config
      (VObj [("testsuite", suites_only (field "testsuite" result))])
      reportFile w.
Proof.
  intros Hroot Hsub.
  assert (Hresult : exists fs, result = VObj fs).
  { destruct result; simpl in Hsub; try discriminate. eauto. }
  destruct Hresult as [fs ->].
  unfold parseResults.
  set (root := field "testsuite" (VObj fs)) in *.
  assert (Hor : or_else (field "testsuites" (VObj fs)) root = root)
    by (unfold or_else; rewrite Hroot; reflexivity).
  assert (Hor' : or_else (field "testsuites" (VObj fs)) (VObj []) = VObj [])
    by (unfold or_else; rewrite Hroot; reflexivity).
  rewrite Hor, Hor'.
  change (or_else (field "testsuites" (VObj [("testsuite", suites_only root)]))
            (field "testsuite" (VObj [("testsuite", suites_only root)])))
    with (suites_only root).
  change (or_else (field "testsuites" (VObj [("testsuite", suites_only root)]))
            (VObj []))
    with (VObj []).
  unfold bind.
  rewrite (walk_suites_only _ root reportFile (VStr "") w Hsub).
  pose proof (depth_suites_only root Hsub).
  rewrite (walk_fuel (S (depth root)) (S (depth (suites_only root)))
             (suites_only root)) by lia.
  reflexivity.
Qed.

End WithOutside.

Lemma nested_is_shallow : (depth Reports.nested_root < 10)%nat.
Proof. vm_compute. lia. Qed.

Lemma nested_is_shallow' : (depth Reports.nested_root < 20)%nat.
Proof. vm_compute. lia. Qed.

Lemma walk_needs_depth_only_witness :
  (depth Reports.nested_root < 10)%nat
  /\ (depth Reports.nested_root < 20)%nat
  /\ (processTestSuites (Sample.outside (fun _ => false)) Sample.config 10
        Reports.nested_root Sample.report (VStr "") start
      = processTestSuites (Sample.outside (fun _ => false)) Sample.config 20
          Reports.nested_root Sample.report (VStr "") start
      /\ fst (processTestSuites (Sample.outside (fun _ => false))
                Sample.config 10 Reports.nested_root Sample.report
                (VStr "") start)
         <> Throw stack_exhausted)
  /\ fst (processTestSuites (Sample.outside (fun _ => false)) Sample.config
            10 Reports.nested_root Sample.report (VStr "") start)
     = Ret tt.
Proof.
  split; [exact nested_is_shallow |]. split; [exact nested_is_shallow' |].
  split; [| vm_compute; reflexivity].
  apply (walk_needs_depth_only (Sample.outside (fun _ => false))
           Sample.config 10 20 Reports.nested_root Sample.report (VStr "")
           start nested_is_shallow nested_is_shallow').
Defined.



Lemma root_cases_are_not_read_witness :
  truthy (field "testsuites" Reports.nested) = false
  /\ truthy (field "testsuite" (field "testsuite" Reports.nested)) = true
  /\ parseResults (Sample.outside (fun _ => false)) Sample.config
       Reports.nested Sample.report start
     = parseResults (Sample.outside (fun _ => false)) Sample.config
         (VObj [("testsuite",
                 suites_only (field "testsuite" Reports.nested))])
         Sample.report start.
Proof.
  split; [reflexivity |]. split; [reflexivity |].
  apply (root_cases_are_not_read (Sample.outside (fun _ => false))
           Sample.config Reports.nested Sample.report start eq_refl eq_refl).
Defined.

(** The run on the nested report sends one test run, for the case of the
    nested suite. *)
Lemma nested_run_names :
  Sent.run_names
    (requests
       (snd (parseResults (Sample.outside (fun _ => false)) Sample.config
               Reports.nested Sample.report start)))
  = ["LIS.Registration.registration1"].
Proof. vm_compute. reflexivity. Qed.

End WalkFacts.

(** ** Further properties of the submitter *)

Module SendFacts.

Import SpiraPostResults Case Sent MonadFacts SubmitterFacts.

Lemma after_nil (w : World) : after w [] [] 0 = w.
Proof.
  destruct w. unfold after. simpl. rewrite !app_nil_r, Nat.add_0_r.
  reflexivity.
Qed.

Lemma after_after (w : World) rs1 l1 n1 rs2 l2 n2 :
  after (after w rs1 l1 n1) rs2 l2 n2
  = after w (rs1 ++ rs2) (l1 ++ l2) (n1 + n2).
Proof.
  unfold after. simpl. rewrite !app_assoc, Nat.add_assoc. reflexivity.
Qed.

Lemma log_after (line : string) (w : World) :
  log line w = (Ret tt, after w [] [line] 0).
Proof.
  unfold log, after. rewrite app_nil_r, Nat.add_0_r. reflexivity.
Qed.

Lemma axios_post_after (o : Outside) (r : Request) (w : World) :
  axios_post o r w = (Ret (server o (requests w) r), after w [r] [] 0).
Proof.
  unfold axios_post, after. rewrite app_nil_r, Nat.add_0_r. reflexivity.
Qed.

Lemma new_Date_after (o : Outside) (w : World) :
  new_Date o w = (Ret (now o (clock_reads w)), after w [] [] 1).
Proof.
  unfold new_Date, after. rewrite !app_nil_r, Nat.add_1_r. reflexivity.
Qed.

Lemma url_prefix (a b c d rest : string) :
  startsWith (a ++ b ++ c ++ d ++ String "/" rest) (a ++ b ++ c ++ d ++ "/")
  = true.
Proof.
  replace (a ++ b ++ c ++ d ++ String "/" rest)
    with ((a ++ b ++ c ++ d ++ "/") ++ rest)
    by (rewrite !append_assoc; reflexivity).
  apply MarkerFacts.prefix_append.
Qed.

Section WithOutside.

Variable o : Outside.
Variable config : SpiraConfig.t.

(** A document is posted with one request, and [post] returns whatever the
    server answers. *)
Lemma document_posted (d : SpiraDocument.t) (spiraUrl username token : string)
  (data : option string) (w : World) :
  exists rq aid lines,
    SpiraDocument.post o d spiraUrl username token data w
    = (Ret aid, after w [rq] lines 0)
    /\ document_of rq
       = Some (SpiraDocument.attachmentTypeId d,
               SpiraDocument.filenameOrUrl d, SpiraDocument.testRunId d,
               if (SpiraDocument.attachmentTypeId d =? 1)
                  && match data with
                     | Some s => negb (String.eqb s "")
                     | None => false
                     end
               then data else None).
Proof.
  unfold SpiraDocument.post. cbv zeta.
  match goal with
  | |- context [axios_post o ?r] => set (rq := r)
  end.
  exists rq. unfold bind at 1. rewrite axios_post_after.
  destruct (server o (requests w) rq) as [id | status msg].
  - exists id, []. split; reflexivity.
  - eexists IdNull, [_]. unfold bind. rewrite log_after, after_after.
    split; reflexivity.
Qed.

Lemma documents_posted {A} (xs : list A) (doc : A -> SpiraDocument.t)
  (data : A -> option string) (spiraUrl username token : string)
  (w : World) :
  exists docs lines,
    for_of xs
      (fun _ x =>
         SpiraDocument.post o (doc x) spiraUrl username token (data x);;
         ret tt) tt w
    = (Ret tt, after w docs lines 0)
    /\ List.map document_of docs
       = List.map
           (fun x =>
              Some (SpiraDocument.attachmentTypeId (doc x),
                    SpiraDocument.filenameOrUrl (doc x),
                    SpiraDocument.testRunId (doc x),
                    if (SpiraDocument.attachmentTypeId (doc x) =? 1)
                       && match data x with
                          | Some s => negb (String.eqb s "")
                          | None => false
                          end
                    then data x else None)) xs.
Proof.
  revert w. induction xs as [| x xs IH]; intros w.
  - exists [], []. rewrite after_nil. split; reflexivity.
  - destruct (document_posted (doc x) spiraUrl username token (data x) w)
      as (rq & aid & l1 & Hpost & Hdoc).
    destruct (IH (after w [rq] l1 0)) as (docs & l2 & Hrest & Hdocs).
    exists (rq :: docs), (l1 ++ l2)%list. split.
    + cbn [for_of]. unfold bind at 1. unfold bind at 1. rewrite Hpost.
      cbv beta iota. unfold ret at 1. rewrite Hrest, after_after.
      reflexivity.
    + cbn [List.map]. rewrite Hdoc, Hdocs. reflexivity.
Qed.

(** A test run with two valid dates is posted with one request, and [post]
    returns the id that the server answers, or -1. *)
Lemma run_posted (run : SpiraTestRun.t) (spiraUrl username token : string)
  (w : World) (s e : Z) :
  SpiraTestRun.startTime run = Some s ->
  SpiraTestRun.endTime run = Some e ->
  exists run_url body lines,
    SpiraTestRun.post o run spiraUrl username token w
    = (Ret (run_id (server o (requests w)
                      {| req_url := run_url; req_body := OfTestRun body;
                         req_username := username;
                         req_api_key := token |})),
       after w [{| req_url := run_url; req_body := OfTestRun body;
                   req_username := username; req_api_key := token |}]
         lines 0)
    /\ RunnerTestName body = SpiraTestRun.testName run
    /\ TestCaseId body = SpiraTestRun.testCaseId run
    /\ ExecutionStatusId body = SpiraTestRun.statusId run
    /\ RunnerStackTrace body = SpiraTestRun.stackTrace run
    /\ RunnerAssertCount body = SpiraTestRun.assertCount run
    /\ TestSetId body
       = (if num_eqb (SpiraTestRun.testSetId run) (num (-1)) then None
          else Some (SpiraTestRun.testSetId run))
    /\ StartDate body = SpiraTestRun.strip_ms (toISOString o s)
    /\ EndDate body = SpiraTestRun.strip_ms (toISOString o e)
    /\ startsWith run_url
         (spiraUrl ++ REST_SERVICE_URL ++ "projects/"
          ++ num_to_string (SpiraTestRun.projectId run) ++ "/") = true.
Proof.
  intros Hs He. unfold SpiraTestRun.post. rewrite Hs, He.
  cbv [SpiraTestRun.iso]. cbv zeta.
  unfold bind at 1. unfold ret at 1. unfold bind at 1. unfold ret at 1.
  match goal with
  | |- context [axios_post o ?r] => set (rq := r)
  end.
  unfold bind at 1. rewrite axios_post_after.
  match type of rq with
  | _ => match eval unfold rq in rq with
         | {| req_url := ?u; req_body := OfTestRun ?b |} =>
             exists u, b
         end
  end.
  fold rq.
  assert (Hset :
    (if negb (num_eqb (SpiraTestRun.testSetId run) (num (-1)))
     then Some (SpiraTestRun.testSetId run) else None)
    = (if num_eqb (SpiraTestRun.testSetId run) (num (-1)) then None
       else Some (SpiraTestRun.testSetId run)))
    by (destruct (num_eqb (SpiraTestRun.testSetId run) (num (-1)));
        reflexivity).
  destruct (server o (requests w) rq) as [id | status msg].
  - exists []. split; [reflexivity |].
    repeat (split; [reflexivity |]).
    split; [exact Hset |].
    repeat (split; [reflexivity |]).
    apply url_prefix.
  - eexists [_]. unfold bind. rewrite log_after, after_after.
    split; [reflexivity |].
    repeat (split; [reflexivity |]).
    split; [exact Hset |].
    repeat (split; [reflexivity |]).
    apply url_prefix.
Qed.

(** The run of [sendResult] on a result with a valid start date. *)
Lemma sendResult_run (r : TestResult) (currentTime : Z) (buildId : IdVal)
  (w : World) (st : Z) :
  start_time currentTime (duration_seconds r) = Some st ->
  exists run_url body docs lines,
    sendResult o config r currentTime buildId w
    = (Ret (id_lt_one
              (run_id (server o (requests w)
                         {| req_url := run_url; req_body := OfTestRun body;
                            req_username := SpiraConfig.username config;
                            req_api_key := SpiraConfig.token config |}))),
       after w
         ({| req_url := run_url; req_body := OfTestRun body;
             req_username := SpiraConfig.username config;
             req_api_key := SpiraConfig.token config |} :: docs)
         lines 0)
    /\ reports r body
    /\ TestSetId body = sent_test_set config r
    /\ StartDate body = SpiraTestRun.strip_ms (toISOString o st)
    /\ EndDate body = SpiraTestRun.strip_ms (toISOString o currentTime)
    /\ (if id_lt_one
             (run_id (server o (requests w)
                        {| req_url := run_url; req_body := OfTestRun body;
                           req_username := SpiraConfig.username config;
                           req_api_key := SpiraConfig.token config |}))
        then docs = []
        else List.map document_of docs
             = documents r
                 (run_id (server o (requests w)
                            {| req_url := run_url;
                               req_body := OfTestRun body;
                               req_username := SpiraConfig.username config;
                               req_api_key := SpiraConfig.token config |}))).
Proof.
  intros Hstart. unfold sendResult. cbv zeta. rewrite Hstart.
  match goal with
  | |- context [SpiraTestRun.post o ?run _ _ _] =>
      destruct (run_posted run (SpiraConfig.url config)
                  (SpiraConfig.username config) (SpiraConfig.token config)
                  w st currentTime eq_refl eq_refl)
        as (run_url & body & l1 & Hpost & Hname & Hcase & Hstatus & Htrace
            & Hcount & Hset & Hs & He & _)
  end.
  exists run_url, body.
  set (run := {| req_url := run_url; req_body := OfTestRun body;
                 req_username := SpiraConfig.username config;
                 req_api_key := SpiraConfig.token config |}) in *.
  set (id := run_id (server o (requests w) run)) in *.
  assert (Hfields : reports r body /\ TestSetId body = sent_test_set config r
                    /\ StartDate body = SpiraTestRun.strip_ms (toISOString o st)
                    /\ EndDate body
                       = SpiraTestRun.strip_ms (toISOString o currentTime)).
  { split; [repeat split; assumption |].
    split; [exact Hset |]. split; assumption. }
  unfold try_catch. unfold bind at 1. rewrite Hpost. cbv beta iota.
  destruct (id_lt_one id) eqn:Hid; cbn [negb].
  - exists [], l1. split; [reflexivity |].
    destruct Hfields as (? & ? & ? & ?). repeat (split; [assumption |]).
    reflexivity.
  - destruct (documents_posted (attachments r)
                (fun attachment =>
                   SpiraDocument.new (SpiraConfig.project_id config) 1 id
                     (filename attachment) "1.0")
                (fun attachment => Some (binary_data attachment))
                (SpiraConfig.url config) (SpiraConfig.username config)
                (SpiraConfig.token config) (after w [run] l1 0))
      as (docs1 & l2 & H1 & Hd1).
    destruct (documents_posted (links r)
                (fun link =>
                   SpiraDocument.new (SpiraConfig.project_id config) 2 id
                     (link_url link) "1.0")
                (fun _ => None)
                (SpiraConfig.url config) (SpiraConfig.username config)
                (SpiraConfig.token config)
                (after (after w [run] l1 0) docs1 l2 0))
      as (docs2 & l3 & H2 & Hd2).
    cbv beta in H1, H2.
    exists (docs1 ++ docs2)%list, (l1 ++ l2 ++ l3)%list. split.
    + unfold bind at 1. rewrite H1. cbv beta iota.
      unfold bind at 1. rewrite H2. cbv beta iota.
      unfold ret. rewrite !after_after. reflexivity.
    + destruct Hfields as (? & ? & ? & ?). repeat (split; [assumption |]).
      unfold documents. rewrite map_app, Hd1, Hd2. f_equal.
      apply map_ext. intros a. cbn.
      destruct (String.eqb (binary_data a) ""); reflexivity.
Qed.

(** [sendResult] catches what is thrown under it. *)
Lemma sendResult_returns (r : TestResult) (currentTime : Z)
  (buildId : IdVal) (w : World) :
  exists isError w',
    sendResult o config r currentTime buildId w = (Ret isError, w').
Proof.
  unfold sendResult, try_catch.
  match goal with
  | |- context [match ?m w with _ => _ end] =>
      destruct (m w) as [[isError | e] w1]
  end.
  - eauto.
  - unfold bind. rewrite log_after. eauto.
Qed.

(** X15.  A result whose start date is not a valid date (its duration is
    NaN, as for a [time] that cannot be parsed, or infinite, or takes the
    date out of range) is not sent: [sendResult] makes no request, says so
    on the console and counts the result as failed. *)
Theorem invalid_start_date_is_not_sent (r : TestResult) (currentTime : Z)
  (buildId : IdVal) (w : World) :
  start_time currentTime (duration_seconds r) = None ->
  sendResult o config r currentTime buildId w
  = (Ret true,
     logged w ["Unable to report test case '" ++ name r
               ++ "' to Spira due to error 'Invalid time value'."
               ++ SpiraPostResults.nl]).
Proof.
  intros Hstart. unfold sendResult. cbv zeta. rewrite Hstart.
  reflexivity.
Qed.

(** X16.  For a result with a valid start date, [sendResult] posts one
    test run, which says what the result says.  When the answer is an id
    below 1 (or [null], or a rejection), nothing else is sent and the result
    counts as failed; otherwise one document is posted for each attachment
    and then one for each link, all attached to the id of the test run, and
    the result counts as sent, whatever the server answers to the
    documents. *)
Theorem run_then_documents (r : TestResult) (currentTime : Z)
  (buildId : IdVal) (w : World) (st : Z) :
  start_time currentTime (duration_seconds r) = Some st ->
  exists run body docs,
    req_body run = OfTestRun body
    /\ reports r body
    /\ requests (snd (sendResult o config r currentTime buildId w))
       = (requests w ++ run :: docs)%list
    /\ if id_lt_one (run_id (server o (requests w) run))
       then docs = []
            /\ fst (sendResult o config r currentTime buildId w) = Ret true
       else List.map document_of docs
            = documents r (run_id (server o (requests w) run))
            /\ fst (sendResult o config r currentTime buildId w) = Ret false.
Proof.
  intros Hstart.
  destruct (sendResult_run r currentTime buildId w st Hstart)
    as (run_url & body & docs & lines & Hrun & Hreports & _ & _ & _ & Hdocs).
  exists {| req_url := run_url; req_body := OfTestRun body;
            req_username := SpiraConfig.username config;
            req_api_key := SpiraConfig.token config |}, body, docs.
  split; [reflexivity |]. split; [exact Hreports |].
  rewrite Hrun. split; [reflexivity |].
  cbn [fst].
  match goal with
  | |- context [id_lt_one ?i] => destruct (id_lt_one i)
  end; (split; [exact Hdocs | reflexivity]).
Qed.

Lemma documents_are_documents (docs : list Request) (r : TestResult)
  (id : IdVal) :
  List.map document_of docs = documents r id -> Forall is_document docs.
Proof.
  intros Hl.
  assert (Hsome : Forall (fun x => x <> None) (documents r id)).
  { unfold documents. apply Forall_app_2.
    - induction (attachments r); constructor; [discriminate | assumption].
    - induction (links r); constructor; [discriminate | assumption]. }
  rewrite <- Hl in Hsome.
  clear Hl. induction docs as [| d docs IH]; constructor.
  - inversion Hsome as [| ? ? Hd _]; subst.
    unfold document_of in Hd. unfold is_document.
    destruct (req_body d); try exact I; congruence.
  - apply IH. inversion Hsome; assumption.
Qed.

(** The requests of [sendResult]: none, or a test run of the result and
    then documents. *)
Lemma sendResult_requests (r : TestResult) (currentTime : Z)
  (buildId : IdVal) (w : World) :
  exists isError rs lines,
    sendResult o config r currentTime buildId w
    = (Ret isError, after w rs lines 0)
    /\ (rs = []
        \/ exists run body docs,
             rs = run :: docs
             /\ req_body run = OfTestRun body
             /\ reports r body
             /\ TestSetId body = sent_test_set config r
             /\ Forall is_document docs).
Proof.
  destruct (start_time currentTime (duration_seconds r)) as [st |] eqn:Hstart.
  - destruct (sendResult_run r currentTime buildId w st Hstart)
      as (run_url & body & docs & lines & Hrun & Hreports & Hset & _ & _
          & Hdocs).
    eexists _, _, lines. split; [exact Hrun |]. right.
    eexists _, body, docs. split; [reflexivity |]. split; [reflexivity |].
    split; [exact Hreports |]. split; [exact Hset |].
    match type of Hdocs with
    | if ?c then _ else _ => destruct c
    end.
    + subst docs. constructor.
    + eapply documents_are_documents, Hdocs.
  - exists true, [], ["Unable to report test case '" ++ name r
                      ++ "' to Spira due to error 'Invalid time value'."
                      ++ SpiraPostResults.nl].
    split; [| left; reflexivity].
    unfold sendResult. cbv zeta. rewrite Hstart.
    unfold try_catch, SpiraTestRun.post, SpiraTestRun.new, SpiraTestRun.iso.
    cbn [SpiraTestRun.startTime]. unfold bind at 2. unfold throw at 1.
    cbv beta iota. unfold bind. rewrite log_after. reflexivity.
Qed.

Lemma each_run_document (Q : TestRunBody -> Prop) (docs : list Request) :
  Forall is_document docs -> Forall (each_run Q) docs.
Proof.
  intros H. induction H as [| d docs Hd _ IH]; constructor; [| exact IH].
  unfold is_document in Hd. unfold each_run.
  destruct (req_body d); tauto.
Qed.

Lemma emits_sendResult_runs (Q : TestRunBody -> Prop) (r : TestResult)
  (currentTime : Z) (buildId : IdVal) :
  (forall body,
     reports r body -> TestSetId body = sent_test_set config r -> Q body) ->
  emits (each_run Q) (sendResult o config r currentTime buildId).
Proof.
  intros HQ w.
  destruct (sendResult_requests r currentTime buildId w)
    as (isError & rs & lines & Hrun & Hrs).
  rewrite Hrun. exists rs. split; [reflexivity |].
  destruct Hrs as [-> | (run & body & docs & -> & Hbody & Hreports & Hset
                         & Hdocs)]; constructor.
  - unfold each_run. rewrite Hbody. apply HQ; assumption.
  - apply each_run_document. exact Hdocs.
Qed.

(** X17.  The test run of a result is sent with the test-set id of the
    result when that is above 0, and else with the [test_set_id] of the
    configuration; it has no TestSetId when that id is -1. *)
Theorem test_set_falls_back (r : TestResult) (currentTime : Z)
  (buildId : IdVal) (w : World) :
  adds_requests
    (each_run (fun body => TestSetId body = sent_test_set config r))
    w (snd (sendResult o config r currentTime buildId w)).
Proof. apply emits_sendResult_runs. auto. Qed.

Lemma keeps_for_of_in {A B} (R : World -> World -> Prop)
  (xs : list A) (body : B -> A -> M B) (acc : B) :
  (forall w, R w w) ->
  (forall w1 w2 w3, R w1 w2 -> R w2 w3 -> R w1 w3) ->
  (forall b x, In x xs -> keeps R (body b x)) ->
  keeps R (for_of xs body acc).
Proof.
  intros Hrefl Htrans. revert acc.
  induction xs as [| x xs IH]; intros acc Hbody; cbn [for_of].
  - apply keeps_ret. exact Hrefl.
  - apply keeps_bind; [exact Htrans | |].
    + apply Hbody. left. reflexivity.
    + intros b. apply IH. intros b' x' Hin. apply Hbody. right. exact Hin.
Qed.

(** The test runs of the loop say what the results say. *)
Lemma emits_sendAll_runs (Q : TestRunBody -> Prop)
  (results : list TestResult) (buildId : IdVal) :
  (forall r body, In r results -> reports r body -> Q body) ->
  emits (each_run Q) (sendAll o config results buildId).
Proof.
  intros HQ. unfold sendAll.
  apply keeps_for_of_in;
    [apply adds_requests_refl | apply adds_requests_trans |].
  intros n r Hin.
  apply emits_bind; [apply emits_new_Date |]. intros t.
  apply emits_bind; [| intros isError; apply emits_ret].
  apply emits_sendResult_runs. intros body Hreports _.
  apply (HQ r body Hin Hreports).
Qed.

Lemma adds_requests_impl (P Q : Request -> Prop) (w w' : World) :
  (forall r, P r -> Q r) -> adds_requests P w w' -> adds_requests Q w w'.
Proof.
  intros HPQ (rs & Hrs & HP). exists rs. split; [exact Hrs |].
  clear Hrs. induction HP as [| r rs Hr _ IH]; constructor;
    [apply HPQ; exact Hr | exact IH].
Qed.

(** X18.  When [create_build] is off, [sendResults] makes no build, and
    none of its test runs has a BuildId. *)
Theorem no_build_unless_asked (results : list TestResult)
  (testsuites : JsVal) (w : World) :
  SpiraConfig.create_build config = false ->
  adds_requests without_build w
    (snd (sendResults o config results testsuites w)).
Proof.
  intros Hbuild. unfold sendResults.
  destruct (String.eqb (SpiraConfig.url config) "").
  - apply emits_log.
  - rewrite Hbuild. unfold bind at 1. unfold ret at 1.
    apply (adds_requests_impl (carries config (IdNum (num (-1))))).
    + intros r. unfold carries, without_build, sent_build_id.
      destruct (req_body r); try tauto.
      intros ->. cbn. rewrite andb_false_r. reflexivity.
    + apply emits_after_build.
Qed.

(** The creation of the build returns when the root is there. *)
Lemma createBuild_returns (results : list TestResult) (testsuites : JsVal)
  (w : World) :
  defined testsuites ->
  exists buildId w',
    createBuild o config results testsuites w = (Ret buildId, w').
Proof.
  intros Hdef. unfold createBuild.
  unfold bind at 1. rewrite log_after. unfold bind at 1.
  rewrite new_Date_after.
  assert (Hpost : forall b w0, exists buildId w',
            SpiraBuild.post o b (SpiraConfig.url config)
              (SpiraConfig.username config) (SpiraConfig.token config) w0
            = (Ret buildId, w')).
  { intros b w0. unfold SpiraBuild.post. cbv zeta. unfold bind at 1.
    rewrite axios_post_after.
    match goal with
    | |- context [server o ?h ?r] => destruct (server o h r) as [id | st msg]
    end; [eauto |].
    unfold bind. rewrite log_after. eauto. }
  destruct testsuites; try (destruct Hdef); apply Hpost.
Qed.

(** The loop returns a count, which is at most the number of results. *)
Lemma sendAll_returns (results : list TestResult) (buildId : IdVal)
  (n0 : nat) (w : World) :
  exists n w',
    for_of results
      (fun successCount testResult =>
         let* currentTime := new_Date o in
         let* isError := sendResult o config testResult currentTime buildId in
         ret (if negb isError then S successCount else successCount))
      n0 w
    = (Ret n, w')
    /\ (n <= n0 + List.length results)%nat.
Proof.
  revert n0 w. induction results as [| r results IH]; intros n0 w.
  - exists n0, w. split; [reflexivity | simpl; lia].
  - cbn [for_of]. unfold bind at 1. unfold bind at 1.
    rewrite new_Date_after.
    destruct (sendResult_returns r (now o (clock_reads w)) buildId
                (after w [] [] 1)) as (isError & w1 & Hrun).
    unfold bind at 1. rewrite Hrun. unfold ret at 1.
    destruct (IH (if negb isError then S n0 else n0) w1)
      as (n & w' & Hrest & Hle).
    exists n, w'. split; [exact Hrest |].
    destruct (negb isError); simpl in *; lia.
Qed.

(** X19.  With a url in the configuration and a root node, [sendResults]
    returns, and the last line that it writes gives the number of results
    sent, which is at most the number of results: nothing that a result or
    the server does makes it throw or makes it say that the test cases
    could not be reported. *)
Theorem sendResults_reports_a_count (results : list TestResult)
  (testsuites : JsVal) (w : World) :
  SpiraConfig.url config <> "" ->
  defined testsuites ->
  exists n w1,
    (n <= List.length results)%nat
    /\ sendResults o config results testsuites w
       = (Ret tt,
          logged w1 ["Successfully reported " ++ Z_to_string (Z.of_nat n)
                     ++ " test cases to Spira." ++ SpiraPostResults.nl]).
Proof.
  intros Hurl Hdef. unfold sendResults.
  destruct (String.eqb (SpiraConfig.url config) "") eqn:E;
    [apply String.eqb_eq in E; contradiction |].
  assert (Hbuild : exists buildId w0,
    (if SpiraConfig.create_build config
     then createBuild o config results testsuites
     else ret (IdNum (num (-1)))) w = (Ret buildId, w0)).
  { destruct (SpiraConfig.create_build config);
      [apply createBuild_returns; exact Hdef | unfold ret; eauto]. }
  destruct Hbuild as (buildId & w0 & Hbuild).
  unfold bind at 1. rewrite Hbuild. unfold bind at 1.
  set (w0' := snd (log ("Sending test results to Spira at URL '"
                        ++ SpiraConfig.url config ++ "'.") w0)).
  change (log ("Sending test results to Spira at URL '"
               ++ SpiraConfig.url config ++ "'.") w0)
    with (Ret tt, w0').
  cbv beta iota.
  destruct (sendAll_returns results buildId O w0') as (n & w1 & Hall & Hle).
  exists n, w1. split; [simpl in Hle; exact Hle |].
  unfold try_catch, bind, sendAll. rewrite Hall. reflexivity.
Qed.

(** The three posts go to the configured server with the configured
    credentials. *)
Lemma emits_addressed_post {A} (rq : Request) (k : Response -> M A) :
  addressed config rq ->
  (forall answer, emits (addressed config) (k answer)) ->
  emits (addressed config) (let* answer := axios_post o rq in k answer).
Proof.
  intros Hrq Hk. apply emits_bind; [| exact Hk].
  apply emits_axios_post. exact Hrq.
Qed.

Lemma emits_addressed_document (d : SpiraDocument.t) (data : option string) :
  SpiraDocument.projectId d = SpiraConfig.project_id config ->
  emits (addressed config)
    (SpiraDocument.post o d (SpiraConfig.url config)
       (SpiraConfig.username config) (SpiraConfig.token config) data).
Proof.
  intros Hproject. unfold SpiraDocument.post. cbv zeta.
  apply emits_addressed_post.
  - split; [| split; reflexivity]. cbn [req_url]. rewrite Hproject.
    destruct (_ && _); apply url_prefix.
  - intros [id | status msg]; emits_walk.
Qed.

Lemma emits_addressed_run (run : SpiraTestRun.t) :
  SpiraTestRun.projectId run = SpiraConfig.project_id config ->
  emits (addressed config)
    (SpiraTestRun.post o run (SpiraConfig.url config)
       (SpiraConfig.username config) (SpiraConfig.token config)).
Proof.
  intros Hproject. unfold SpiraTestRun.post. cbv zeta.
  apply emits_bind;
    [unfold SpiraTestRun.iso; destruct (SpiraTestRun.startTime run);
     emits_walk |].
  intros start_iso.
  apply emits_bind;
    [unfold SpiraTestRun.iso; destruct (SpiraTestRun.endTime run);
     emits_walk |].
  intros end_iso.
  apply emits_addressed_post.
  - split; [| split; reflexivity]. cbn [req_url]. rewrite Hproject.
    apply url_prefix.
  - intros [id | status msg]; emits_walk.
Qed.

Lemma emits_addressed_build (b : SpiraBuild.t) :
  SpiraBuild.projectId b = SpiraConfig.project_id config ->
  emits (addressed config)
    (SpiraBuild.post o b (SpiraConfig.url config)
       (SpiraConfig.username config) (SpiraConfig.token config)).
Proof.
  intros Hproject. unfold SpiraBuild.post. cbv zeta.
  apply emits_addressed_post.
  - split; [| split; reflexivity]. cbn [req_url]. rewrite Hproject.
    apply url_prefix.
  - intros [id | status msg]; emits_walk.
Qed.

Lemma emits_addressed_sendResult (r : TestResult) (currentTime : Z)
  (buildId : IdVal) :
  emits (addressed config) (sendResult o config r currentTime buildId).
Proof.
  unfold sendResult. cbv zeta. apply emits_try_catch; [| emits_walk].
  apply emits_bind; [apply emits_addressed_run; reflexivity |].
  intros testRunId. destruct (negb (id_lt_one testRunId)); [| emits_walk].
  apply emits_bind.
  - apply emits_for_of. intros _ attachment.
    apply emits_bind; [apply emits_addressed_document; reflexivity |].
    intros _. apply emits_ret.
  - intros _. apply emits_bind; [| intros _; apply emits_ret].
    apply emits_for_of. intros _ link.
    apply emits_bind; [apply emits_addressed_document; reflexivity |].
    intros _. apply emits_ret.
Qed.

(** X20.  Every request of [sendResults] (the build, the test runs, the
    documents) goes to the REST service under the [url] of the
    configuration and under its project, with its [username] and its
    [token] as credentials. *)
Theorem every_request_is_addressed (results : list TestResult)
  (testsuites : JsVal) (w : World) :
  adds_requests (addressed config) w
    (snd (sendResults o config results testsuites w)).
Proof.
  revert w.
  change (emits (addressed config)
            (sendResults o config results testsuites)).
  unfold sendResults.
  destruct (String.eqb (SpiraConfig.url config) ""); [apply emits_log |].
  apply emits_bind.
  - destruct (SpiraConfig.create_build config); [| apply emits_ret].
    unfold createBuild.
    apply emits_bind; [apply emits_log |]. intros _.
    apply emits_bind; [apply emits_new_Date |]. intros currentTime.
    destruct testsuites; try apply emits_throw;
      apply emits_addressed_build; reflexivity.
  - intros buildId.
    apply emits_bind; [apply emits_log |]. intros _.
    apply emits_try_catch; [| intros e; apply emits_log].
    apply emits_bind; [| intros n; apply emits_log].
    unfold sendAll. apply emits_for_of. intros n r.
    apply emits_bind; [apply emits_new_Date |]. intros t.
    apply emits_bind; [apply emits_addressed_sendResult |].
    intros isError. apply emits_ret.
Qed.

(** The loop over results that all have a valid start date at the
    readings of the clock that the loop makes. *)
Lemma sendAll_names (results : list TestResult) (buildId : IdVal)
  (n0 : nat) (w : World) :
  (forall k r, (clock_reads w <= k < clock_reads w + List.length results)%nat ->
               In r results ->
               start_time (now o k) (duration_seconds r) <> None) ->
  exists n rs lines,
    for_of results
      (fun successCount testResult =>
         let* currentTime := new_Date o in
         let* isError := sendResult o config testResult currentTime buildId in
         ret (if negb isError then S successCount else successCount))
      n0 w
    = (Ret n, after w rs lines (List.length results))
    /\ run_names rs = List.map name results.
Proof.
  revert n0 w. induction results as [| r results IH]; intros n0 w Hvalid.
  - exists n0, [], []. rewrite after_nil. split; reflexivity.
  - cbn [for_of]. unfold bind at 1. unfold bind at 1.
    rewrite new_Date_after.
    destruct (start_time (now o (clock_reads w)) (duration_seconds r))
      as [st |] eqn:Hstart.
    2: { destruct (Hvalid (clock_reads w) r); [simpl; lia | | exact Hstart].
         left. reflexivity. }
    destruct (sendResult_run r (now o (clock_reads w)) buildId
                (after w [] [] 1) st Hstart)
      as (run_url & body & docs & l1 & Hrun & Hreports & _ & _ & _ & Hdocs).
    unfold bind at 1. rewrite Hrun. unfold ret at 1. cbv beta iota.
    match goal with
    | |- context [for_of results _ ?m ?w1] =>
        destruct (IH m w1) as (n & rs & l2 & Hrest & Hnames)
    end.
    { intros k r' Hk Hin. apply Hvalid; [| right; exact Hin].
      cbn [after clock_reads] in Hk. simpl. lia. }
    rewrite Hrest, !after_after.
    eexists n, _, _. split; [reflexivity |].
    cbn [app run_names flat_map req_body].
    destruct Hreports as (Hname & _).
    rewrite Hname. cbn [app List.map]. f_equal.
    change (run_names (docs ++ rs) = List.map name results).
    unfold run_names. rewrite flat_map_app.
    fold (run_names rs). rewrite Hnames.
    assert (Hnone : Forall is_document docs).
    { match type of Hdocs with
      | if ?c then _ else _ => destruct c
      end; [subst docs; constructor |].
      eapply documents_are_documents, Hdocs. }
    clear - Hnone. induction Hnone as [| d docs Hd _ IHd]; [reflexivity |].
    cbn [flat_map]. unfold is_document in Hd.
    destruct (req_body d); try destruct Hd. exact IHd.
Qed.

(** X21.  When every result has a valid start date at the readings of the
    clock that the run makes, [sendResults] posts one test run for each
    result, in the order of the results, whatever the server answers: a
    result that the server rejects does not stop the results after it. *)
Theorem one_run_for_each_result (results : list TestResult)
  (testsuites : JsVal) (w : World) :
  SpiraConfig.url config <> "" ->
  truthy testsuites = true ->
  (forall k r, (k <= clock_reads w + List.length results)%nat ->
               In r results ->
               start_time (now o k) (duration_seconds r) <> None) ->
  exists rs,
    requests (snd (sendResults o config results testsuites w))
    = (requests w ++ rs)%list
    /\ run_names rs = List.map name results.
Proof.
  intros Hurl Hroot Hvalid. unfold sendResults.
  destruct (String.eqb (SpiraConfig.url config) "") eqn:E;
    [apply String.eqb_eq in E; contradiction |].
  assert (Hbuild : exists buildId w0 pre,
    (if SpiraConfig.create_build config
     then createBuild o config results testsuites
     else ret (IdNum (num (-1)))) w = (Ret buildId, w0)
    /\ requests w0 = (requests w ++ pre)%list
    /\ run_names pre = []
    /\ (clock_reads w0 <= S (clock_reads w))%nat).
  { destruct (SpiraConfig.create_build config).
    - destruct (createBuild_request o config results testsuites w Hroot)
        as (b & build_url & buildId & lines & Hrun & _).
      eexists buildId, _, [_]. split; [exact Hrun |].
      split; [reflexivity |]. split; [reflexivity |]. simpl. lia.
    - exists (IdNum (num (-1))), w, []. rewrite app_nil_r.
      repeat split; try reflexivity. lia. }
  destruct Hbuild as (buildId & w0 & pre & Hbuild & Hpre & Hnone & Hclock).
  unfold bind at 1. rewrite Hbuild. unfold bind at 1.
  rewrite log_after.
  match goal with
  | |- context [after w0 [] ?l 0] =>
      destruct (sendAll_names results buildId O (after w0 [] l 0))
        as (n & rs & lines & Hall & Hnames)
  end.
  { intros k r Hk Hin. apply Hvalid; [| exact Hin].
    cbn [after clock_reads] in Hk. lia. }
  unfold try_catch, bind, sendAll. rewrite Hall, log_after, !after_after.
  exists (pre ++ rs)%list. split.
  - cbn [snd after requests app]. rewrite Hpre, app_nil_r, <- app_assoc.
    reflexivity.
  - unfold run_names in *. rewrite flat_map_app, Hnone. exact Hnames.
Qed.

End WithOutside.

Lemma rev_onto_rev (s acc acc' : string) :
  rev_onto (rev_onto s acc) acc' = rev_onto acc (s ++ acc').
Proof.
  revert acc acc'. induction s as [| c s IH]; intros acc acc';
    [reflexivity |].
  cbn [rev_onto]. rewrite IH. reflexivity.
Qed.

Lemma rev_onto_append (a b acc : string) :
  rev_onto (a ++ b) acc = rev_onto b (rev_onto a acc).
Proof.
  revert acc. induction a as [| c a IH]; intros acc; [reflexivity |].
  change (String c a ++ b) with (String c (a ++ b)). cbn [rev_onto].
  apply IH.
Qed.

(** X22.  The milliseconds are taken out of a date that ends with a dot,
    three digits and Z, as the dates of [toISOString] do: what is before
    the dot is kept, and Z follows it. *)
Theorem strip_ms_takes_milliseconds (s : string) (d1 d2 d3 : ascii) :
  is_digit d1 = true ->
  is_digit d2 = true ->
  is_digit d3 = true ->
  SpiraTestRun.strip_ms
    (s ++ String "." (String d1 (String d2 (String d3 "Z"))))
  = s ++ "Z".
Proof.
  intros H1 H2 H3. unfold SpiraTestRun.strip_ms, rev.
  rewrite rev_onto_append. cbn [rev_onto]. rewrite H1, H2, H3.
  cbn [andb]. rewrite rev_onto_rev. cbn [rev_onto].
  rewrite append_empty_r. reflexivity.
Qed.

Lemma strip_ms_takes_milliseconds_witness :
  is_digit "1" = true
  /\ is_digit "2" = true
  /\ is_digit "3" = true
  /\ SpiraTestRun.strip_ms
       ("2024-05-06T07:08:09"
        ++ String "." (String "1" (String "2" (String "3" "Z"))))
     = "2024-05-06T07:08:09" ++ "Z".
Proof.
  repeat (split; [reflexivity |]).
  apply (strip_ms_takes_milliseconds "2024-05-06T07:08:09" "1" "2" "3");
    reflexivity.
Defined.

(** The case whose [time] cannot be parsed gives the result without a
    duration. *)
Lemma time_unparsable_result :
  Sample.results_of Sample.time_unparsable = [Reports.timeless].
Proof. vm_compute. reflexivity. Qed.

Lemma invalid_start_date_is_not_sent_witness :
  start_time 1700000000000 (duration_seconds Reports.timeless) = None
  /\ sendResult (Sample.outside (fun _ => false)) Sample.config
       Reports.timeless 1700000000000 (IdNum (num 7)) start
     = (Ret true,
        logged start
          ["Unable to report test case '" ++ name Reports.timeless
           ++ "' to Spira due to error 'Invalid time value'."
           ++ SpiraPostResults.nl]).
Proof.
  split; [reflexivity |].
  apply (invalid_start_date_is_not_sent (Sample.outside (fun _ => false))
           Sample.config Reports.timeless 1700000000000 (IdNum (num 7))
           start eq_refl).
Defined.

Lemma with_attachments_start :
  start_time 1700000000000 (duration_seconds Sample.with_attachments_result)
  = Some 1699999998500.
Proof. vm_compute. reflexivity. Qed.

Lemma run_then_documents_witness :
  start_time 1700000000000 (duration_seconds Sample.with_attachments_result)
  = Some 1699999998500
  /\ exists run body docs,
       req_body run = OfTestRun body
       /\ reports Sample.with_attachments_result body
       /\ requests
            (snd (sendResult (Sample.outside (fun _ => false)) Sample.config
                    Sample.with_attachments_result 1700000000000
                    (IdNum (num 7)) start))
          = (requests start ++ run :: docs)%list
       /\ if id_lt_one
               (run_id (server (Sample.outside (fun _ => false))
                          (requests start) run))
          then docs = []
               /\ fst (sendResult (Sample.outside (fun _ => false))
                         Sample.config Sample.with_attachments_result
                         1700000000000 (IdNum (num 7)) start)
                  = Ret true
          else List.map document_of docs
               = documents Sample.with_attachments_result
                   (run_id (server (Sample.outside (fun _ => false))
                              (requests start) run))
               /\ fst (sendResult (Sample.outside (fun _ => false))
                         Sample.config Sample.with_attachments_result
                         1700000000000 (IdNum (num 7)) start)
                  = Ret false.
Proof.
  split; [exact with_attachments_start |].
  apply (run_then_documents (Sample.outside (fun _ => false)) Sample.config
           Sample.with_attachments_result 1700000000000 (IdNum (num 7))
           start 1699999998500 with_attachments_start).
Defined.

(** The documents of the sample result, as they are sent. *)
Lemma with_attachments_documents :
  List.map document_of
    (requests
       (snd (sendResult (Sample.outside (fun _ => false)) Sample.config
               Sample.with_attachments_result 1700000000000
               (IdNum (num 7)) start)))
  = [None;
     Some (1, "out/log.txt", IdNum (num 7), Some "TWFu");
     Some (2, "http://example.com/x", IdNum (num 7), None)].
Proof. vm_compute. reflexivity. Qed.

Lemma sample_url : SpiraConfig.url Sample.config <> "".
Proof. vm_compute. discriminate. Qed.

Lemma sendResults_reports_a_count_witness :
  SpiraConfig.url Sample.config <> ""
  /\ defined (VObj [])
  /\ exists n w1,
       (n <= List.length [Sample.passed; Sample.failed])%nat
       /\ sendResults (Sample.outside (fun _ => false)) Sample.config
            [Sample.passed; Sample.failed] (VObj []) start
          = (Ret tt,
             logged w1 ["Successfully reported " ++ Z_to_string (Z.of_nat n)
                        ++ " test cases to Spira." ++ SpiraPostResults.nl]).
Proof.
  split; [exact sample_url |]. split; [exact I |].
  apply (sendResults_reports_a_count (Sample.outside (fun _ => false))
           Sample.config [Sample.passed; Sample.failed] (VObj []) start
           sample_url I).
Defined.

Lemma plain_config_asks_no_build :
  SpiraConfig.create_build Reports.plain_config = false.
Proof. vm_compute. reflexivity. Qed.

Lemma no_build_unless_asked_witness :
  SpiraConfig.create_build Reports.plain_config = false
  /\ adds_requests without_build start
       (snd (sendResults (Sample.outside (fun _ => false))
               Reports.plain_config [Sample.passed; Sample.failed]
               (VObj []) start)).
Proof.
  split; [exact plain_config_asks_no_build |].
  apply (no_build_unless_asked (Sample.outside (fun _ => false))
           Reports.plain_config [Sample.passed; Sample.failed] (VObj [])
           start plain_config_asks_no_build).
Defined.

Lemma sample_dates_are_valid (k : nat) (r : TestResult) :
  (k <= clock_reads start + List.length [Sample.passed; Sample.failed])%nat ->
  In r [Sample.passed; Sample.failed] ->
  start_time (now (Sample.outside (fun _ => false)) k) (duration_seconds r)
  <> None.
Proof.
  intros Hk Hin. simpl in Hk.
  assert (Hcases : k = 0%nat \/ k = 1%nat \/ k = 2%nat) by lia.
  destruct Hin as [<- | [<- | []]];
    destruct Hcases as [-> | [-> | ->]]; vm_compute; discriminate.
Qed.

Lemma one_run_for_each_result_witness :
  SpiraConfig.url Sample.config <> ""
  /\ truthy (VObj []) = true
  /\ (forall k r,
        (k <= clock_reads start
              + List.length [Sample.passed; Sample.failed])%nat ->
        In r [Sample.passed; Sample.failed] ->
        start_time (now (Sample.outside (fun _ => false)) k)
          (duration_seconds r) <> None)
  /\ exists rs,
       requests
         (snd (sendResults (Sample.outside (fun _ => false)) Sample.config
                 [Sample.passed; Sample.failed] (VObj []) start))
       = (requests start ++ rs)%list
       /\ run_names rs = List.map name [Sample.passed; Sample.failed].
Proof.
  split; [exact sample_url |]. split; [reflexivity |].
  split; [exact sample_dates_are_valid |].
  apply (one_run_for_each_result (Sample.outside (fun _ => false))
           Sample.config [Sample.passed; Sample.failed] (VObj []) start
           sample_url eq_refl sample_dates_are_valid).
Defined.

End SendFacts.

(** ** Properties of the whole run *)

Module RunFacts.

Import SpiraPostResults ParseResults Case Walk Sent MonadFacts SubmitterFacts
  WalkFacts SendFacts.

Section WithOutside.

Variable o : Outside.
Variable config : SpiraConfig.t.

(** The test runs of [sendResults] say what the results say. *)
Lemma emits_sendResults_runs (Q : TestRunBody -> Prop)
  (results : list TestResult) (testsuites : JsVal) :
  (forall r body, In r results -> reports r body -> Q body) ->
  emits (each_run Q) (sendResults o config results testsuites).
Proof.
  intros HQ. unfold sendResults.
  destruct (String.eqb (SpiraConfig.url config) ""); [apply emits_log |].
  apply emits_bind.
  - destruct (SpiraConfig.create_build config); [| apply emits_ret].
    unfold createBuild, SpiraBuild.post.
    destruct testsuites; emits_walk.
  - intros buildId.
    apply emits_bind; [apply emits_log |]. intros _.
    apply emits_try_catch; [| intros e; apply emits_log].
    apply emits_bind; [| intros n; apply emits_log].
    apply emits_sendAll_runs. exact HQ.
Qed.

(** X23.  With an empty [url] in the configuration the whole run is off
    line: whatever the report holds, [parseResults] makes no request and
    does not read the clock. *)
Theorem run_without_url_is_off_line (result : JsVal) (reportFile : string)
  (w : World) :
  SpiraConfig.url config = "" ->
  requests (snd (parseResults o config result reportFile w)) = requests w
  /\ clock_reads (snd (parseResults o config result reportFile w))
     = clock_reads w.
Proof.
  intros Hurl. unfold parseResults.
  assert (Hbody :
    forall testsuites root,
      let run :=
        (processTestSuites o config (S (depth testsuites)) testsuites
           reportFile (VStr "");;
         let* results := get_testResults in
         sendResults o config results root)%js in
      requests (snd (run w)) = requests w
      /\ clock_reads (snd (run w)) = clock_reads w).
  { intros testsuites root run. unfold run, bind.
    destruct (walk_adds o config (S (depth testsuites)) testsuites reportFile
                (VStr "") w) as (Hrequests & Hclock & _).
    destruct (processTestSuites o config (S (depth testsuites)) testsuites
                reportFile (VStr "") w) as [[[] | e] w1];
      simpl in Hrequests, Hclock; [| split; assumption].
    unfold get_testResults, sendResults. rewrite Hurl.
    split; assumption. }
  destruct result; try (split; reflexivity); apply Hbody.
Qed.

(** X24.  On a report whose texts are of ASCII characters and whose
    suites are not named after a member that every object inherits, when
    the results that the parser holds are accounted for by the tables, so is
    every test run that [parseResults] sends: its TestCaseId is the entry
    of the table of test cases under its lower-cased RunnerTestName and is
    not 0, and its status is 1, 2, 4, 5 or 6. *)
Theorem runs_are_for_known_cases (result : JsVal) (reportFile : string)
  (w : World) :
  Text.plain_report result ->
  Forall (from_tables config) (testResults w) ->
  adds_requests (for_known_case config) w
    (snd (parseResults o config result reportFile w)).
Proof.
  intros _ Hheld. unfold parseResults.
  assert (Hbody :
    forall testsuites root,
      adds_requests (for_known_case config) w
        (snd ((processTestSuites o config (S (depth testsuites)) testsuites
                 reportFile (VStr "");;
               let* results := get_testResults in
               sendResults o config results root)%js w))).
  { intros testsuites root. unfold bind.
    destruct (walk_adds o config (S (depth testsuites)) testsuites reportFile
                (VStr "") w) as (Hrequests & _ & rs & Hresults & Hadded).
    destruct (processTestSuites o config (S (depth testsuites)) testsuites
                reportFile (VStr "") w) as [[[] | e] w1];
      simpl in Hrequests, Hresults.
    2: { exists []. simpl. rewrite app_nil_r. split; [exact Hrequests |].
         constructor. }
    unfold get_testResults.
    assert (Hall : Forall (from_tables config) (testResults w1))
      by (rewrite Hresults; apply Forall_app_2; assumption).
    destruct (emits_sendResults_runs
                (fun body =>
                   SpiraConfig.test_case_ids config
                     !! toLowerCase (RunnerTestName body)
                   = Some (TestCaseId body)
                   /\ num_truthy (TestCaseId body) = true
                   /\ In (ExecutionStatusId body) [1; 2; 4; 5; 6])
                (testResults w1) root) with (w := w1) as (sent & Hsent & HP).
    - intros r body Hin (Hname & Hcase & Hstatus & _).
      rewrite Hname, Hcase, Hstatus.
      apply (proj1 (List.Forall_forall _ _) Hall) in Hin.
      destruct Hin as (Hid & Htruthy & _ & Hin). auto.
    - exists sent. rewrite <- Hrequests. split; [exact Hsent | exact HP]. }
  destruct result; try apply adds_requests_refl; apply Hbody.
Qed.

(** X25.  When the root element of the report is a [testsuite] (there is
    no [testsuites] element), the build of the run takes nothing from the
    report: it is named after the runner and the date, not after the suite,
    and its description is empty, whatever counts the suite gives. *)
Theorem bare_suite_build_is_unnamed (result : JsVal) (reportFile : string)
  (w : World) :
  truthy (field "testsuites" result) = false ->
  adds_requests (unnamed_build o) w
    (snd (parseResults o config result reportFile w)).
Proof.
  intros Hroot. unfold parseResults.
  assert (Hor : or_else (field "testsuites" result) (VObj []) = VObj [])
    by (unfold or_else; rewrite Hroot; reflexivity).
  rewrite Hor.
  assert (Hsend : forall results,
            emits (unnamed_build o) (sendResults o config results (VObj []))).
  { intros results. unfold sendResults.
    destruct (String.eqb (SpiraConfig.url config) ""); [apply emits_log |].
    apply emits_bind.
    - destruct (SpiraConfig.create_build config); [| apply emits_ret].
      unfold createBuild, SpiraBuild.post. cbv zeta.
      apply emits_bind; [apply emits_log |]. intros _.
      apply emits_bind; [apply emits_new_Date |]. intros currentTime.
      apply emits_bind; [| intros [id | status msg]; emits_walk].
      apply emits_axios_post. split; [reflexivity |].
      exists currentTime. reflexivity.
    - intros buildId. intros w0.
      apply (adds_requests_impl (carries config buildId)).
      + intros r. unfold carries, unnamed_build.
        destruct (req_body r); tauto.
      + apply emits_after_build. }
  assert (Hbody :
    forall testsuites,
      adds_requests (unnamed_build o) w
        (snd ((processTestSuites o config (S (depth testsuites)) testsuites
                 reportFile (VStr "");;
               let* results := get_testResults in
               sendResults o config results (VObj []))%js w))).
  { intros testsuites. unfold bind.
    destruct (walk_adds o config (S (depth testsuites)) testsuites reportFile
                (VStr "") w) as (Hrequests & _).
    destruct (processTestSuites o config (S (depth testsuites)) testsuites
                reportFile (VStr "") w) as [[[] | e] w1];
      simpl in Hrequests.
    2: { exists []. simpl. rewrite app_nil_r. split; [exact Hrequests |].
         constructor. }
    unfold get_testResults.
    destruct (Hsend (testResults w1) w1) as (sent & Hsent & HP).
    exists sent. rewrite <- Hrequests. split; [exact Hsent | exact HP]. }
  destruct result; try apply adds_requests_refl; apply Hbody.
Qed.

End WithOutside.

Lemma bare_suite_build_is_unnamed_witness :
  truthy (field "testsuites" Reports.nested) = false
  /\ adds_requests (unnamed_build (Sample.outside (fun _ => false))) start
       (snd (parseResults (Sample.outside (fun _ => false)) Sample.config
               Reports.nested Sample.report start)).
Proof.
  split; [reflexivity |].
  apply (bare_suite_build_is_unnamed (Sample.outside (fun _ => false))
           Sample.config Reports.nested Sample.report start eq_refl).
Defined.

Lemma run_without_url_is_off_line_witness :
  SpiraConfig.url SpiraConfig.initial = ""
  /\ requests
       (snd (parseResults (Sample.outside (fun _ => false))
               SpiraConfig.initial Reports.nested Sample.report start))
     = requests start
  /\ clock_reads
       (snd (parseResults (Sample.outside (fun _ => false))
               SpiraConfig.initial Reports.nested Sample.report start))
     = clock_reads start.
Proof.
  split; [reflexivity |].
  apply (run_without_url_is_off_line (Sample.outside (fun _ => false))
           SpiraConfig.initial Reports.nested Sample.report start eq_refl).
Defined.

Lemma nested_report_is_plain : Text.plain_report Reports.nested.
Proof. split; vm_compute; reflexivity. Qed.

Lemma runs_are_for_known_cases_witness :
  Text.plain_report Reports.nested
  /\ Forall (from_tables Sample.config) (testResults start)
  /\ adds_requests (for_known_case Sample.config) start
       (snd (parseResults (Sample.outside (fun _ => false)) Sample.config
               Reports.nested Sample.report start))
  /\ Sent.run_names
       (requests
          (snd (parseResults (Sample.outside (fun _ => false)) Sample.config
                  Reports.nested Sample.report start)))
     = ["LIS.Registration.registration1"].
Proof.
  split; [exact nested_report_is_plain |]. split; [constructor |].
  split; [| vm_compute; reflexivity].
  apply (runs_are_for_known_cases (Sample.outside (fun _ => false))
           Sample.config Reports.nested Sample.report start
           nested_report_is_plain).
  constructor.
Defined.

End RunFacts.
